(** * Webhook intake and usage billing (webhooks.py, init_db.py)

  A shallow embedding of the webhook pipeline of the repository:
  signature verification ([verify_webhook]), order ingestion
  ([save_order]), usage charging ([create_usage_charge]), the audit trail
  ([save_notification]) and the two endpoints ([orders_create],
  [orders_paid]), over the tables declared in init_db.py.

  The Python library functions the code calls are modelled next to it:
  SHA-256, HMAC and base64 are written out and run on the published test
  vectors; the HTTP client is an oracle handed to the call. *)

From Stdlib Require Import ZArith NArith QArith Lia String Ascii List.
From stdpp Require Import base option list gmap strings pretty.

Local Open Scope string_scope.

(** Python [bytes] are Rocq strings: one [ascii] per byte. *)
Abbreviation bytes := string.

(** ** hashlib.sha256 *)

Module SHA256.
Local Open Scope N_scope.

Definition wmod : N := 4294967296.
Definition add32 (a b : N) : N := (a + b) mod wmod.
Definition rotr (n x : N) : N :=
  N.lor (N.shiftr x n) (N.shiftl x (32 - n) mod wmod).
Definition not32 (x : N) : N := N.lxor x 4294967295.

Definition Ch (x y z : N) : N := N.lxor (N.land x y) (N.land (not32 x) z).
Definition Maj (x y z : N) : N :=
  N.lxor (N.lxor (N.land x y) (N.land x z)) (N.land y z).
Definition Sigma0 (x : N) : N := N.lxor (N.lxor (rotr 2 x) (rotr 13 x)) (rotr 22 x).
Definition Sigma1 (x : N) : N := N.lxor (N.lxor (rotr 6 x) (rotr 11 x)) (rotr 25 x).
Definition sigma0 (x : N) : N := N.lxor (N.lxor (rotr 7 x) (rotr 18 x)) (N.shiftr x 3).
Definition sigma1 (x : N) : N := N.lxor (N.lxor (rotr 17 x) (rotr 19 x)) (N.shiftr x 10).

(** The round constants are the first 32 bits of the fractional parts of
  the cube roots of the first 64 primes, the initial hash value those of
  the square roots of the first 8. *)
Definition is_prime (n : N) : bool :=
  (1 <? n) && forallb (fun d => negb (n mod d =? 0))
                (map N.of_nat (seq 2 (N.to_nat (N.sqrt n) - 1))).

Definition primes : list N := List.filter is_prime (map N.of_nat (seq 2 310)).

(** The largest [r] below 2^40 with [r^3 <= n], found bit by bit. *)
Definition cube_root (n : N) : N :=
  fold_left (fun r b => let r' := r + 2 ^ N.of_nat b in
                        if r' * r' * r' <=? n then r' else r)
    (rev (seq 0 40)) 0.

Definition K : list N :=
  Eval vm_compute in map (fun p => cube_root (p * 2 ^ 96) mod wmod) primes.

Definition H0 : list N :=
  Eval vm_compute in map (fun p => N.sqrt (p * 2 ^ 64) mod wmod) (firstn 8 primes).

(** Padding: a 1 bit, zeros up to 56 mod 64, the bit length on 8 bytes. *)
Definition be_bytes (width : nat) (n : N) : list N :=
  map (fun i => (n / 256 ^ N.of_nat i) mod 256) (rev (seq 0 width)).

Definition pad (msg : list N) : list N :=
  let len := N.of_nat (length msg) in
  let zeros := (64 - (len + 9) mod 64) mod 64 in
  msg ++ [128] ++ repeat 0 (N.to_nat zeros) ++ be_bytes 8 (8 * len).

Fixpoint words_of_bytes (l : list N) : list N :=
  match l with
  | a :: b :: c :: d :: r =>
      (a * 16777216 + b * 65536 + c * 256 + d) :: words_of_bytes r
  | _ => []
  end.

(** The message schedule: 16 words of the block, then 48 derived ones. *)
Definition schedule_step (w : list N) : list N :=
  let t := length w in
  let at_ (i : nat) := nth (t - i) w 0 in
  w ++ [add32 (add32 (sigma1 (at_ 2%nat)) (at_ 7%nat))
              (add32 (sigma0 (at_ 15%nat)) (at_ 16%nat))].

Definition schedule (block : list N) : list N :=
  Nat.iter 48 schedule_step block.

Definition round (s : list N) (kw : N * N) : list N :=
  match s with
  | [a; b; c; d; e; f; g; h] =>
      let t1 := add32 (add32 (add32 h (Sigma1 e)) (Ch e f g))
                      (add32 (fst kw) (snd kw)) in
      let t2 := add32 (Sigma0 a) (Maj a b c) in
      [add32 t1 t2; a; b; c; add32 d t1; e; f; g]
  | _ => s
  end.

Definition compress (h : list N) (block : list N) : list N :=
  let s := fold_left round (combine K (schedule block)) h in
  map (fun p => add32 (fst p) (snd p)) (combine h s).

Fixpoint process (fuel : nat) (h : list N) (ws : list N) : list N :=
  match fuel, ws with
  | S fuel', _ :: _ => process fuel' (compress h (firstn 16 ws)) (skipn 16 ws)
  | _, _ => h
  end.

Definition to_bytes (s : string) : list N := map N_of_ascii (list_ascii_of_string s).
Definition of_bytes (l : list N) : string := string_of_list_ascii (map ascii_of_N l).

Definition digest (msg : bytes) : bytes :=
  let ws := words_of_bytes (pad (to_bytes msg)) in
  of_bytes (concat (map (be_bytes 4) (process (length ws) H0 ws))).

Definition hex_digit (n : N) : ascii :=
  ascii_of_N (if n <? 10 then 48 + n else 87 + n).
Definition hex (s : bytes) : string :=
  string_of_list_ascii
    (concat (map (fun b => [hex_digit (b / 16); hex_digit (b mod 16)]) (to_bytes s))).
End SHA256.

(** ** hmac.new(key, msg, hashlib.sha256).digest() *)

Module HMAC.
Definition block_size : nat := 64.

Definition xor_pad (p : N) (key : bytes) : bytes :=
  SHA256.of_bytes (map (fun b => N.lxor b p) (SHA256.to_bytes key)).

Definition block_key (key : bytes) : bytes :=
  let k := if Nat.ltb block_size (String.length key) then SHA256.digest key else key in
  k ++ SHA256.of_bytes (repeat 0%N (block_size - String.length k)).

Definition digest (key msg : bytes) : bytes :=
  let k := block_key key in
  SHA256.digest (xor_pad 0x5c k ++ SHA256.digest (xor_pad 0x36 k ++ msg)).
End HMAC.

(** ** base64.b64encode *)

Module Base64.
Local Open Scope N_scope.

Definition alphabet : string :=
  "ABCDEFGHIJKLMNOPQRSTUVWXYZabcdefghijklmnopqrstuvwxyz0123456789+/".
Definition pad_char : ascii := "="%char.

Definition char (n : N) : ascii :=
  match String.get (N.to_nat n) alphabet with
  | Some c => c
  | None => pad_char
  end.

(** The four sextets of a group of three bytes. *)
Definition enc1 (a : ascii) : ascii := char (N_of_ascii a / 4).
Definition enc2 (a b : ascii) : ascii :=
  char ((N_of_ascii a mod 4) * 16 + N_of_ascii b / 16).
Definition enc3 (b c : ascii) : ascii :=
  char ((N_of_ascii b mod 16) * 4 + N_of_ascii c / 64).
Definition enc4 (c : ascii) : ascii := char (N_of_ascii c mod 64).

Fixpoint b64encode (s : bytes) : bytes :=
  match s with
  | String a (String b (String c r)) =>
      String (enc1 a) (String (enc2 a b) (String (enc3 b c)
        (String (enc4 c) (b64encode r))))
  | String a (String b EmptyString) =>
      String (enc1 a) (String (enc2 a b) (String (enc3 b zero)
        (String pad_char EmptyString)))
  | String a EmptyString =>
      String (enc1 a) (String (enc2 a zero) (String pad_char
        (String pad_char EmptyString)))
  | EmptyString => EmptyString
  end.

(** Position of a character in the alphabet, 64 when it is not there. *)
Fixpoint index_from (i : N) (al : string) (c : ascii) : N :=
  match al with
  | EmptyString => i
  | String d r => if Ascii.eqb c d then i else index_from (i + 1) r c
  end.
Definition index (c : ascii) : N := index_from 0 alphabet c.
End Base64.

(** ** str.encode('utf-8')

  A header value reaches the handler as a [str] with one code point below
  256 per byte received on the wire; such a string is a Rocq string, and its
  UTF-8 encoding takes one byte below 128 and two bytes from 128 on. *)

Definition utf8_char (c : ascii) : bytes :=
  let n := N_of_ascii c in
  if (n <? 128)%N then String c EmptyString
  else String (ascii_of_N (192 + n / 64))
         (String (ascii_of_N (128 + n mod 64)) EmptyString).

Fixpoint encode_utf8 (s : string) : bytes :=
  match s with
  | EmptyString => EmptyString
  | String c r => utf8_char c ++ encode_utf8 r
  end.

(** The strings that are their own UTF-8 encoding. *)
Fixpoint all_ascii (s : string) : bool :=
  match s with
  | EmptyString => true
  | String c r => (N_of_ascii c <? 128)%N && all_ascii r
  end.

(** A string with the byte at position [i] replaced by [c]. *)
Fixpoint set_byte (i : nat) (c : ascii) (s : string) : string :=
  match s, i with
  | EmptyString, _ => EmptyString
  | String _ r, O => String c r
  | String a r, S j => String a (set_byte j c r)
  end.

(** ** hmac.compare_digest

    Equality of two byte strings; that it runs in constant time is not
    visible in the result. *)

Definition compare_digest (a b : bytes) : bool := String.eqb a b.

(** ** Python values, exceptions and results *)

(** The scalars a JSON order carries in the fields the handlers read. A
    JSON string may hold a lone surrogate (the escape \ud800 on its own):
    such a str is [PySurrogates], and its characters are not modelled, since
    it can be neither encoded nor stored. *)
Inductive pyval : Type :=
| PyNone
| PyInt (n : Z)
| PyStr (s : string)
| PySurrogates.

(** [request.json] of an order event: a dict from keys to values. *)
Abbreviation pydict := (gmap string pyval).

Inductive exn : Type :=
| KeyError (key : string)
| TypeError
| AttributeError
| OverflowError
| UnicodeEncodeError
| ConnectionError
| JSONDecodeError
| BadRequest.

Inductive result (A : Type) : Type :=
| Ok (a : A)
| Raise (e : exn).
Arguments Ok {A} a.
Arguments Raise {A} e.

(** ** The tables of init_db.py

    A TEXT column holds NULL ([None]) or a text. *)

Module Users.
(** Modelled from the spec: [create_users_table] declares shopify_shop,
    access_token, charge_id and plan_name; the [order_count] column that
    [save_order] updates and reads is declared outside src/. It is the
    cumulative order counter of section 3 of the spec, an integer. *)
Record row : Type := {
  access_token : option string;
  charge_id : option string;
  plan_name : option string;
  order_count : Z
}.
End Users.

Module Orders.
Record row : Type := {
  id : Z;
  shopify_order_id : option string;
  shopify_shop : option string;
  status : option string;
  details : option string;
  created_at : option string;
  updated_at : option string
}.
End Orders.

Module Notifications.
Record row : Type := {
  id : Z;
  shopify_shop : option string;
  message : option string;
  created_at : option string
}.
End Notifications.

(** database.db. [users] is keyed by its primary key shopify_shop; the two
    AUTOINCREMENT tables keep the last id they handed out. *)
Record db : Type := {
  users : gmap string Users.row;
  orders : list Orders.row;
  orders_seq : Z;
  notifications : list Notifications.row;
  notifications_seq : Z
}.

(** ** The billing gateway *)

Record usage_charge : Type := {
  description : string;
  price : Q
}.

Record http_request : Type := {
  url : string;
  headers : list (string * option string);
  json : usage_charge
}.

(** What [requests.post] and then [response.json()] can do: no response at
    all, or a response with a status and a body that parses as JSON or not. *)
Inductive http_reply : Type :=
| NoResponse
| Response (status_code : Z) (body : option string).

(** What a call finds outside the process: the clock behind
    CURRENT_TIMESTAMP and the gateway behind [requests.post]. *)
Record outside : Type := {
  now : string;
  requests_post : http_request -> http_reply
}.

(** The store and the requests sent to the gateway so far. *)
Record world : Type := {
  database : db;
  posted : list http_request
}.

(** ** A state and exception monad for the handlers *)

Definition M (A : Type) : Type := world -> result A * world.

Definition ret {A : Type} (a : A) : M A := fun w => (Ok a, w).
Definition raise {A : Type} (e : exn) : M A := fun w => (Raise e, w).
Definition bind {A B : Type} (m : M A) (k : A -> M B) : M B :=
  fun w =>
    match m w with
    | (Ok a, w') => k a w'
    | (Raise e, w') => (Raise e, w')
    end.
Definition lift {A : Type} (r : result A) : M A := fun w => (r, w).
(** Reading the store, and running a statement that writes to it. *)
Definition get_db : M db := fun w => (Ok (database w), w).
Definition execute (stmt : db -> db) : M unit :=
  fun w => (Ok tt, {| database := stmt (database w); posted := posted w |}).

Declare Scope py_scope.
Delimit Scope py_scope with py.
Notation "x <- m ;; k" := (bind m (fun x => k))
  (at level 100, m at next level, right associativity) : py_scope.
Notation "m ;;; k" := (bind m (fun _ => k))
  (at level 100, right associativity) : py_scope.
Local Open Scope py_scope.

(** ** Module constants of webhooks.py *)

(** Number of orders included in the subscription plan. *)
Definition USAGE_CHARGE_LIMIT : Z := 100.
(** Cost per additional order beyond the limit: the float 0.25, which is the
    exact rational 1/4. *)
Definition USAGE_CHARGE_COST : Q := 1 # 4.

(** ** Dictionary access and parameter binding *)

(** [d[key]] *)
Definition subscript (d : pydict) (key : string) : result pyval :=
  match d !! key with
  | Some v => Ok v
  | None => Raise (KeyError key)
  end.

(** [d.get(key, fallback)] *)
Definition dict_get (d : pydict) (key : string) (fallback : pyval) : pyval :=
  match d !! key with
  | Some v => v
  | None => fallback
  end.

(** Binding a Python value to a parameter of a TEXT column: None is NULL, an
    integer must fit 64 bits and is stored as its decimal text, a string is
    encoded in UTF-8 and stored as it is; a lone surrogate has no encoding. *)
Definition bind_text (v : pyval) : result (option string) :=
  match v with
  | PyNone => Ok None
  | PyInt n =>
      if ((- 2 ^ 63 <=? n) && (n <? 2 ^ 63))%Z then Ok (Some (pretty n))
      else Raise OverflowError
  | PyStr s => Ok (Some s)
  | PySurrogates => Raise UnicodeEncodeError
  end.

(** The parameters [save_order] hands to its INSERT, as far as they can
    fail: [order['id']] and [order['updated_at']] are looked up when the
    tuple is built (KeyError), then id, status and updated_at are bound in
    that order (OverflowError). The status is
    [order.get('financial_status', 'pending')]. *)
Definition order_params (order : pydict)
  : result (option string * option string * option string) :=
  match subscript order "id" with
  | Raise e => Raise e
  | Ok order_id =>
      match subscript order "updated_at" with
      | Raise e => Raise e
      | Ok updated_at =>
          let financial_status := dict_get order "financial_status" (PyStr "pending") in
          match bind_text order_id with
          | Raise e => Raise e
          | Ok oid =>
              match bind_text financial_status with
              | Raise e => Raise e
              | Ok st =>
                  match bind_text updated_at with
                  | Raise e => Raise e
                  | Ok upd => Ok (oid, st, upd)
                  end
              end
          end
      end
  end.

(** A value inside an f-string. *)
Definition py_format (v : option string) : string :=
  match v with
  | Some s => s
  | None => "None"
  end.

(** ** The SQL statements *)

(** The UNIQUE constraint on orders.shopify_order_id: two rows conflict when
    both ids are texts and equal; NULL conflicts with nothing. *)
Definition conflicts (oid : option string) (r : Orders.row) : bool :=
  match oid, Orders.shopify_order_id r with
  | Some x, Some y => String.eqb x y
  | _, _ => false
  end.

(** The id an AUTOINCREMENT table gives its next row: one more than the
    largest id it has handed out or holds. *)
Definition next_id (seq : Z) (ids : list Z) : Z :=
  (fold_right Z.max seq ids + 1)%Z.

(** INSERT OR REPLACE INTO orders (shopify_order_id, shopify_shop, status,
    details, updated_at) VALUES (?, ?, ?, ?, ?): the conflicting row is
    deleted, the new row takes the next id and the default created_at. *)
Definition insert_or_replace_order (ts : string)
    (oid shop st det upd : option string) (d : db) : db :=
  let new_id := next_id (orders_seq d) (map Orders.id (orders d)) in
  {| users := users d;
     orders :=
       List.filter (fun r => negb (conflicts oid r)) (orders d)
       ++ [ {| Orders.id := new_id;
               Orders.shopify_order_id := oid;
               Orders.shopify_shop := shop;
               Orders.status := st;
               Orders.details := det;
               Orders.created_at := Some ts;
               Orders.updated_at := upd |} ];
     orders_seq := new_id;
     notifications := notifications d;
     notifications_seq := notifications_seq d |}.

(** The row after [order_count + 1]. SQLite keeps the counter an INTEGER of
    64 bits: the sum is this one for a counter from -2^63 to 2^63 - 2. At
    2^63 - 1 SQLite stores the REAL 2^63 instead, which no later increment
    changes; the properties about the size of the count are stated within
    that range ([exact_counter], [int64]). *)
Definition bump (u : Users.row) : Users.row :=
  {| Users.access_token := Users.access_token u;
     Users.charge_id := Users.charge_id u;
     Users.plan_name := Users.plan_name u;
     Users.order_count := (Users.order_count u + 1)%Z |}.

(** UPDATE users SET order_count = order_count + 1 WHERE shopify_shop = ?
    A NULL parameter matches no row. *)
Definition increment_order_count (shop : option string) (d : db) : db :=
  match shop with
  | None => d
  | Some s =>
      {| users := alter bump s (users d);
         orders := orders d;
         orders_seq := orders_seq d;
         notifications := notifications d;
         notifications_seq := notifications_seq d |}
  end.

(** SELECT ... FROM users WHERE shopify_shop = ? followed by fetchone(). *)
Definition select_user (shop : option string) (d : db) : option Users.row :=
  match shop with
  | None => None
  | Some s => users d !! s
  end.

(** INSERT INTO notifications (shopify_shop, message, created_at)
    VALUES (?, ?, ?) *)
Definition insert_notification (shop msg ts : option string) (d : db) : db :=
  let new_id := next_id (notifications_seq d)
                  (map Notifications.id (notifications d)) in
  {| users := users d;
     orders := orders d;
     orders_seq := orders_seq d;
     notifications :=
       notifications d
       ++ [ {| Notifications.id := new_id;
               Notifications.shopify_shop := shop;
               Notifications.message := msg;
               Notifications.created_at := ts |} ];
     notifications_seq := new_id |}.

(** ** The HTTP client *)

(** [requests.post(url, json=payload, headers=headers)]: the request goes
    out; no response raises. *)
Definition post (out : outside) (req : http_request) : M http_reply :=
  fun w =>
    let w' := {| database := database w; posted := posted w ++ [req] |} in
    match requests_post out req with
    | NoResponse => (Raise ConnectionError, w')
    | Response c b => (Ok (Response c b), w')
    end.

(** [response.json()] *)
Definition response_json (r : http_reply) : result string :=
  match r with
  | Response _ (Some b) => Ok b
  | _ => Raise JSONDecodeError
  end.

(** The request [create_usage_charge] builds from the row it selected: the
    usage-charge URL of the shop's recurring charge, the access token and
    the price [excess_orders * USAGE_CHARGE_COST]. Python converts the
    integer to a float and multiplies by 0.25: for an excess up to 2^53 in
    absolute value both steps are exact, and a float is the value it
    denotes, so the price is kept as a rational in lowest terms. Beyond
    2^53 the conversion rounds, and beyond the range of floats it raises
    OverflowError before the request is built; the properties about prices
    are stated for an excess up to 2^53 ([exact_counter], [exact_excess]). *)
Definition usage_charge_request (shop : option string) (user : Users.row)
    (excess_orders : Z) : http_request :=
  let access_token := Users.access_token user in
  let charge_id := Users.charge_id user in
  let usage_charge_url :=
    "https://" ++ py_format shop
    ++ "/admin/api/2023-01/recurring_application_charges/"
    ++ py_format charge_id ++ "/usage_charges.json" in
  let headers :=
    [ ("X-Shopify-Access-Token", access_token);
      ("Content-Type", Some "application/json") ] in
  let payload :=
    {| description := "Additional orders";
       price := Qred (inject_Z excess_orders * USAGE_CHARGE_COST) |} in
  {| url := usage_charge_url; headers := headers; json := payload |}.

(** ** Requests and responses *)

(** [request.json]: an object, some other JSON value, or no JSON at all. *)
Inductive json_body : Type :=
| JsonObject (o : pydict)
| JsonOther
| JsonInvalid.

(** What a view reads from the Flask request: the raw body and the two
    headers ([None] when a header is absent). *)
Record request : Type := {
  get_data : bytes;
  X_Shopify_Hmac_Sha256 : option string;
  X_Shopify_Shop_Domain : option string;
  request_json : json_body
}.

Inductive response : Type :=
| Success
| VerificationFailed
| Aborted
| InternalServerError (e : exn).

Definition status_of (r : response) : Z :=
  match r with
  | Success => 200
  | VerificationFailed => 400
  | Aborted => 400
  | InternalServerError _ => 500
  end.

(** Flask around a view: an HTTP abort becomes its response, any other
    exception a 500. *)
Definition flask (view : M response) (w : world) : response * world :=
  match view w with
  | (Ok r, w') => (r, w')
  | (Raise BadRequest, w') => (Aborted, w')
  | (Raise e, w') => (InternalServerError e, w')
  end.

Definition get_json (req : request) : result pydict :=
  match request_json req with
  | JsonObject o => Ok o
  | JsonOther => Raise TypeError
  | JsonInvalid => Raise BadRequest
  end.

(** ** webhooks.py *)

Section Webhooks.

(** [str] of a dict, the text stored in orders.details. *)
Variable py_str : pydict -> string.

(** config.SHOPIFY_CLIENT_SECRET, read with os.environ.get: [None] when the
    variable is not set. *)
Variable SHOPIFY_CLIENT_SECRET : option string.

Definition verify_webhook (data : bytes) (hmac_header : option string) : result bool :=
  match SHOPIFY_CLIENT_SECRET with
  | None => Raise AttributeError
  | Some secret =>
      let digest := HMAC.digest (encode_utf8 secret) data in
      let computed_hmac := Base64.b64encode digest in
      match hmac_header with
      | None => Raise AttributeError
      | Some h => Ok (compare_digest computed_hmac (encode_utf8 h))
      end
  end.

Definition create_usage_charge (out : outside) (shop : option string)
    (excess_orders : Z) : M string :=
  d <- get_db ;;
  match select_user shop d with
  | None => raise TypeError
  | Some user =>
      response <- post out (usage_charge_request shop user excess_orders) ;;
      lift (response_json response)
  end.

Definition save_order (out : outside) (order : pydict) (shop : option string) : M unit :=
  params <- lift (order_params order) ;;
  let '(oid, st, upd) := params in
  execute (insert_or_replace_order (now out) oid shop st (Some (py_str order)) upd) ;;;
  execute (increment_order_count shop) ;;;
  (* conn.commit(): nothing raises between the INSERT and here, so the two
     statements are written together. *)
  (* Check for usage charges *)
  d <- get_db ;;
  match select_user shop d with
  | None => raise TypeError
  | Some user =>
      let order_count := Users.order_count user in
      if (order_count >? USAGE_CHARGE_LIMIT)%Z
      then (create_usage_charge out shop (order_count - USAGE_CHARGE_LIMIT) ;;; ret tt)
      else ret tt
  end.

Definition save_notification (message : string) (timestamp : pyval)
    (shop : option string) : M unit :=
  ts <- lift (bind_text timestamp) ;;
  execute (insert_notification shop (Some message) ts).

(** POST /webhook/orders/create *)
Definition orders_create (out : outside) (req : request) : M response :=
  let data := get_data req in
  let hmac_header := X_Shopify_Hmac_Sha256 req in
  verified <- lift (verify_webhook data hmac_header) ;;
  if negb verified then ret VerificationFailed
  else
    order <- lift (get_json req) ;;
    let shop := X_Shopify_Shop_Domain req in
    save_order out order shop ;;;
    created_at <- lift (subscript order "created_at") ;;
    save_notification "New order received" created_at shop ;;;
    ret Success.

(** POST /webhook/orders/paid *)
Definition orders_paid (out : outside) (req : request) : M response :=
  let data := get_data req in
  let hmac_header := X_Shopify_Hmac_Sha256 req in
  verified <- lift (verify_webhook data hmac_header) ;;
  if negb verified then ret VerificationFailed
  else
    order <- lift (get_json req) ;;
    let shop := X_Shopify_Shop_Domain req in
    save_order out order shop ;;;
    updated_at <- lift (subscript order "updated_at") ;;
    save_notification "Order payment received" updated_at shop ;;;
    ret Success.

(** ** Sequences of operations *)

(** The operations of the core, each with what it finds outside; the two
    views run under Flask. *)
Inductive operation : Type :=
| SaveOrder (out : outside) (order : pydict) (shop : option string)
| SaveNotification (message : string) (timestamp : pyval) (shop : option string)
| CreateUsageCharge (out : outside) (shop : option string) (excess_orders : Z)
| OrdersCreate (out : outside) (req : request)
| OrdersPaid (out : outside) (req : request).

Definition step (w : world) (op : operation) : world :=
  match op with
  | SaveOrder out order shop => snd (save_order out order shop w)
  | SaveNotification message timestamp shop =>
      snd (save_notification message timestamp shop w)
  | CreateUsageCharge out shop excess_orders =>
      snd (create_usage_charge out shop excess_orders w)
  | OrdersCreate out req => snd (flask (orders_create out req) w)
  | OrdersPaid out req => snd (flask (orders_paid out req) w)
  end.

Definition run (ops : list operation) (w : world) : world := fold_left step ops w.

End Webhooks.

(** ** The statements a store goes through *)

(** One statement of webhooks.py that writes to the store. *)
Inductive statement : db -> db -> Prop :=
| st_insert_or_replace_order ts oid shop st det upd d :
    statement d (insert_or_replace_order ts oid shop st det upd d)
| st_increment_order_count shop d :
    statement d (increment_order_count shop d)
| st_insert_notification shop msg ts d :
    statement d (insert_notification shop msg ts d).

(** A computation that changes the store only through statements. *)
Definition by_statements {A : Type} (m : M A) : Prop :=
  forall w, rtc statement (database w) (database (snd (m w))).

(** No account is lost and no counter goes down. *)
Definition counters_grow (d d' : db) : Prop :=
  forall (shop : string) (u : Users.row),
    users d !! shop = Some u ->
    exists u', users d' !! shop = Some u'
               /\ (Users.order_count u <= Users.order_count u')%Z.

(** The store [save_order] commits: the upsert, then the increment. *)
Definition committed (py_str : pydict -> string) (ts : string) (order : pydict)
    (shop : option string) (params : option string * option string * option string)
    (d : db) : db :=
  let '(oid, st, upd) := params in
  increment_order_count shop
    (insert_or_replace_order ts oid shop st (Some (py_str order)) upd d).

(** The usage charges [save_order] sends once the counter reads [count]. *)
Definition charges_at (shop : option string) (user : Users.row) : list http_request :=
  let count := Users.order_count user in
  if (count >? USAGE_CHARGE_LIMIT)%Z
  then [usage_charge_request shop user (count - USAGE_CHARGE_LIMIT)]
  else [].

(** The rows of the orders table that carry a given order id. *)
Definition has_order_id (x : string) (r : Orders.row) : bool :=
  conflicts (Some x) r.

Definition rows_with_id (x : string) (d : db) : list Orders.row :=
  List.filter (has_order_id x) (orders d).

(** The rows of a given shop that carry a given order id. *)
Definition rows_of_shop_with_id (shop : option string) (x : string) (d : db)
  : list Orders.row :=
  List.filter (fun r => bool_decide (Orders.shopify_shop r = shop))
    (rows_with_id x d).

(** The UNIQUE constraint on orders.shopify_order_id. *)
Definition unique_order_ids (d : db) : Prop :=
  forall x : string, (length (rows_with_id x d) <= 1)%nat.

(** The order counter of a shop, when the shop has an account. *)
Definition counter (shop : string) (d : db) : option Z :=
  Users.order_count <$> users d !! shop.

(** ** Sample data for the concrete runs *)

Module Sample.

Definition secret : string := "hush".

(** A stand-in for Python's [str] on a dict. *)
Definition str_of (o : pydict) : string :=
  match o !! "id" with
  | Some (PyInt n) => "{'id': " ++ pretty n ++ ", ...}"
  | _ => "{...}"
  end.

Definition body : bytes := "{id: 4242, updated_at: 2024-05-01T10:00:00Z}".

(** base64 of the HMAC-SHA256 of [body] under [secret]. *)
Definition signature : string :=
  Eval vm_compute in Base64.b64encode (HMAC.digest (encode_utf8 secret) body).

Definition order_no (n : Z) : pydict :=
  <["id" := PyInt n]> (<["updated_at" := PyStr "2024-05-01T10:00:00Z"]>
    (<["created_at" := PyStr "2024-05-01T09:59:00Z"]> ∅)).

Definition order_4242 : pydict := order_no 4242.

(** What [order_4242] binds to: its id as text, the default status, its
    update time. *)
Definition params_4242 : option string * option string * option string :=
  (Some "4242", Some "pending", Some "2024-05-01T10:00:00Z").

Definition shop_a : string := "a.myshopify.com".
Definition shop_b : string := "b.myshopify.com".

Definition account (count : Z) : Users.row :=
  {| Users.access_token := Some "shpat_token";
     Users.charge_id := Some "77";
     Users.plan_name := Some "basic";
     Users.order_count := count |}.

(** A store where shop A has [count] orders on its counter and shop B none. *)
Definition store (count : Z) : db :=
  {| users := <[shop_a := account count]> (<[shop_b := account 0]> ∅);
     orders := [];
     orders_seq := 0;
     notifications := [];
     notifications_seq := 0 |}.

Definition start (count : Z) : world :=
  {| database := store count; posted := [] |}.

Definition gateway_up : outside :=
  {| now := "2024-05-01 10:00:01";
     requests_post := fun _ => Response 201 (Some "{usage_charge: ...}") |}.

Definition gateway_error : outside :=
  {| now := "2024-05-01 10:00:01";
     requests_post := fun _ => Response 500 None |}.

Definition gateway_down : outside :=
  {| now := "2024-05-01 10:00:01";
     requests_post := fun _ => NoResponse |}.

Definition delivery (hmac_header : option string) (shop : string) : request :=
  {| get_data := body;
     X_Shopify_Hmac_Sha256 := hmac_header;
     X_Shopify_Shop_Domain := Some shop;
     request_json := JsonObject order_4242 |}.

End Sample.

(** ** Notions for the properties of whole runs *)

(** The sum of the prices of a list of usage-charge requests. *)
Definition total_price (l : list http_request) : Q :=
  fold_right (fun r acc => (price (json r) + acc)%Q) 0%Q l.

(** Calls of [save_order] for one shop, each with what it finds outside. *)
Definition deliveries (shop : string) (calls : list (outside * pydict))
  : list operation :=
  map (fun c => SaveOrder (fst c) (snd c) (Some shop)) calls.

(** The primary keys of the two AUTOINCREMENT tables are distinct. *)
Definition distinct_ids (d : db) : Prop :=
  NoDup (map Orders.id (orders d))
  /\ NoDup (map Notifications.id (notifications d)).

(** What the answer of the gateway makes of a usage charge: no response
    raises in [requests.post], a body that is not JSON raises in
    [response.json()], any JSON body is returned whatever the status. *)
Definition charge_outcome (r : http_reply) : result unit :=
  match r with
  | NoResponse => Raise ConnectionError
  | Response _ None => Raise JSONDecodeError
  | Response _ (Some _) => Ok tt
  end.

(** A computation whose store, before and after, stands in the relation
    [R]. *)
Definition keeps {A : Type} (R : db -> db -> Prop) (m : M A) : Prop :=
  forall w, R (database w) (database (snd (m w))).

(** Two stores hold the same row, or none, for every shop but [shop]. *)
Definition same_other_accounts (shop : option string) (d d' : db) : Prop :=
  forall s : string, Some s <> shop -> users d' !! s = users d !! s.

(** A payload whose parameters bind. *)
Definition binds (order : pydict) : bool :=
  match order_params order with
  | Ok _ => true
  | Raise _ => false
  end.

(** ** config.py *)

Module Config.
(** The attributes of [Config], read from [os.environ] when the class is
    built. [token_bytes] and [token_hex] stand for what
    [secrets.token_bytes(32)] and [secrets.token_hex(16)] return. *)
Inductive encryption_key : Type :=
| KeyNone
| KeyStr (s : string)
| KeyBytes (b : bytes).

Definition SHOPIFY_CLIENT_ID (environ : gmap string string) : option string :=
  environ !! "SHOPIFY_CLIENT_ID".

Definition SHOPIFY_CLIENT_SECRET (environ : gmap string string) : option string :=
  environ !! "SHOPIFY_CLIENT_SECRET".

Definition ENCRYPTION_KEY (environ : gmap string string) (token_bytes : bytes)
  : encryption_key :=
  match environ !! "ENCRYPTION_KEY" with
  | Some s => KeyStr s
  | None => KeyBytes token_bytes
  end.

Definition SECRET_KEY (environ : gmap string string) (token_hex : string) : string :=
  match environ !! "SECRET_KEY" with
  | Some s => s
  | None => token_hex
  end.
End Config.

(** ** base64.urlsafe_b64encode and base64.urlsafe_b64decode *)

Module UrlSafe.
Fixpoint translate (f : ascii -> ascii) (s : string) : string :=
  match s with
  | EmptyString => EmptyString
  | String c r => String (f c) (translate f r)
  end.

(** The URL-safe alphabet has - for + and _ for /. *)
Definition to_urlsafe (c : ascii) : ascii :=
  if Ascii.eqb c "+" then "-"%char else if Ascii.eqb c "/" then "_"%char else c.
Definition of_urlsafe (c : ascii) : ascii :=
  if Ascii.eqb c "-" then "+"%char else if Ascii.eqb c "_" then "/"%char else c.

Definition urlsafe_b64encode (s : bytes) : bytes :=
  translate to_urlsafe (Base64.b64encode s).

Definition sextet (c : ascii) : option N :=
  let i := Base64.index c in
  if (i <? 64)%N then Some i else None.

(** The decoder on padded text: groups of four characters, the padding in
    the last group only. That is the shape of every text the encoder
    produces, and the only one [EncryptionUtil] hands to it; text of another
    shape is refused here. *)
Fixpoint b64decode (s : string) : option bytes :=
  match s with
  | EmptyString => Some EmptyString
  | String c1 (String c2 (String c3 (String c4 r))) =>
      match sextet c1, sextet c2 with
      | Some s1, Some s2 =>
          let b1 := ascii_of_N (s1 * 4 + s2 / 16) in
          if Ascii.eqb c3 Base64.pad_char then
            match Ascii.eqb c4 Base64.pad_char, r with
            | true, EmptyString => Some (String b1 EmptyString)
            | _, _ => None
            end
          else
            match sextet c3 with
            | Some s3 =>
                let b2 := ascii_of_N ((s2 mod 16) * 16 + s3 / 4) in
                if Ascii.eqb c4 Base64.pad_char then
                  match r with
                  | EmptyString => Some (String b1 (String b2 EmptyString))
                  | _ => None
                  end
                else
                  match sextet c4, b64decode r with
                  | Some s4, Some rest =>
                      let b3 := ascii_of_N ((s3 mod 4) * 64 + s4) in
                      Some (String b1 (String b2 (String b3 rest)))
                  | _, _ => None
                  end
            | None => None
            end
      | _, _ => None
      end
  | _ => None
  end.

Definition urlsafe_b64decode (s : bytes) : option bytes :=
  b64decode (translate of_urlsafe s).
End UrlSafe.

(** ** encryption_util.py *)

Module EncryptionUtil.
Inductive raised : Type := ValueError (message : string).

(** [cryptography.fernet.Fernet(key)]: the key must decode to 32 bytes,
    which are split into the signing key and the encryption key. *)
Record Fernet : Type := {
  signing_key : bytes;
  encryption_key : bytes
}.

Definition Fernet_init (key : bytes) : raised + Fernet :=
  match UrlSafe.urlsafe_b64decode key with
  | Some k =>
      if Nat.eqb (String.length k) 32
      then inr {| signing_key := substring 0 16 k; encryption_key := substring 16 16 k |}
      else inl (ValueError "Fernet key must be 32 url-safe base64-encoded bytes.")
  | None => inl (ValueError "Fernet key must be 32 url-safe base64-encoded bytes.")
  end.

Record t : Type := {
  key : bytes;
  fernet : Fernet
}.

(** [not key] *)
Definition unset (k : Config.encryption_key) : bool :=
  match k with
  | Config.KeyNone => true
  | Config.KeyStr s => Nat.eqb (String.length s) 0
  | Config.KeyBytes b => Nat.eqb (String.length b) 0
  end.

(** [EncryptionUtil(key)]: the instance, or the ValueError it raises. What
    is raised inside the try block comes out as a ValueError with the prefix
    'Invalid encryption key: '. *)
Definition init (k : Config.encryption_key) : raised + t :=
  if unset k then
    inl (ValueError "Encryption key is not set. Please set the ENCRYPTION_KEY environment variable.")
  else
    let key_bytes :=
      match k with
      | Config.KeyStr s => encode_utf8 s
      | Config.KeyBytes b => b
      | Config.KeyNone => EmptyString
      end in
    let attempt :=
      if negb (Nat.eqb (String.length key_bytes) 32)
      then inl (ValueError "Encryption key must be 32 bytes long")
      else
        let self_key := UrlSafe.urlsafe_b64encode key_bytes in
        match Fernet_init self_key with
        | inl e => inl e
        | inr f => inr {| key := self_key; fernet := f |}
        end in
    match attempt with
    | inl (ValueError message) => inl (ValueError ("Invalid encryption key: " ++ message))
    | inr self => inr self
    end.
End EncryptionUtil.

(** The operations that are deliveries to an endpoint. *)
Definition is_delivery (op : operation) : bool :=
  match op with
  | OrdersCreate _ _ | OrdersPaid _ _ => true
  | _ => false
  end.

(** ** init_db.py *)

Module InitDb.

(** The values of the JSON data a project carries; floats and booleans are
    left out. [JSurrogates] is a string that holds a lone surrogate, which
    UTF-8 cannot encode; its characters are not modelled. *)
#[local] Unset Elimination Schemes.
Inductive jvalue : Type :=
| JNull
| JInt (n : Z)
| JStr (s : string)
| JSurrogates
| JList (l : list jvalue)
| JDict (l : list (string * jvalue)).
#[local] Set Elimination Schemes.

(** The errors of class sqlite3.Error that these functions meet: a table
    that does not exist, a parameter of a type sqlite3 cannot bind, and a
    statement whose VALUES do not match its columns. *)
Inductive sqlite_error : Type :=
| NoSuchTable (name : string)
| UnsupportedType (parameter : nat)
| ValueCount (values columns : nat).

(** A line of the log: its level, its text, and for an error the exception
    printed after the text. *)
Inductive log_entry : Type :=
| INFO (message : string)
| WARNING (message : string)
| ERROR (message : string) (e : sqlite_error).

Module Projects.
Record row : Type := {
  id : Z;
  shopify_shop : option string;
  image : option string;
  attributes : option string;
  applied_attribute : option string;
  created_at : option string;
  updated_at : option string
}.
End Projects.

(** The database file as these functions see it: the tables that exist,
    each with the column declarations it was created with, the rows of
    projects, and next to it the log. The rows are those of the table
    projects when it exists. The file can be opened: a failure of
    [get_db_connection] is not modelled. *)
Record state : Type := {
  catalog : gmap string (list string);
  projects : list Projects.row;
  log : list log_entry
}.

Definition logged (entry : log_entry) (s : state) : state :=
  {| catalog := catalog s; projects := projects s; log := log s ++ [entry] |}.

(** What running a statement comes to: it is committed, or it raises a
    sqlite3.Error, or binding a parameter raises another exception. *)
Inductive execution (A : Type) : Type :=
| Committed (a : A)
| SqliteError (e : sqlite_error)
| PythonError (e : exn).
Arguments Committed {A} a.
Arguments SqliteError {A} e.
Arguments PythonError {A} e.

(** Binding parameter number [i] to a TEXT column. An integer beyond 64
    bits raises OverflowError and a string with a lone surrogate
    UnicodeEncodeError, neither of them a sqlite3.Error; a list or a dict
    is a type sqlite3 does not support. *)
Definition bind_value (i : nat) (v : jvalue) : execution (option string) :=
  match v with
  | JNull => Committed None
  | JInt n =>
      if ((- 2 ^ 63 <=? n) && (n <? 2 ^ 63))%Z then Committed (Some (pretty n))
      else PythonError OverflowError
  | JStr s => Committed (Some s)
  | JSurrogates => PythonError UnicodeEncodeError
  | JList _ | JDict _ => SqliteError (UnsupportedType i)
  end.

(** Binding an integer to [id = ?]. *)
Definition bind_id (n : Z) : execution Z :=
  if ((- 2 ^ 63 <=? n) && (n <? 2 ^ 63))%Z then Committed n
  else PythonError OverflowError.

(** [execute_query(conn, query, params)] on the outcome of [c.execute]: a
    commit, or for a sqlite3.Error a line in the log, a rollback and the
    error raised again; any other exception passes through. *)
Definition execute_query (run : execution (list Projects.row)) (s : state)
  : execution unit * state :=
  match run with
  | Committed rows =>
      (Committed tt, {| catalog := catalog s; projects := rows; log := log s |})
  | SqliteError e => (SqliteError e, logged (ERROR "Error executing query: " e) s)
  | PythonError e => (PythonError e, s)
  end.

(** Preparing a statement on [table], which sqlite3 does before it binds a
    parameter: the table has to exist. A table of the name projects is taken
    to have the columns [create_projects_table] gives it. *)
Definition prepare {A : Type} (table : string) (s : state) (run : execution A)
  : execution A :=
  match catalog s !! table with
  | Some _ => run
  | None => SqliteError (NoSuchTable table)
  end.

(** CREATE TABLE IF NOT EXISTS name (columns), through [execute_query]. *)
Definition create_table (name : string) (columns : list string) (s : state) : state :=
  match catalog s !! name with
  | Some _ => s
  | None =>
      {| catalog := <[name := columns]> (catalog s);
         projects := projects s;
         log := log s |}
  end.

Definition users_columns : list string :=
  [ "shopify_shop TEXT PRIMARY KEY"; "access_token TEXT"; "charge_id TEXT";
    "plan_name TEXT" ].

Definition orders_columns : list string :=
  [ "id INTEGER PRIMARY KEY AUTOINCREMENT"; "shopify_order_id TEXT UNIQUE";
    "shopify_shop TEXT"; "status TEXT"; "details TEXT";
    "created_at TEXT DEFAULT CURRENT_TIMESTAMP";
    "updated_at TEXT DEFAULT CURRENT_TIMESTAMP";
    "FOREIGN KEY (shopify_shop) REFERENCES users(shopify_shop)" ].

Definition notifications_columns : list string :=
  [ "id INTEGER PRIMARY KEY AUTOINCREMENT"; "shopify_shop TEXT"; "message TEXT";
    "created_at TEXT DEFAULT CURRENT_TIMESTAMP";
    "FOREIGN KEY (shopify_shop) REFERENCES users(shopify_shop)" ].

Definition projects_columns : list string :=
  [ "id INTEGER PRIMARY KEY AUTOINCREMENT"; "shopify_shop TEXT"; "image TEXT";
    "attributes TEXT"; "applied_attribute TEXT";
    "created_at TEXT DEFAULT CURRENT_TIMESTAMP";
    "updated_at TEXT DEFAULT CURRENT_TIMESTAMP";
    "FOREIGN KEY (shopify_shop) REFERENCES users(shopify_shop)" ].

Definition create_users_table (s : state) : state :=
  logged (INFO "Users table created or already exists.")
    (create_table "users" users_columns s).

Definition create_orders_table (s : state) : state :=
  logged (INFO "Orders table created or already exists.")
    (create_table "orders" orders_columns s).

Definition create_notifications_table (s : state) : state :=
  logged (INFO "Notifications table created or already exists.")
    (create_table "notifications" notifications_columns s).

Definition create_projects_table (s : state) : state :=
  logged (INFO "Projects table created or already exists.")
    (create_table "projects" projects_columns s).

Definition create_tables (s : state) : state :=
  logged (INFO "All tables created successfully.")
    (create_projects_table
       (create_notifications_table
          (create_orders_table
             (create_users_table s)))).

Definition initialize_database (s : state) : state :=
  logged (INFO "Database initialization completed.")
    (create_tables (logged (INFO "Initializing database...") s)).

(** UPDATE projects SET image = ?, attributes = ?, applied_attribute = ?,
    updated_at = ? WHERE id = ? *)
Definition set_project (img att app upd : option string) (project_id : Z)
    (r : Projects.row) : Projects.row :=
  if (Projects.id r =? project_id)%Z then
    {| Projects.id := Projects.id r;
       Projects.shopify_shop := Projects.shopify_shop r;
       Projects.image := img;
       Projects.attributes := att;
       Projects.applied_attribute := app;
       Projects.created_at := Projects.created_at r;
       Projects.updated_at := upd |}
  else r.

(** [c.execute] of that UPDATE: the five parameters are bound in order, then
    every row with the id is rewritten. *)
Definition run_update (image attributes applied_attribute updated_at : jvalue)
    (project_id : Z) (rows : list Projects.row) : execution (list Projects.row) :=
  match bind_value 0 image with
  | SqliteError e => SqliteError e
  | PythonError e => PythonError e
  | Committed img =>
      match bind_value 1 attributes with
      | SqliteError e => SqliteError e
      | PythonError e => PythonError e
      | Committed att =>
          match bind_value 2 applied_attribute with
          | SqliteError e => SqliteError e
          | PythonError e => PythonError e
          | Committed app =>
              match bind_value 3 updated_at with
              | SqliteError e => SqliteError e
              | PythonError e => PythonError e
              | Committed upd =>
                  match bind_id project_id with
                  | SqliteError e => SqliteError e
                  | PythonError e => PythonError e
                  | Committed i => Committed (map (set_project img att app upd i) rows)
                  end
              end
          end
      end
  end.

(** SELECT * FROM projects WHERE id = ? followed by fetchone(). *)
Definition select_project (project_id : Z) (rows : list Projects.row)
  : option Projects.row :=
  List.find (fun r => (Projects.id r =? project_id)%Z) rows.

(** [data.get(key)] *)
Definition data_get (data : gmap string jvalue) (key : string) : jvalue :=
  match data !! key with
  | Some v => v
  | None => JNull
  end.

(** The dict [get_project] returns. *)
Record project : Type := {
  p_id : Z;
  p_shopify_shop : option string;
  p_image : option string;
  p_attributes : jvalue;
  p_appliedAttribute : option string;
  p_created_at : option string;
  p_updated_at : option string
}.

Section Functions.

(** [json.dumps] and [json.loads] ([None] when the text is not JSON). *)
Variable json_dumps : jvalue -> string.
Variable json_loads : string -> option jvalue.

(** [update_project(project_id, data)], at the time [now] that
    [datetime.now().isoformat()] returns. *)
Definition update_project (now : string) (project_id : Z)
    (data : gmap string jvalue) (s : state) : result unit * state :=
  match execute_query
          (prepare "projects" s
             (run_update (data_get data "image")
                (JStr (json_dumps (data_get data "attributes")))
                (data_get data "appliedAttribute") (JStr now) project_id (projects s))) s with
  | (Committed _, s1) =>
      (Ok tt, logged (INFO ("Project " ++ pretty project_id ++ " updated successfully.")) s1)
  | (SqliteError e, s1) => (Ok tt, logged (ERROR "Error updating project: " e) s1)
  | (PythonError e, s1) => (Raise e, s1)
  end.

(** [get_project(project_id)] *)
Definition get_project (project_id : Z) (s : state)
  : result (option project) * state :=
  match prepare "projects" s (bind_id project_id) with
  | SqliteError e => (Ok None, logged (ERROR "Error retrieving project: " e) s)
  | PythonError e => (Raise e, s)
  | Committed i =>
      match select_project i (projects s) with
      | Some r =>
          match Projects.attributes r with
          | None => (Raise TypeError, s)
          | Some text =>
              match json_loads text with
              | None => (Raise JSONDecodeError, s)
              | Some attributes =>
                  (Ok (Some {| p_id := Projects.id r;
                               p_shopify_shop := Projects.shopify_shop r;
                               p_image := Projects.image r;
                               p_attributes := attributes;
                               p_appliedAttribute := Projects.applied_attribute r;
                               p_created_at := Projects.created_at r;
                               p_updated_at := Projects.updated_at r |}), s)
              end
          end
      | None =>
          (Ok None, logged (WARNING ("Project " ++ pretty project_id ++ " not found.")) s)
      end
  end.

(** [save_project(project_id, shopify_shop, image, attributes,
    applied_attribute)]. The INSERT of the else branch names four columns
    and has five placeholders: preparing it raises a sqlite3.Error, whatever
    the parameters. *)
Definition save_project (now : string) (project_id : Z)
    (shopify_shop image attributes applied_attribute : jvalue) (s : state)
  : result unit * state :=
  match prepare "projects" s (bind_id project_id) with
  | SqliteError e => (Ok tt, logged (ERROR "Error saving project: " e) s)
  | PythonError e => (Raise e, s)
  | Committed i =>
      let run :=
        match select_project i (projects s) with
        | Some _ =>
            run_update image (JStr (json_dumps attributes)) applied_attribute
              (JStr now) project_id (projects s)
        | None => SqliteError (ValueCount 5 4)
        end in
      match execute_query run s with
      | (Committed _, s1) =>
          (Ok tt, logged (INFO ("Project " ++ pretty project_id ++ " saved successfully.")) s1)
      | (SqliteError e, s1) => (Ok tt, logged (ERROR "Error saving project: " e) s1)
      | (PythonError e, s1) => (Raise e, s1)
      end
  end.

End Functions.

End InitDb.

(** What [update_project] and [save_project] may change in a row: nothing
    in a row of another id, and in a row of the given id neither the id,
    nor the shop, nor the creation time. *)
Definition project_kept (project_id : Z) (r r' : InitDb.Projects.row) : Prop :=
  InitDb.Projects.id r' = InitDb.Projects.id r
  /\ InitDb.Projects.shopify_shop r' = InitDb.Projects.shopify_shop r
  /\ InitDb.Projects.created_at r' = InitDb.Projects.created_at r
  /\ (InitDb.Projects.id r <> project_id -> r' = r).

(** A value sqlite3 binds to a TEXT column: null, a string, an integer of
    64 bits. *)
Definition bindable (v : InitDb.jvalue) : bool :=
  match InitDb.bind_value 0 v with
  | InitDb.Committed _ => true
  | _ => false
  end.

(** An integer of 64 bits. *)
Definition int64 (n : Z) : bool := ((- 2 ^ 63 <=? n) && (n <? 2 ^ 63))%Z.

(** An excess that Python converts to a float without rounding, so that its
    product with 0.25 is the exact quarter. *)
Definition exact_excess (n : Z) : bool := ((- 2 ^ 53 <=? n) && (n <=? 2 ^ 53))%Z.

(** A count that SQLite holds as an INTEGER and whose excess over the limit
    is priced exactly. *)
Definition exact_counter (n : Z) : bool :=
  int64 n && (n - USAGE_CHARGE_LIMIT <=? 2 ^ 53)%Z.

(** The values binding refuses: an integer beyond 64 bits, a string UTF-8
    cannot encode, a list or a dict. *)
Definition overflows (v : InitDb.jvalue) : bool :=
  match v with
  | InitDb.JInt n => negb (int64 n)
  | _ => false
  end.

Definition unencodable (v : InitDb.jvalue) : bool :=
  match v with
  | InitDb.JSurrogates => true
  | _ => false
  end.

Definition unsupported (v : InitDb.jvalue) : bool :=
  match v with
  | InitDb.JList _ | InitDb.JDict _ => true
  | _ => false
  end.

(** Stand-ins for [json.dumps] and [json.loads] in the concrete runs: they
    print null and integers, anything else as the empty list, and read null
    and the empty list. *)
Definition sample_dumps (v : InitDb.jvalue) : string :=
  match v with
  | InitDb.JNull => "null"
  | InitDb.JInt n => pretty n
  | _ => "[]"
  end.

Definition sample_loads (text : string) : option InitDb.jvalue :=
  if String.eqb text "null" then Some InitDb.JNull
  else if String.eqb text "[]" then Some (InitDb.JList [])
  else None.

Definition sample_project (i : Z) (shop : string) : InitDb.Projects.row :=
  {| InitDb.Projects.id := i;
     InitDb.Projects.shopify_shop := Some shop;
     InitDb.Projects.image := Some "old.png";
     InitDb.Projects.attributes := None;
     InitDb.Projects.applied_attribute := None;
     InitDb.Projects.created_at := Some "2024-04-01 08:00:00";
     InitDb.Projects.updated_at := Some "2024-04-01 08:00:00" |}.

Definition sample_projects : InitDb.state :=
  {| InitDb.catalog := {["projects" := InitDb.projects_columns]};
     InitDb.projects := [sample_project 1 "a.myshopify.com";
                         sample_project 2 "b.myshopify.com"];
     InitDb.log := [] |}.

(** * Properties *)

(** ** The encoders *)

Lemma ascii_of_N_inj (n m : N) :
  (n < 256)%N -> (m < 256)%N -> ascii_of_N n = ascii_of_N m -> n = m.
Proof.
  intros Hn Hm H.
  rewrite <- (N_ascii_embedding n Hn), <- (N_ascii_embedding m Hm).
  now rewrite H.
Qed.

Lemma N_of_ascii_inj (a b : ascii) : N_of_ascii a = N_of_ascii b -> a = b.
Proof.
  intros H. rewrite <- (ascii_N_embedding a), <- (ascii_N_embedding b).
  now rewrite H.
Qed.

Lemma string_get_beyond (s : string) (k : nat) :
  (String.length s <= k)%nat -> String.get k s = None.
Proof.
  revert k. induction s as [|c s IH]; intros k Hk; [reflexivity|].
  destruct k as [|k]; simpl in *; [lia|]. apply IH. lia.
Qed.

Lemma in_first_64 (n : N) : (n < 64)%N -> In n (map N.of_nat (seq 0 64)).
Proof.
  intros Hn. apply in_map_iff. exists (N.to_nat n).
  split; [lia|]. apply in_seq. lia.
Qed.

Lemma b64_index_char (n : N) :
  (n < 64)%N -> Base64.index (Base64.char n) = n.
Proof.
  intros Hn.
  assert (H : forallb (fun k => N.eqb (Base64.index (Base64.char k)) k)
                (map N.of_nat (seq 0 64)) = true) by (vm_compute; reflexivity).
  rewrite forallb_forall in H.
  apply N.eqb_eq, H, in_first_64, Hn.
Qed.

Lemma b64_char_inj (n m : N) :
  (n < 64)%N -> (m < 64)%N -> Base64.char n = Base64.char m -> n = m.
Proof.
  intros Hn Hm H.
  rewrite <- (b64_index_char n Hn), <- (b64_index_char m Hm).
  now rewrite H.
Qed.

Lemma b64_char_not_pad (n : N) :
  (n < 64)%N -> Base64.char n <> Base64.pad_char.
Proof.
  intros Hn H. pose proof (b64_index_char n Hn) as Hi.
  rewrite H in Hi. vm_compute in Hi. subst n. vm_compute in Hn. discriminate.
Qed.

Lemma b64_char_ascii (n : N) : (N_of_ascii (Base64.char n) < 128)%N.
Proof.
  destruct (N.ltb_spec n 64) as [Hn|Hn].
  - assert (H : forallb (fun k => N.ltb (N_of_ascii (Base64.char k)) 128)
                  (map N.of_nat (seq 0 64)) = true) by (vm_compute; reflexivity).
    rewrite forallb_forall in H.
    apply N.ltb_lt, H, in_first_64, Hn.
  - unfold Base64.char. rewrite string_get_beyond.
    + vm_compute. reflexivity.
    + change (String.length Base64.alphabet) with 64%nat. lia.
Qed.

(** Linear arithmetic with division and remainder by constants. *)
Ltac div_lia := Zify.zify; Z.to_euclidean_division_equations; lia.

Lemma sextet_bounds (x y : N) :
  (x < 256)%N -> (y < 256)%N ->
  (x / 4 < 64 /\ x mod 4 * 16 + y / 16 < 64
   /\ x mod 16 * 4 + y / 64 < 64 /\ x mod 64 < 64)%N.
Proof. intros Hx Hy. repeat split; div_lia. Qed.

Lemma div_mod_eq (x x' k : N) :
  (0 < k -> x / k = x' / k -> x mod k = x' mod k -> x = x')%N.
Proof.
  intros Hk Hq Hr.
  rewrite (N.div_mod x k), (N.div_mod x' k) by lia. now rewrite Hq, Hr.
Qed.

Lemma sextets_inj (x y z x' y' z' : N) :
  (x < 256 -> y < 256 -> z < 256 -> x' < 256 -> y' < 256 -> z' < 256 ->
   x / 4 = x' / 4 ->
   x mod 4 * 16 + y / 16 = x' mod 4 * 16 + y' / 16 ->
   y mod 16 * 4 + z / 64 = y' mod 16 * 4 + z' / 64 ->
   z mod 64 = z' mod 64 ->
   x = x' /\ y = y' /\ z = z')%N.
Proof.
  intros Hx Hy Hz Hx' Hy' Hz' H1 H2 H3 H4.
  assert (y / 16 < 16 /\ y' / 16 < 16 /\ z / 64 < 4 /\ z' / 64 < 4)%N
    as (By & By' & Bz & Bz')
    by (repeat split; apply N.Div0.div_lt_upper_bound; lia).
  assert (Hsplit : forall k p q p' q' : N,
            (k = 16 \/ k = 4 -> q < k -> q' < k ->
             p * k + q = p' * k + q' -> p = p' /\ q = q')%N)
    by (intros k p q p' q' [-> | ->]; lia).
  destruct (Hsplit 16%N _ _ _ _ (or_introl eq_refl) By By' H2) as [Ex Ey].
  destruct (Hsplit 4%N _ _ _ _ (or_intror eq_refl) Bz Bz' H3) as [Ey' Ez].
  repeat split; eapply div_mod_eq; try eassumption; lia.
Qed.

(** A group of three bytes is determined by its four characters. *)
Lemma b64_group_inj (a b c a' b' c' : ascii) :
  Base64.enc1 a = Base64.enc1 a' ->
  Base64.enc2 a b = Base64.enc2 a' b' ->
  Base64.enc3 b c = Base64.enc3 b' c' ->
  Base64.enc4 c = Base64.enc4 c' ->
  a = a' /\ b = b' /\ c = c'.
Proof.
  unfold Base64.enc1, Base64.enc2, Base64.enc3, Base64.enc4.
  intros H1 H2 H3 H4.
  pose proof (N_ascii_bounded a) as Ba. pose proof (N_ascii_bounded b) as Bb.
  pose proof (N_ascii_bounded c) as Bc. pose proof (N_ascii_bounded a') as Ba'.
  pose proof (N_ascii_bounded b') as Bb'. pose proof (N_ascii_bounded c') as Bc'.
  destruct (sextet_bounds _ _ Ba Bb) as (S1 & S2 & _ & _).
  destruct (sextet_bounds _ _ Bb Bc) as (_ & _ & S3 & _).
  destruct (sextet_bounds _ _ Bc Bc) as (_ & _ & _ & S4).
  destruct (sextet_bounds _ _ Ba' Bb') as (S1' & S2' & _ & _).
  destruct (sextet_bounds _ _ Bb' Bc') as (_ & _ & S3' & _).
  destruct (sextet_bounds _ _ Bc' Bc') as (_ & _ & _ & S4').
  apply b64_char_inj in H1, H2, H3, H4; try assumption.
  destruct (sextets_inj _ _ _ _ _ _ Ba Bb Bc Ba' Bb' Bc' H1 H2 H3 H4) as (E1 & E2 & E3).
  repeat split; apply N_of_ascii_inj; assumption.
Qed.

Lemma b64_enc3_not_pad (b c : ascii) : Base64.enc3 b c <> Base64.pad_char.
Proof.
  apply b64_char_not_pad.
  apply (sextet_bounds _ _ (N_ascii_bounded b) (N_ascii_bounded c)).
Qed.

Lemma b64_enc4_not_pad (c : ascii) : Base64.enc4 c <> Base64.pad_char.
Proof.
  apply b64_char_not_pad.
  apply (sextet_bounds _ _ (N_ascii_bounded c) (N_ascii_bounded c)).
Qed.

Lemma b64encode_inj (s t : bytes) :
  Base64.b64encode s = Base64.b64encode t -> s = t.
Proof.
  remember (String.length s) as n eqn:Hn. revert s Hn t.
  induction n as [n IH] using lt_wf_ind. intros s Hn t H.
  destruct s as [|a [|b [|c r]]]; destruct t as [|a' [|b' [|c' r']]];
    cbn [Base64.b64encode] in H; try discriminate H.
  - reflexivity.
  - injection H as H1 H2. apply (b64_group_inj a zero zero a' zero zero) in H1;
      [destruct H1 as [-> _]; reflexivity|assumption|reflexivity|reflexivity].
  - injection H as H1 H2 H3. symmetry in H3. now apply b64_enc3_not_pad in H3.
  - injection H as H1 H2 H3. symmetry in H3. now apply b64_enc3_not_pad in H3.
  - injection H as H1 H2 H3. now apply b64_enc3_not_pad in H3.
  - injection H as H1 H2 H3.
    apply (b64_group_inj a b zero a' b' zero) in H1;
      [destruct H1 as (-> & -> & _); reflexivity|assumption|assumption|reflexivity].
  - injection H as H1 H2 H3 H4. symmetry in H4. now apply b64_enc4_not_pad in H4.
  - injection H as H1 H2 H3. now apply b64_enc3_not_pad in H3.
  - injection H as H1 H2 H3 H4. now apply b64_enc4_not_pad in H4.
  - injection H as H1 H2 H3 H4 H5.
    destruct (b64_group_inj a b c a' b' c' H1 H2 H3 H4) as (-> & -> & ->).
    f_equal. f_equal. f_equal.
    apply (IH (String.length r)) with (s := r); [subst n; simpl; lia|reflexivity|assumption].
Qed.

Lemma b64encode_all_ascii (s : bytes) : all_ascii (Base64.b64encode s) = true.
Proof.
  assert (Hc : forall n, (N_of_ascii (Base64.char n) <? 128)%N = true)
    by (intros n; apply N.ltb_lt, b64_char_ascii).
  assert (H : all_ascii (Base64.b64encode s) = true
              /\ (forall a, all_ascii (Base64.b64encode (String a s)) = true)
              /\ (forall a b,
                    all_ascii (Base64.b64encode (String a (String b s))) = true)).
  { induction s as [|c r (IH0 & IH1 & IH2)].
    - repeat split; intros; cbn [Base64.b64encode all_ascii];
        unfold Base64.enc1, Base64.enc2, Base64.enc3;
        rewrite ?Hc; reflexivity.
    - split; [apply IH1|]. split; [intros a; apply IH2|].
      intros a b. cbn [Base64.b64encode all_ascii].
      unfold Base64.enc1, Base64.enc2, Base64.enc3, Base64.enc4.
      rewrite !Hc. exact IH0. }
  apply H.
Qed.

Lemma encode_utf8_ascii (s : string) :
  all_ascii s = true -> encode_utf8 s = s.
Proof.
  induction s as [|c r IH]; [reflexivity|].
  cbn [all_ascii encode_utf8]. intros [Hc Hr]%andb_true_iff.
  unfold utf8_char. rewrite Hc. cbn [String.append]. now rewrite IH.
Qed.

Lemma encode_utf8_inj (s t : string) :
  encode_utf8 s = encode_utf8 t -> s = t.
Proof.
  revert t. induction s as [|c r IH]; intros [|c' r'];
    cbn [encode_utf8]; unfold utf8_char.
  - reflexivity.
  - destruct (N_of_ascii c' <? 128)%N; discriminate.
  - destruct (N_of_ascii c <? 128)%N; discriminate.
  - assert (D : forall x : ascii, exists n q m : N,
              N_of_ascii x = n /\ (n / 64)%N = q /\ (n mod 64)%N = m
              /\ (n = 64 * q + m /\ m < 64 /\ n < 256)%N).
    { intros x. exists (N_of_ascii x), (N_of_ascii x / 64)%N, (N_of_ascii x mod 64)%N.
      repeat split; [apply N.div_mod; lia|apply N.mod_lt; lia|apply N_ascii_bounded]. }
    destruct (D c) as (n & q & m & En & Eq & Em & Hn & Hm & Bn).
    destruct (D c') as (n' & q' & m' & En' & Eq' & Em' & Hn' & Hm' & Bn').
    rewrite En, En', Eq, Eq', Em, Em'. clear D Eq Eq' Em Em'.
    destruct (N.ltb_spec n 128) as [L|L]; destruct (N.ltb_spec n' 128) as [L'|L'];
      intros H; simpl in H.
    + injection H as H1 H2. subst c'. f_equal. now apply IH.
    + injection H as H1 H2. exfalso. subst c.
      rewrite N_ascii_embedding in En by lia. lia.
    + injection H as H1 H2. exfalso. subst c'.
      rewrite N_ascii_embedding in En' by lia. lia.
    + injection H as H1 H2 H3.
      apply ascii_of_N_inj in H1; [|lia|lia].
      apply ascii_of_N_inj in H2; [|lia|lia].
      f_equal; [|now apply IH].
      apply N_of_ascii_inj. lia.
Qed.

(** A header is the base64 text exactly when its UTF-8 bytes are. *)
Lemma header_is_b64 (h : string) (d : bytes) :
  encode_utf8 h = Base64.b64encode d <-> h = Base64.b64encode d.
Proof.
  pose proof (encode_utf8_ascii _ (b64encode_all_ascii d)) as E.
  split; intros H.
  - apply encode_utf8_inj. now rewrite E.
  - now subst h.
Qed.

(** ** Test vectors for the library models *)

Example sha256_abc :
  SHA256.hex (SHA256.digest "abc")
  = "ba7816bf8f01cfea414140de5dae2223b00361a396177a9cb410ff61f20015ad".
Proof. vm_compute. reflexivity. Qed.

Example sha256_two_blocks :
  SHA256.hex (SHA256.digest
    "aaaaaaaaaaaaaaaaaaaaaaaaaaaaaaaaaaaaaaaaaaaaaaaaaaaaaaaaaaaaaaaaaaaaaa")
  = "6bd5e5034855a11241f0dee8fc72850ffd9955b28347a86428b5fa19119f6ad0".
Proof. vm_compute. reflexivity. Qed.

Example hmac_fox :
  SHA256.hex (HMAC.digest "key" "The quick brown fox jumps over the lazy dog")
  = "f7bc83f430538424b13298e6aa6fb143ef4d59a14946175997479dbc2d1a3cd8".
Proof. vm_compute. reflexivity. Qed.

Example hmac_long_key :
  SHA256.hex (HMAC.digest
    "kkkkkkkkkkkkkkkkkkkkkkkkkkkkkkkkkkkkkkkkkkkkkkkkkkkkkkkkkkkkkkkkkkkkkk" "hello")
  = "73473f937d4c181ed6aa87ce97d6db7dc732e19dd43e60c8ab7ee3aed2d9f4b0".
Proof. vm_compute. reflexivity. Qed.

Example b64_Man : Base64.b64encode "Man" = "TWFu".
Proof. reflexivity. Qed.

Example b64_Ma : Base64.b64encode "Ma" = "TWE=".
Proof. reflexivity. Qed.

Example b64_M : Base64.b64encode "M" = "TQ==".
Proof. reflexivity. Qed.

Example utf8_cafe :
  encode_utf8 (String "c" (String "a" (String "f" (String (ascii_of_N 233) EmptyString))))
  = String "c" (String "a" (String "f"
      (String (ascii_of_N 195) (String (ascii_of_N 169) EmptyString)))).
Proof. reflexivity. Qed.

Example sample_signature :
  Sample.signature = "5RNHaM3nWsWOVjwXqeMDFvzyVYAizWogbAUeFlo1OBE=".
Proof. reflexivity. Qed.

(** ** The signature verifier *)

Lemma compare_digest_true (a b : bytes) : compare_digest a b = true <-> a = b.
Proof. apply String.eqb_eq. Qed.

Lemma compare_digest_false (a b : bytes) : compare_digest a b = false <-> a <> b.
Proof. apply String.eqb_neq. Qed.

(** With the secret configured and the header present, the verifier returns
    a boolean: it does not raise, whatever the header holds. *)
Lemma verify_webhook_present (secret : string) (data : bytes) (h : string) :
  verify_webhook (Some secret) data (Some h)
  = Ok (compare_digest (Base64.b64encode (HMAC.digest (encode_utf8 secret) data))
          (encode_utf8 h)).
Proof. reflexivity. Qed.

(** The only exception the verifier raises is AttributeError. *)
Lemma verify_webhook_raises (secret : option string) (data : bytes)
    (hmac_header : option string) (e : exn) :
  verify_webhook secret data hmac_header = Raise e -> e = AttributeError.
Proof.
  unfold verify_webhook. destruct secret, hmac_header; intros H; congruence.
Qed.

(** A header cut short is rejected with [False]. *)
Example verify_truncated_header :
  verify_webhook (Some Sample.secret) Sample.body (Some "5RNHaM3nWsWOVjwXqeMDFvzyVYAizWogbAUeF")
  = Ok false.
Proof. vm_compute. reflexivity. Qed.

Example verify_sample_signature :
  verify_webhook (Some Sample.secret) Sample.body (Some Sample.signature) = Ok true.
Proof. vm_compute. reflexivity. Qed.

(** One byte of the body changed (4242 to 4243): the signature no longer
    verifies. *)
Example verify_body_byte_changed :
  verify_webhook (Some Sample.secret) "{id: 4243, updated_at: 2024-05-01T10:00:00Z}"
    (Some Sample.signature) = Ok false.
Proof. vm_compute. reflexivity. Qed.

(** One byte of the signature changed (first character 5 to 6). *)
Example verify_signature_byte_changed :
  verify_webhook (Some Sample.secret) Sample.body
    (Some "6RNHaM3nWsWOVjwXqeMDFvzyVYAizWogbAUeFlo1OBE=") = Ok false.
Proof. vm_compute. reflexivity. Qed.

(** C3 (the code departs from the claim). With no X-Shopify-Hmac-Sha256
    header, [request.headers.get] gives None and [verify_webhook] raises
    AttributeError on [hmac_header.encode] instead of returning False; the
    view does not reach its 400 branch and Flask answers 500. The store is
    left as it was. *)
Theorem verify_webhook_absent_header_raises :
  forall (py_str : pydict -> string) (secret : option string) (data : bytes)
         (shop : option string) (body : json_body) (out : outside) (w : world),
    let req := {| get_data := data;
                  X_Shopify_Hmac_Sha256 := None;
                  X_Shopify_Shop_Domain := shop;
                  request_json := body |} in
    verify_webhook secret data None = Raise AttributeError
    /\ flask (orders_create py_str secret out req) w
       = (InternalServerError AttributeError, w)
    /\ flask (orders_paid py_str secret out req) w
       = (InternalServerError AttributeError, w)
    /\ status_of (InternalServerError AttributeError) = 500%Z.
Proof.
  intros py_str secret data shop body out w req.
  assert (E : verify_webhook secret data None = Raise AttributeError)
    by (destruct secret; reflexivity).
  unfold flask, orders_create, orders_paid, bind, lift. subst req. cbn [get_data X_Shopify_Hmac_Sha256].
  rewrite E. repeat split.
Qed.

Lemma set_byte_changes (i : nat) (c c0 : ascii) (s : string) :
  String.get i s = Some c0 -> c <> c0 -> set_byte i c s <> s.
Proof.
  revert i. induction s as [|a r IH]; intros i Hget Hne; [discriminate|].
  destruct i as [|j]; cbn [set_byte String.get] in *.
  - injection Hget as ->. intros [= E]. contradiction.
  - intros [= E]. exact (IH j Hget Hne E).
Qed.

(** With the secret configured, [verify_webhook] returns True exactly when
    the header is the base64 text of the HMAC-SHA256 digest of the raw body
    under the secret. So the valid header is accepted; every other header
    gets False, in particular the valid one with any byte changed; and the
    valid header of one body gets False on any other body whose digest
    differs. Whether a body with one byte changed always has another digest
    is the collision resistance of HMAC-SHA256: it is not proved here, and
    this lemma says nothing of it. *)
Lemma verify_webhook_iff_valid_signature :
  forall (secret : string) (data : bytes) (h : string),
    let valid (d : bytes) := Base64.b64encode (HMAC.digest (encode_utf8 secret) d) in
    (verify_webhook (Some secret) data (Some h) = Ok true <-> h = valid data)
    /\ verify_webhook (Some secret) data (Some (valid data)) = Ok true
    /\ (h <> valid data -> verify_webhook (Some secret) data (Some h) = Ok false)
    /\ (forall (i : nat) (c c0 : ascii),
          String.get i (valid data) = Some c0 -> c <> c0 ->
          verify_webhook (Some secret) data (Some (set_byte i c (valid data)))
          = Ok false)
    /\ (forall data' : bytes,
          HMAC.digest (encode_utf8 secret) data' <> HMAC.digest (encode_utf8 secret) data ->
          verify_webhook (Some secret) data' (Some (valid data)) = Ok false).
Proof.
  intros secret data h valid. subst valid. cbv beta.
  set (valid := fun d => Base64.b64encode (HMAC.digest (encode_utf8 secret) d)).
  assert (Hiff : forall d x, verify_webhook (Some secret) d (Some x) = Ok true
                             <-> x = valid d).
  { intros d x. rewrite verify_webhook_present. split.
    - intros [= H]. apply compare_digest_true in H. symmetry in H.
      exact (proj1 (header_is_b64 _ _) H).
    - intros ->. f_equal. apply compare_digest_true. symmetry.
      exact (proj2 (header_is_b64 _ _) eq_refl). }
  assert (Hneg : forall d x, x <> valid d ->
                             verify_webhook (Some secret) d (Some x) = Ok false).
  { intros d x Hx. rewrite verify_webhook_present. f_equal.
    apply compare_digest_false. intros H. apply Hx. symmetry in H.
    exact (proj1 (header_is_b64 _ _) H). }
  split; [apply Hiff|]. split; [now apply Hiff|]. split; [apply Hneg|]. split.
  - intros i c c0 Hget Hne. apply Hneg. exact (set_byte_changes i c c0 _ Hget Hne).
  - intros data' Hd. apply Hneg. unfold valid. intros H.
    apply b64encode_inj in H. congruence.
Qed.

(** ** The statements *)

Lemma select_user_insert_or_replace ts oid shop st det upd s d :
  select_user s (insert_or_replace_order ts oid shop st det upd d) = select_user s d.
Proof. destruct s; reflexivity. Qed.

Lemma select_user_increment (shop : option string) (d : db) :
  select_user shop (increment_order_count shop d) = bump <$> select_user shop d.
Proof.
  destruct shop as [s|]; [|reflexivity].
  cbn [select_user increment_order_count users]. apply lookup_alter_eq.
Qed.

Lemma select_user_committed py_str ts order shop params d :
  select_user shop (committed py_str ts order shop params d)
  = bump <$> select_user shop d.
Proof.
  destruct params as [[oid st] upd]. unfold committed.
  now rewrite select_user_increment, select_user_insert_or_replace.
Qed.

Lemma orders_committed py_str ts order shop oid st upd d :
  orders (committed py_str ts order shop (oid, st, upd) d)
  = orders (insert_or_replace_order ts oid shop st (Some (py_str order)) upd d).
Proof. destruct shop; reflexivity. Qed.

(** ** [save_order] *)

(** A payload whose parameters do not bind leaves the world as it was. *)
Lemma save_order_rejected py_str out order shop w e :
  order_params order = Raise e ->
  save_order py_str out order shop w = (Raise e, w).
Proof.
  intros H. unfold save_order, bind, lift. now rewrite H.
Qed.

(** Otherwise the upsert and the increment are committed, and nothing that
    follows writes to the store. *)
Lemma save_order_database py_str out order shop w params :
  order_params order = Ok params ->
  database (snd (save_order py_str out order shop w))
  = committed py_str (now out) order shop params (database w).
Proof.
  intros H. destruct params as [[oid st] upd].
  unfold save_order, bind, lift, get_db, execute, raise, ret. rewrite H.
  cbn [database posted fst snd].
  fold (committed py_str (now out) order shop (oid, st, upd) (database w)).
  destruct (select_user shop _) as [user|]; [|reflexivity].
  destruct (_ >? _)%Z; [|reflexivity].
  unfold create_usage_charge, bind, get_db, raise, post, lift.
  cbn [database posted]. 
  destruct (select_user shop _); [|reflexivity].
  destruct (requests_post out _) as [|c b]; [reflexivity|].
  cbn. destruct b; reflexivity.
Qed.

(** What a call that reaches the commit does, for a shop with an account:
    the whole run in one equation. *)
Lemma save_order_accepted py_str out order shop w params u :
  order_params order = Ok params ->
  select_user shop (database w) = Some u ->
  save_order py_str out order shop w
  = let d' := committed py_str (now out) order shop params (database w) in
    let user := bump u in
    if (Users.order_count user >? USAGE_CHARGE_LIMIT)%Z
    then
      let req := usage_charge_request shop user
                   (Users.order_count user - USAGE_CHARGE_LIMIT) in
      (match requests_post out req with
       | NoResponse => Raise ConnectionError
       | Response _ (Some _) => Ok tt
       | Response _ None => Raise JSONDecodeError
       end,
       {| database := d'; posted := posted w ++ [req] |})
    else (Ok tt, {| database := d'; posted := posted w |}).
Proof.
  intros H Hu. pose proof (select_user_committed py_str (now out) order shop params (database w)) as Hs.
  rewrite Hu in Hs. cbn [fmap option_fmap option_map] in Hs.
  destruct params as [[oid st] upd].
  unfold save_order, bind, lift, get_db, execute, raise, ret. rewrite H.
  cbn [database posted fst snd].
  fold (committed py_str (now out) order shop (oid, st, upd) (database w)).
  cbv zeta. rewrite Hs.
  destruct (_ >? _)%Z; [|reflexivity].
  unfold create_usage_charge, bind, get_db, raise, post, lift.
  cbn [database posted]. rewrite Hs.
  destruct (requests_post out _) as [|c b]; [reflexivity|].
  cbn. destruct b; reflexivity.
Qed.

(** A shop without an account: the order is committed all the same, then
    reading the counter fails. *)
Lemma save_order_no_account py_str out order shop w params :
  order_params order = Ok params ->
  select_user shop (database w) = None ->
  save_order py_str out order shop w
  = (Raise TypeError,
     {| database := committed py_str (now out) order shop params (database w);
        posted := posted w |}).
Proof.
  intros H Hu. pose proof (select_user_committed py_str (now out) order shop params (database w)) as Hs.
  rewrite Hu in Hs. cbn [fmap option_fmap option_map] in Hs.
  destruct params as [[oid st] upd].
  unfold save_order, bind, lift, get_db, execute, raise, ret. rewrite H.
  cbn [database posted fst snd].
  fold (committed py_str (now out) order shop (oid, st, upd) (database w)).
  now rewrite Hs.
Qed.

Lemma save_order_posted py_str out order shop w params u :
  order_params order = Ok params ->
  select_user shop (database w) = Some u ->
  posted (snd (save_order py_str out order shop w))
  = (posted w ++ charges_at shop (bump u))%list.
Proof.
  intros H Hu. rewrite (save_order_accepted _ _ _ _ _ _ _ H Hu). cbv zeta.
  unfold charges_at. destruct (_ >? _)%Z; cbn [snd posted]; [reflexivity|].
  now rewrite app_nil_r.
Qed.

(** ** Every write to the store is one of the three statements *)

Lemma by_statements_ret {A} (a : A) : by_statements (ret a).
Proof. intros w. apply rtc_refl. Qed.

Lemma by_statements_raise {A} (e : exn) : by_statements (@raise A e).
Proof. intros w. apply rtc_refl. Qed.

Lemma by_statements_lift {A} (r : result A) : by_statements (lift r).
Proof. intros w. apply rtc_refl. Qed.

Lemma by_statements_bind {A B} (m : M A) (k : A -> M B) :
  by_statements m -> (forall a, by_statements (k a)) -> by_statements (bind m k).
Proof.
  intros Hm Hk w. unfold bind. specialize (Hm w).
  destruct (m w) as [[a|e] w1]; cbn [snd] in *; [|exact Hm].
  etrans; [exact Hm|apply Hk].
Qed.

Lemma by_statements_create_usage_charge out shop excess :
  by_statements (create_usage_charge out shop excess).
Proof.
  intros w. unfold create_usage_charge, bind, get_db, raise, post, lift.
  destruct (select_user shop _); [|apply rtc_refl].
  destruct (requests_post out _) as [|c b]; [apply rtc_refl|].
  cbn. destruct b; apply rtc_refl.
Qed.

Lemma by_statements_save_order py_str out order shop :
  by_statements (save_order py_str out order shop).
Proof.
  intros w. destruct (order_params order) as [[[oid st] upd]|e] eqn:H.
  - rewrite (save_order_database _ _ _ _ _ _ H). unfold committed.
    eapply rtc_l; [apply st_insert_or_replace_order|].
    apply rtc_once, st_increment_order_count.
  - rewrite (save_order_rejected _ _ _ _ _ _ H). apply rtc_refl.
Qed.

Lemma by_statements_save_notification message timestamp shop :
  by_statements (save_notification message timestamp shop).
Proof.
  intros w. unfold save_notification, bind, lift, execute.
  destruct (bind_text timestamp); cbn [snd database]; [|apply rtc_refl].
  apply rtc_once, st_insert_notification.
Qed.

Lemma by_statements_orders_create py_str secret out req :
  by_statements (orders_create py_str secret out req).
Proof.
  unfold orders_create.
  apply by_statements_bind; [apply by_statements_lift|]. intros verified.
  destruct verified; cbn [negb]; [|apply by_statements_ret].
  apply by_statements_bind; [apply by_statements_lift|]. intros order.
  apply by_statements_bind; [apply by_statements_save_order|]. intros _.
  apply by_statements_bind; [apply by_statements_lift|]. intros created_at.
  apply by_statements_bind; [apply by_statements_save_notification|]. intros _.
  apply by_statements_ret.
Qed.

Lemma by_statements_orders_paid py_str secret out req :
  by_statements (orders_paid py_str secret out req).
Proof.
  unfold orders_paid.
  apply by_statements_bind; [apply by_statements_lift|]. intros verified.
  destruct verified; cbn [negb]; [|apply by_statements_ret].
  apply by_statements_bind; [apply by_statements_lift|]. intros order.
  apply by_statements_bind; [apply by_statements_save_order|]. intros _.
  apply by_statements_bind; [apply by_statements_lift|]. intros updated_at.
  apply by_statements_bind; [apply by_statements_save_notification|]. intros _.
  apply by_statements_ret.
Qed.

Lemma flask_world (view : M response) (w : world) :
  snd (flask view w) = snd (view w).
Proof.
  unfold flask. destruct (view w) as [[r|e] w']; [reflexivity|].
  destruct e; reflexivity.
Qed.

Lemma step_statements py_str secret (w : world) (op : operation) :
  rtc statement (database w) (database (step py_str secret w op)).
Proof.
  destruct op; cbn [step]; rewrite ?flask_world.
  - apply by_statements_save_order.
  - apply by_statements_save_notification.
  - apply by_statements_create_usage_charge.
  - apply by_statements_orders_create.
  - apply by_statements_orders_paid.
Qed.

Lemma run_statements py_str secret (ops : list operation) (w : world) :
  rtc statement (database w) (database (run py_str secret ops w)).
Proof.
  revert w. induction ops as [|op ops IH]; intros w; [apply rtc_refl|].
  cbn [run fold_left]. etrans; [apply step_statements|apply IH].
Qed.

(** ** The order counter *)

Lemma counters_grow_refl (d : db) : counters_grow d d.
Proof. intros shop u H. exists u. split; [assumption|lia]. Qed.

Lemma counters_grow_trans (d1 d2 d3 : db) :
  counters_grow d1 d2 -> counters_grow d2 d3 -> counters_grow d1 d3.
Proof.
  intros H12 H23 shop u H.
  destruct (H12 _ _ H) as (u2 & H2 & L2).
  destruct (H23 _ _ H2) as (u3 & H3 & L3).
  exists u3. split; [assumption|lia].
Qed.

Lemma statement_counters_grow (d d' : db) :
  statement d d' -> counters_grow d d'.
Proof.
  intros [ts oid shop st det upd d0 | shop d0 | shop msg ts d0].
  - intros s u H. exists u. split; [exact H|lia].
  - destruct shop as [s|]; [|apply counters_grow_refl].
    intros shop u H. cbn [increment_order_count users].
    destruct (decide (s = shop)) as [->|Hne].
    + exists (bump u). rewrite lookup_alter_eq, H. split; [reflexivity|].
      cbn [bump Users.order_count]. lia.
    + exists u. rewrite lookup_alter_ne by assumption. split; [assumption|lia].
  - intros s u H. exists u. split; [exact H|lia].
Qed.

Lemma statements_counters_grow (d d' : db) :
  rtc statement d d' -> counters_grow d d'.
Proof.
  induction 1 as [d|d1 d2 d3 H12 _ IH].
  - apply counters_grow_refl.
  - eapply counters_grow_trans; [apply statement_counters_grow, H12|exact IH].
Qed.

(** ** The orders table *)

Lemma filter_filter_negb {A} (f : A -> bool) (l : list A) :
  List.filter f (List.filter (fun r => negb (f r)) l) = [].
Proof.
  induction l as [|a l IH]; [reflexivity|]. cbn [List.filter].
  destruct (f a) eqn:E; cbn [negb List.filter]; [exact IH|].
  now rewrite E.
Qed.

Lemma filter_filter_implied {A} (f g : A -> bool) (l : list A) :
  (forall r, f r = true -> g r = true) ->
  List.filter f (List.filter g l) = List.filter f l.
Proof.
  intros Himp. induction l as [|a l IH]; [reflexivity|]. cbn [List.filter].
  destruct (g a) eqn:G; cbn [List.filter].
  - now rewrite IH.
  - destruct (f a) eqn:F; [|exact IH]. apply Himp in F. congruence.
Qed.

Lemma has_order_id_true (x : string) (r : Orders.row) :
  has_order_id x r = true <-> Orders.shopify_order_id r = Some x.
Proof.
  unfold has_order_id, conflicts. destruct (Orders.shopify_order_id r) as [y|].
  - rewrite String.eqb_eq. split; congruence.
  - split; discriminate.
Qed.

(** After the upsert of an order id, exactly the new row carries it. *)
Lemma rows_with_id_upsert ts (x : string) shop st det upd (d : db) :
  rows_with_id x (insert_or_replace_order ts (Some x) shop st det upd d)
  = [ {| Orders.id := next_id (orders_seq d) (map Orders.id (orders d));
         Orders.shopify_order_id := Some x;
         Orders.shopify_shop := shop;
         Orders.status := st;
         Orders.details := det;
         Orders.created_at := Some ts;
         Orders.updated_at := upd |} ].
Proof.
  unfold rows_with_id, insert_or_replace_order. cbn [orders].
  rewrite List.filter_app.
  change (has_order_id x) with (conflicts (Some x)).
  rewrite filter_filter_negb. cbn [List.filter conflicts Orders.shopify_order_id].
  now rewrite String.eqb_refl.
Qed.

(** The rows that carry any other id stay as they are. *)
Lemma rows_with_id_upsert_other ts oid (y : string) shop st det upd (d : db) :
  oid <> Some y ->
  rows_with_id y (insert_or_replace_order ts oid shop st det upd d)
  = rows_with_id y d.
Proof.
  intros Hne. unfold rows_with_id, insert_or_replace_order. cbn [orders].
  rewrite List.filter_app, filter_filter_implied.
  - cbn [List.filter].
    destruct (has_order_id y _) eqn:E; [|apply app_nil_r].
    apply has_order_id_true in E. cbn in E. contradiction.
  - intros r Hr. apply has_order_id_true in Hr.
    unfold conflicts. rewrite Hr. destruct oid as [x|]; [|reflexivity].
    apply negb_true_iff, String.eqb_neq. congruence.
Qed.

Lemma statement_unique_order_ids (d d' : db) :
  statement d d' -> unique_order_ids d -> unique_order_ids d'.
Proof.
  intros [ts oid shop st det upd d0 | shop d0 | shop msg ts d0] Hu y.
  - destruct (decide (oid = Some y)) as [->|Hne].
    + now rewrite rows_with_id_upsert.
    + rewrite rows_with_id_upsert_other by assumption. apply Hu.
  - destruct shop; apply Hu.
  - apply Hu.
Qed.

Lemma statements_unique_order_ids (d d' : db) :
  rtc statement d d' -> unique_order_ids d -> unique_order_ids d'.
Proof.
  induction 1 as [d|d1 d2 d3 H12 _ IH]; [trivial|].
  intros Hu. apply IH. eapply statement_unique_order_ids; eassumption.
Qed.

Lemma rows_of_shop_le (shop : option string) (x : string) (d : db) :
  (length (rows_of_shop_with_id shop x d) <= length (rows_with_id x d))%nat.
Proof. unfold rows_of_shop_with_id. apply List.filter_length_le. Qed.

Example sample_params : order_params Sample.order_4242 = Ok Sample.params_4242.
Proof. vm_compute. reflexivity. Qed.

(** ** Ingestion and the counter *)

(** After the commit the shop's row is the old one with its counter
    raised by one. *)
Lemma save_order_select py_str out order (shop : string) w params u :
  order_params order = Ok params ->
  users (database w) !! shop = Some u ->
  users (database (snd (save_order py_str out order (Some shop) w))) !! shop
  = Some (bump u).
Proof.
  intros Hp Hu.
  pose proof (select_user_committed py_str (now out) order (Some shop) params
                (database w)) as Hs.
  rewrite <- (save_order_database _ _ _ _ _ _ Hp) in Hs.
  cbn [select_user] in Hs. now rewrite Hs, Hu.
Qed.

(** C5. A call of [save_order] that reaches its commit, for a shop with an
    account, adds exactly one to the shop's counter, whatever the orders
    table held before (a fresh id or one already stored); the row the
    threshold check then selects carries the new count, and the charge
    decision is taken on it. The counter is an INTEGER of SQLite before and
    after the call, and the excess it reaches is one Python prices exactly:
    there the sum and the product of the model are those of the program. *)
Theorem save_order_increments_by_one :
  forall (py_str : pydict -> string) (out : outside) (order : pydict)
         (shop : string) (w : world)
         (params : option string * option string * option string)
         (u : Users.row),
    order_params order = Ok params ->
    users (database w) !! shop = Some u ->
    int64 (Users.order_count u) = true ->
    exact_counter (Users.order_count u + 1) = true ->
    let w' := snd (save_order py_str out order (Some shop) w) in
    let count := (Users.order_count u + 1)%Z in
    counter shop (database w') = Some count
    /\ select_user (Some shop) (database w') = Some (bump u)
    /\ Users.order_count (bump u) = count
    /\ posted w'
       = (posted w
          ++ if (count >? USAGE_CHARGE_LIMIT)%Z
             then [usage_charge_request (Some shop) (bump u)
                     (count - USAGE_CHARGE_LIMIT)]
             else [])%list.
Proof.
  intros py_str out order shop w params u Hp Hu _ _ w' count.
  assert (Hs : select_user (Some shop) (database w') = Some (bump u))
    by exact (save_order_select py_str out order shop w params u Hp Hu).
  split; [|split; [exact Hs|split; [reflexivity|]]].
  - unfold counter. cbn [select_user] in Hs. now rewrite Hs.
  - subst w'. now rewrite (save_order_posted _ _ _ (Some shop) _ _ u Hp Hu).
Qed.

(** The same order delivered to a store that already holds it. *)
Lemma save_order_increments_by_one_witness :
  let w := snd (save_order Sample.str_of Sample.gateway_up Sample.order_4242
                  (Some Sample.shop_a) (Sample.start 41)) in
  let w' := snd (save_order Sample.str_of Sample.gateway_up Sample.order_4242
                   (Some Sample.shop_a) w) in
  counter Sample.shop_a (database w') = Some 43%Z
  /\ select_user (Some Sample.shop_a) (database w') = Some (bump (Sample.account 42))
  /\ Users.order_count (bump (Sample.account 42)) = 43%Z
  /\ posted w' = (posted w ++ [])%list.
Proof.
  apply (save_order_increments_by_one Sample.str_of Sample.gateway_up
           Sample.order_4242 Sample.shop_a _ Sample.params_4242 (Sample.account 42));
    vm_compute; reflexivity.
Defined.

(** C2 (the code departs from the claim). One order of shop A delivered
    twice, the counter starting at 0: it reads 1 after the first delivery
    and 2 after the second, where the claim has one net increment. The
    orders table beside it holds the order once: the upsert tells a second
    sighting from a first, the counter does not. *)
Lemma redelivery_counts_twice :
  let deliver := SaveOrder Sample.gateway_up Sample.order_4242 (Some Sample.shop_a) in
  let once := run Sample.str_of (Some Sample.secret) [deliver] (Sample.start 0) in
  let twice := run Sample.str_of (Some Sample.secret) [deliver; deliver] (Sample.start 0) in
  counter Sample.shop_a (database (Sample.start 0)) = Some 0%Z
  /\ counter Sample.shop_a (database once) = Some 1%Z
  /\ counter Sample.shop_a (database twice) = Some 2%Z
  /\ length (rows_with_id "4242" (database twice)) = 1%nat.
Proof. vm_compute. repeat split; reflexivity. Qed.

(** The same at any store: [save_order] called twice with the same order
    for a shop with an account adds two to the counter, as long as the
    counter stays an INTEGER of SQLite; the order record is kept once. *)
Lemma save_order_twice_increments_twice :
  forall (py_str : pydict -> string) (out1 out2 : outside) (order : pydict)
         (shop : string) (w : world)
         (params : option string * option string * option string)
         (u : Users.row),
    order_params order = Ok params ->
    users (database w) !! shop = Some u ->
    int64 (Users.order_count u) = true ->
    int64 (Users.order_count u + 2) = true ->
    let w1 := snd (save_order py_str out1 order (Some shop) w) in
    let w2 := snd (save_order py_str out2 order (Some shop) w1) in
    counter shop (database w1) = Some (Users.order_count u + 1)%Z
    /\ counter shop (database w2) = Some (Users.order_count u + 2)%Z
    /\ (forall x : string,
          fst (fst params) = Some x ->
          length (rows_with_id x (database w2)) = 1%nat).
Proof.
  intros py_str out1 out2 order shop w params u Hp Hu _ _ w1 w2.
  pose proof (save_order_select py_str out1 order shop w params u Hp Hu) as S1.
  fold w1 in S1.
  pose proof (save_order_select py_str out2 order shop w1 params (bump u) Hp S1) as S2.
  fold w2 in S2. unfold counter. rewrite S1, S2.
  cbn [fmap option_fmap option_map bump Users.order_count].
  split; [reflexivity|]. split.
  - f_equal. lia.
  - intros x Hx. subst w2. rewrite (save_order_database _ _ _ _ _ _ Hp).
    destruct params as [[oid st] upd]. cbn [fst] in Hx. subst oid.
    unfold rows_with_id. rewrite orders_committed.
    fold (rows_with_id x (insert_or_replace_order (now out2) (Some x) (Some shop)
                            st (Some (py_str order)) upd (database w1))).
    now rewrite rows_with_id_upsert.
Qed.

Lemma save_order_twice_increments_twice_witness :
  let w1 := snd (save_order Sample.str_of Sample.gateway_up Sample.order_4242
                   (Some Sample.shop_a) (Sample.start 0)) in
  let w2 := snd (save_order Sample.str_of Sample.gateway_up Sample.order_4242
                   (Some Sample.shop_a) w1) in
  counter Sample.shop_a (database w1) = Some (0 + 1)%Z
  /\ counter Sample.shop_a (database w2) = Some (0 + 2)%Z
  /\ (forall x : string,
        fst (fst Sample.params_4242) = Some x ->
        length (rows_with_id x (database w2)) = 1%nat).
Proof.
  apply (save_order_twice_increments_twice Sample.str_of Sample.gateway_up
           Sample.gateway_up Sample.order_4242 Sample.shop_a (Sample.start 0)
           Sample.params_4242 (Sample.account 0));
    vm_compute; reflexivity.
Defined.

(** ** Usage charges *)

(** The charge sent at a count above the limit is priced on the whole
    excess [count - USAGE_CHARGE_LIMIT]. *)
Lemma charges_at_over_limit (shop : option string) (user : Users.row) :
  (USAGE_CHARGE_LIMIT < Users.order_count user)%Z ->
  map (fun r => price (json r)) (charges_at shop user)
  = [Qred (inject_Z (Users.order_count user - USAGE_CHARGE_LIMIT) * USAGE_CHARGE_COST)].
Proof.
  intros H. unfold charges_at.
  destruct (Z.gtb_spec (Users.order_count user) USAGE_CHARGE_LIMIT); [reflexivity|lia].
Qed.

Lemma charges_at_within_limit (shop : option string) (user : Users.row) :
  (Users.order_count user <= USAGE_CHARGE_LIMIT)%Z -> charges_at shop user = [].
Proof.
  intros H. unfold charges_at.
  destruct (Z.gtb_spec (Users.order_count user) USAGE_CHARGE_LIMIT); [lia|reflexivity].
Qed.

(** C1 (the code departs from the claim). Three orders for a shop whose
    counter stands at 99. The order that brings it to 100 sends no charge
    and the one that brings it to 101 sends one charge of one unit cost, as
    claimed; the one that brings it to 102 sends a charge of twice the unit
    cost, the whole excess again, where the claim has one unit. *)
Theorem usage_charge_at_102_bills_two_units :
  let order n := SaveOrder Sample.gateway_up (Sample.order_no n) (Some Sample.shop_a) in
  let prices w := map (fun r => price (json r)) (posted w) in
  let go := run Sample.str_of (Some Sample.secret) in
  counter Sample.shop_a (database (go [order 1%Z] (Sample.start 99))) = Some 100%Z
  /\ prices (go [order 1%Z] (Sample.start 99)) = []
  /\ prices (go [order 1%Z; order 2%Z] (Sample.start 99)) = [USAGE_CHARGE_COST]
  /\ counter Sample.shop_a
       (database (go [order 1%Z; order 2%Z; order 3%Z] (Sample.start 99))) = Some 102%Z
  /\ prices (go [order 1%Z; order 2%Z; order 3%Z] (Sample.start 99))
     = [USAGE_CHARGE_COST; Qred (2 * USAGE_CHARGE_COST)]
  /\ Qeq_bool (2 * USAGE_CHARGE_COST) USAGE_CHARGE_COST = false.
Proof. vm_compute. repeat split; reflexivity. Qed.

(** ** The gateway *)

(** C6. Whatever the gateway answers, once [save_order] has committed, the
    store is the committed one: the order record is there and the counter is
    raised. When the charge is due and the gateway gives no response, or a
    response that is not JSON, the call raises after the commit; a response
    with a JSON body, of any status, is not looked at. *)
Theorem gateway_failure_keeps_ingestion :
  forall (py_str : pydict -> string) (out : outside) (order : pydict)
         (shop : string) (w : world)
         (params : option string * option string * option string)
         (u : Users.row),
    order_params order = Ok params ->
    users (database w) !! shop = Some u ->
    (USAGE_CHARGE_LIMIT < Users.order_count u + 1)%Z ->
    let call := save_order py_str out order (Some shop) w in
    let req := usage_charge_request (Some shop) (bump u)
                 (Users.order_count u + 1 - USAGE_CHARGE_LIMIT) in
    database (snd call) = committed py_str (now out) order (Some shop) params (database w)
    /\ counter shop (database (snd call)) = Some (Users.order_count u + 1)%Z
    /\ (forall x : string,
          fst (fst params) = Some x ->
          exists r, rows_with_id x (database (snd call)) = [r]
                    /\ Orders.shopify_shop r = Some shop)
    /\ posted (snd call) = (posted w ++ [req])%list
    /\ fst call = match requests_post out req with
                 | NoResponse => Raise ConnectionError
                 | Response _ None => Raise JSONDecodeError
                 | Response _ (Some _) => Ok tt
                 end.
Proof.
  intros py_str out order shop w params u Hp Hu Hc call req.
  assert (Hd : database (snd call)
               = committed py_str (now out) order (Some shop) params (database w))
    by apply (save_order_database _ _ _ _ _ _ Hp).
  split; [exact Hd|]. split; [|split].
  - unfold counter. subst call. now rewrite (save_order_select _ _ _ _ _ _ _ Hp Hu).
  - intros x Hx. rewrite Hd. destruct params as [[oid st] upd].
    cbn [fst] in Hx. subst oid. unfold rows_with_id. rewrite orders_committed.
    fold (rows_with_id x (insert_or_replace_order (now out) (Some x) (Some shop)
                            st (Some (py_str order)) upd (database w))).
    rewrite rows_with_id_upsert. eexists. split; reflexivity.
  - subst call. rewrite (save_order_accepted _ _ _ (Some shop) _ _ u Hp Hu). cbv zeta.
    cbn [bump Users.order_count].
    destruct (Z.gtb_spec (Users.order_count u + 1) USAGE_CHARGE_LIMIT) as [_|Hle]; [|lia].
    cbn [fst snd posted]. split; [reflexivity|].
    subst req. cbn [bump Users.order_count].
    destruct (requests_post out _) as [|c [b|]]; reflexivity.
Qed.

(** The gateway is down when shop A's 101st order arrives. *)
Lemma gateway_failure_keeps_ingestion_witness :
  let call := save_order Sample.str_of Sample.gateway_down Sample.order_4242
               (Some Sample.shop_a) (Sample.start 100) in
  let req := usage_charge_request (Some Sample.shop_a) (bump (Sample.account 100))
               (100 + 1 - USAGE_CHARGE_LIMIT) in
  database (snd call)
  = committed Sample.str_of (now Sample.gateway_down) Sample.order_4242
      (Some Sample.shop_a) Sample.params_4242 (database (Sample.start 100))
  /\ counter Sample.shop_a (database (snd call)) = Some (100 + 1)%Z
  /\ (forall x : string,
        fst (fst Sample.params_4242) = Some x ->
        exists r, rows_with_id x (database (snd call)) = [r]
                  /\ Orders.shopify_shop r = Some Sample.shop_a)
  /\ posted (snd call) = (posted (Sample.start 100) ++ [req])%list
  /\ fst call = Raise ConnectionError.
Proof.
  apply (gateway_failure_keeps_ingestion Sample.str_of Sample.gateway_down
           Sample.order_4242 Sample.shop_a (Sample.start 100)
           Sample.params_4242 (Sample.account 100));
    vm_compute; reflexivity.
Defined.

(** Through the endpoint: the gateway fails, Flask answers 500, the order
    and the counter stay, and no notification is written. *)
Example orders_create_gateway_down :
  let r := flask (orders_create Sample.str_of (Some Sample.secret) Sample.gateway_down
                    (Sample.delivery (Some Sample.signature) Sample.shop_a))
             (Sample.start 100) in
  fst r = InternalServerError ConnectionError
  /\ counter Sample.shop_a (database (snd r)) = Some 101%Z
  /\ length (rows_with_id "4242" (database (snd r))) = 1%nat
  /\ notifications (database (snd r)) = [].
Proof. vm_compute. repeat split; reflexivity. Qed.

(** ** The endpoints *)

(** When [verify_webhook] returns False, each endpoint answers 400 and
    the world is the one it started from: no order row, no counter change,
    no request to the gateway, no notification. *)
Lemma verification_failure_has_no_effect :
  forall (py_str : pydict -> string) (secret : option string) (out : outside)
         (req : request) (w : world),
    verify_webhook secret (get_data req) (X_Shopify_Hmac_Sha256 req) = Ok false ->
    flask (orders_create py_str secret out req) w = (VerificationFailed, w)
    /\ flask (orders_paid py_str secret out req) w = (VerificationFailed, w)
    /\ status_of VerificationFailed = 400%Z
    /\ (400 <= status_of VerificationFailed < 500)%Z.
Proof.
  intros py_str secret out req w H.
  unfold flask, orders_create, orders_paid, bind, lift, ret. rewrite H.
  cbn. repeat split; lia.
Qed.

(** A delivery signed with something else than the secret. *)
Lemma verification_failure_has_no_effect_witness :
  let req := Sample.delivery (Some "bm90IHRoZSBzaWduYXR1cmU=") Sample.shop_a in
  let w := Sample.start 100 in
  flask (orders_create Sample.str_of (Some Sample.secret) Sample.gateway_up req) w
  = (VerificationFailed, w)
  /\ flask (orders_paid Sample.str_of (Some Sample.secret) Sample.gateway_up req) w
     = (VerificationFailed, w)
  /\ status_of VerificationFailed = 400%Z
  /\ (400 <= status_of VerificationFailed < 500)%Z.
Proof.
  apply (verification_failure_has_no_effect Sample.str_of (Some Sample.secret)
           Sample.gateway_up
           (Sample.delivery (Some "bm90IHRoZSBzaWduYXR1cmU=") Sample.shop_a)
           (Sample.start 100)).
  vm_compute. reflexivity.
Defined.

(** When the verifier raises, Flask answers 500 and the world is untouched
    as well. *)
Lemma verification_error_has_no_effect py_str secret out req w e :
  verify_webhook secret (get_data req) (X_Shopify_Hmac_Sha256 req) = Raise e ->
  flask (orders_create py_str secret out req) w = (InternalServerError AttributeError, w)
  /\ flask (orders_paid py_str secret out req) w = (InternalServerError AttributeError, w).
Proof.
  intros H. pose proof (verify_webhook_raises _ _ _ _ H) as ->.
  unfold flask, orders_create, orders_paid, bind, lift. rewrite H. split; reflexivity.
Qed.

(** C7 (the code departs from the claim). A delivery without signature
    header fails verification by raising instead of returning False: for
    every secret, body, shop and payload both endpoints answer 500, a server
    error where the claim has a client error, and never reach their 400
    branch. No side effect happens: the world is the one they started
    from. *)
Theorem unsigned_delivery_is_a_server_error :
  forall (py_str : pydict -> string) (secret : option string) (out : outside)
         (data : bytes) (shop : option string) (body : json_body) (w : world),
    let req := {| get_data := data;
                  X_Shopify_Hmac_Sha256 := None;
                  X_Shopify_Shop_Domain := shop;
                  request_json := body |} in
    flask (orders_create py_str secret out req) w = (InternalServerError AttributeError, w)
    /\ flask (orders_paid py_str secret out req) w = (InternalServerError AttributeError, w)
    /\ status_of (InternalServerError AttributeError) = 500%Z
    /\ ~ (400 <= status_of (InternalServerError AttributeError) < 500)%Z
    /\ flask (orders_create py_str secret out req) w <> (VerificationFailed, w).
Proof.
  intros py_str secret out data shop body w req.
  assert (H : verify_webhook secret (get_data req) (X_Shopify_Hmac_Sha256 req)
              = Raise AttributeError) by (destruct secret; reflexivity).
  assert (Hc : flask (orders_create py_str secret out req) w
               = (InternalServerError AttributeError, w)).
  { unfold flask, orders_create, bind, lift. now rewrite H. }
  assert (Hp : flask (orders_paid py_str secret out req) w
               = (InternalServerError AttributeError, w)).
  { unfold flask, orders_paid, bind, lift. now rewrite H. }
  split; [exact Hc|]. split; [exact Hp|]. split; [reflexivity|].
  split; [cbn; lia|]. rewrite Hc. discriminate.
Qed.

(** The sample delivery sent without its signature. *)
Example orders_create_unsigned :
  let r := flask (orders_create Sample.str_of (Some Sample.secret) Sample.gateway_up
                    (Sample.delivery None Sample.shop_a))
             (Sample.start 100) in
  fst r = InternalServerError AttributeError
  /\ status_of (fst r) = 500%Z
  /\ snd r = Sample.start 100.
Proof. vm_compute. repeat split; reflexivity. Qed.

(** The same delivery with its true signature goes through. *)
Example orders_create_accepted :
  let r := flask (orders_create Sample.str_of (Some Sample.secret) Sample.gateway_up
                    (Sample.delivery (Some Sample.signature) Sample.shop_a))
             (Sample.start 100) in
  fst r = Success
  /\ counter Sample.shop_a (database (snd r)) = Some 101%Z
  /\ length (posted (snd r)) = 1%nat
  /\ length (notifications (database (snd r))) = 1%nat.
Proof. vm_compute. repeat split; reflexivity. Qed.

(** ** Invariants over sequences of operations *)

(** C8. Over any sequence of operations of the core, every account stays
    and its order counter does not go down; from a non-negative counter it
    stays non-negative. *)
Theorem order_count_never_decreases :
  forall (py_str : pydict -> string) (secret : option string)
         (ops : list operation) (w : world) (shop : string) (c : Z),
    counter shop (database w) = Some c ->
    exists c' : Z,
      counter shop (database (run py_str secret ops w)) = Some c'
      /\ (c <= c')%Z
      /\ ((0 <= c)%Z -> (0 <= c')%Z).
Proof.
  intros py_str secret ops w shop c H. unfold counter in *.
  destruct (users (database w) !! shop) as [u|] eqn:Hu; [|discriminate].
  injection H as <-.
  destruct (statements_counters_grow _ _ (run_statements py_str secret ops w) _ _ Hu)
    as (u' & Hu' & Hle).
  exists (Users.order_count u'). rewrite Hu'. split; [reflexivity|]. split; lia.
Qed.

Lemma order_count_never_decreases_witness :
  exists c' : Z,
    counter Sample.shop_a
      (database
         (run Sample.str_of (Some Sample.secret)
            [ OrdersCreate Sample.gateway_up
                (Sample.delivery (Some Sample.signature) Sample.shop_a);
              OrdersPaid Sample.gateway_down
                (Sample.delivery (Some Sample.signature) Sample.shop_a);
              OrdersPaid Sample.gateway_up (Sample.delivery None Sample.shop_a);
              SaveNotification "note" PyNone (Some Sample.shop_a);
              SaveOrder Sample.gateway_error (Sample.order_no 7) (Some Sample.shop_a);
              CreateUsageCharge Sample.gateway_up (Some Sample.shop_a) 3 ]
            (Sample.start 99)))
    = Some c'
    /\ (99 <= c')%Z
    /\ ((0 <= 99)%Z -> (0 <= c')%Z).
Proof.
  apply (order_count_never_decreases Sample.str_of (Some Sample.secret) _
           (Sample.start 99) Sample.shop_a 99).
  vm_compute. reflexivity.
Defined.

(** C9. From a store that meets the UNIQUE constraint, in particular from
    an empty orders table, any sequence of operations leaves at most one
    row per order id, so at most one per shop and order id; and a call of
    [save_order] that commits an order id leaves exactly one row with it,
    the one it wrote. *)
Theorem one_record_per_shop_and_order_id :
  forall (py_str : pydict -> string) (secret : option string)
         (ops : list operation) (w : world),
    unique_order_ids (database w) ->
    let w' := run py_str secret ops w in
    (forall (shop : option string) (x : string),
        (length (rows_of_shop_with_id shop x (database w')) <= 1)%nat)
    /\ (forall x : string, (length (rows_with_id x (database w')) <= 1)%nat)
    /\ (forall (out : outside) (order : pydict) (shop : option string)
               (st upd : option string) (x : string),
          order_params order = Ok (Some x, st, upd) ->
          let w'' := run py_str secret (ops ++ [SaveOrder out order shop]) w in
          exists r, rows_with_id x (database w'') = [r]
                    /\ Orders.shopify_shop r = shop
                    /\ Orders.details r = Some (py_str order)).
Proof.
  intros py_str secret ops w Hu w'.
  assert (Hu' : unique_order_ids (database w'))
    by exact (statements_unique_order_ids _ _ (run_statements py_str secret ops w) Hu).
  split; [|split].
  - intros shop x. etrans; [apply rows_of_shop_le|apply Hu'].
  - exact Hu'.
  - intros out order shop st upd x Hp w''.
    subst w''. unfold run. rewrite fold_left_app. cbn [fold_left step].
    fold (run py_str secret ops w). fold w'.
    rewrite (save_order_database _ _ _ _ _ _ Hp).
    unfold rows_with_id. rewrite orders_committed.
    fold (rows_with_id x (insert_or_replace_order (now out) (Some x) shop
                            st (Some (py_str order)) upd (database w'))).
    rewrite rows_with_id_upsert. eexists. repeat split; reflexivity.
Qed.

(** The same order twice for shop A, then another order for shop B, from
    an empty orders table. *)
Lemma one_record_per_shop_and_order_id_witness :
  let ops :=
    [ SaveOrder Sample.gateway_up Sample.order_4242 (Some Sample.shop_a);
      SaveOrder Sample.gateway_up Sample.order_4242 (Some Sample.shop_a);
      SaveOrder Sample.gateway_up (Sample.order_no 7) (Some Sample.shop_b) ] in
  let w' := run Sample.str_of (Some Sample.secret) ops (Sample.start 0) in
  (forall (shop : option string) (x : string),
      (length (rows_of_shop_with_id shop x (database w')) <= 1)%nat)
  /\ (forall x : string, (length (rows_with_id x (database w')) <= 1)%nat)
  /\ (forall (out : outside) (order : pydict) (shop : option string)
             (st upd : option string) (x : string),
        order_params order = Ok (Some x, st, upd) ->
        let w'' := run Sample.str_of (Some Sample.secret)
                     (ops ++ [SaveOrder out order shop]) (Sample.start 0) in
        exists r, rows_with_id x (database w'') = [r]
                  /\ Orders.shopify_shop r = shop
                  /\ Orders.details r = Some (Sample.str_of order)).
Proof.
  apply (one_record_per_shop_and_order_id Sample.str_of (Some Sample.secret) _
           (Sample.start 0)).
  intros x. vm_compute. lia.
Defined.

Example orders_after_redelivery :
  map (fun r => (Orders.id r, Orders.shopify_order_id r, Orders.shopify_shop r))
    (orders (database
       (run Sample.str_of (Some Sample.secret)
          [ SaveOrder Sample.gateway_up Sample.order_4242 (Some Sample.shop_a);
            SaveOrder Sample.gateway_up Sample.order_4242 (Some Sample.shop_a);
            SaveOrder Sample.gateway_up (Sample.order_no 7) (Some Sample.shop_b) ]
          (Sample.start 0))))
  = [ (2%Z, Some "4242", Some Sample.shop_a); (3%Z, Some "7", Some Sample.shop_b) ].
Proof. vm_compute. reflexivity. Qed.

(** An order without an id is stored with a NULL id, which the UNIQUE
    constraint lets repeat; such rows carry no order id. *)
Example null_ids_repeat :
  let order : pydict :=
    <["id" := PyNone]> (<["updated_at" := PyStr "2024-05-01T10:00:00Z"]> ∅) in
  map Orders.shopify_order_id
    (orders (database
       (run Sample.str_of (Some Sample.secret)
          [ SaveOrder Sample.gateway_up order (Some Sample.shop_a);
            SaveOrder Sample.gateway_up order (Some Sample.shop_a) ]
          (Sample.start 0))))
  = [None; None].
Proof. vm_compute. reflexivity. Qed.

(** C10. The upsert is keyed by the order id alone. When the store holds a
    row of shop A for order id X and [save_order] commits an order with id X
    for another shop B, the row of shop A is gone and exactly one row carries
    id X: the new one, which references shop B. *)
Theorem order_id_is_unique_across_shops :
  forall (py_str : pydict -> string) (out : outside) (order : pydict)
         (shop_a shop_b : string) (w : world) (st upd : option string)
         (x : string) (row_a : Orders.row),
    order_params order = Ok (Some x, st, upd) ->
    In row_a (orders (database w)) ->
    Orders.shopify_order_id row_a = Some x ->
    Orders.shopify_shop row_a = Some shop_a ->
    shop_a <> shop_b ->
    let w' := snd (save_order py_str out order (Some shop_b) w) in
    exists r,
      rows_with_id x (database w') = [r]
      /\ Orders.shopify_shop r = Some shop_b
      /\ Orders.shopify_order_id r = Some x
      /\ ~ In row_a (orders (database w')).
Proof.
  intros py_str out order shop_a shop_b w st upd x row_a Hp Hin Hid Hshop Hne w'.
  assert (Hrows : rows_with_id x (database w')
                  = [ {| Orders.id := next_id (orders_seq (database w))
                                         (map Orders.id (orders (database w)));
                         Orders.shopify_order_id := Some x;
                         Orders.shopify_shop := Some shop_b;
                         Orders.status := st;
                         Orders.details := Some (py_str order);
                         Orders.created_at := Some (now out);
                         Orders.updated_at := upd |} ]).
  { subst w'. rewrite (save_order_database _ _ _ _ _ _ Hp).
    unfold rows_with_id. rewrite orders_committed.
    apply rows_with_id_upsert. }
  eexists. split; [exact Hrows|]. split; [reflexivity|]. split; [reflexivity|].
  intros Hin'.
  assert (Hf : In row_a (rows_with_id x (database w'))).
  { unfold rows_with_id. apply List.filter_In. split; [exact Hin'|].
    now apply has_order_id_true. }
  rewrite Hrows in Hf. destruct Hf as [<-|[]].
  cbn in Hshop. congruence.
Qed.

(** Order 4242 stored for shop A, then delivered for shop B. *)
Lemma order_id_is_unique_across_shops_witness :
  let row_a :=
    {| Orders.id := 1;
       Orders.shopify_order_id := Some "4242";
       Orders.shopify_shop := Some Sample.shop_a;
       Orders.status := Some "pending";
       Orders.details := Some (Sample.str_of Sample.order_4242);
       Orders.created_at := Some (now Sample.gateway_up);
       Orders.updated_at := Some "2024-05-01T10:00:00Z" |} in
  let w := snd (save_order Sample.str_of Sample.gateway_up Sample.order_4242
                  (Some Sample.shop_a) (Sample.start 0)) in
  let w' := snd (save_order Sample.str_of Sample.gateway_up Sample.order_4242
                   (Some Sample.shop_b) w) in
  exists r,
    rows_with_id "4242" (database w') = [r]
    /\ Orders.shopify_shop r = Some Sample.shop_b
    /\ Orders.shopify_order_id r = Some "4242"
    /\ ~ In row_a (orders (database w')).
Proof.
  apply (order_id_is_unique_across_shops Sample.str_of Sample.gateway_up
           Sample.order_4242 Sample.shop_a Sample.shop_b _
           (Some "pending") (Some "2024-05-01T10:00:00Z") "4242").
  - vm_compute. reflexivity.
  - vm_compute. left. reflexivity.
  - reflexivity.
  - reflexivity.
  - vm_compute. discriminate.
Defined.

Example sha256_constants :
  length SHA256.K = 64%nat
  /\ hd 0%N SHA256.K = 0x428a2f98%N /\ List.last SHA256.K 0%N = 0xc67178f2%N
  /\ length SHA256.H0 = 8%nat
  /\ hd 0%N SHA256.H0 = 0x6a09e667%N /\ List.last SHA256.H0 0%N = 0x5be0cd19%N.
Proof. vm_compute. repeat split; reflexivity. Qed.

(** * Further properties of webhooks.py *)

(** ** What a run keeps *)

Lemma statement_notifications (d d' : db) :
  statement d d' ->
  exists added, notifications d' = (notifications d ++ added)%list.
Proof.
  intros [ts oid shop st det upd d0 | shop d0 | shop msg ts d0].
  - exists []. cbn. now rewrite app_nil_r.
  - exists []. destruct shop; cbn; now rewrite app_nil_r.
  - eexists. reflexivity.
Qed.

(** The notifications table is append-only: whatever the operations, the
    rows that were there are still there, unchanged and in the same order,
    in front of the new ones. *)
Theorem notifications_append_only :
  forall (py_str : pydict -> string) (secret : option string)
         (ops : list operation) (w : world),
    exists added : list Notifications.row,
      notifications (database (run py_str secret ops w))
      = (notifications (database w) ++ added)%list.
Proof.
  intros py_str secret ops w.
  induction (run_statements py_str secret ops w) as [d|d1 d2 d3 H12 _ (l & IH)].
  - exists []. now rewrite app_nil_r.
  - destruct (statement_notifications _ _ H12) as (l0 & E).
    exists (l0 ++ l)%list. rewrite IH, E. now rewrite app_assoc.
Qed.

Lemma rows_with_id_nonempty_upsert ts oid (y : string) shop st det upd (d : db) :
  rows_with_id y d <> [] ->
  rows_with_id y (insert_or_replace_order ts oid shop st det upd d) <> [].
Proof.
  intros H. destruct (decide (oid = Some y)) as [->|Hne].
  - now rewrite rows_with_id_upsert.
  - now rewrite rows_with_id_upsert_other.
Qed.

Lemma statement_keeps_order_ids (d d' : db) (y : string) :
  statement d d' -> rows_with_id y d <> [] -> rows_with_id y d' <> [].
Proof.
  intros [ts oid shop st det upd d0 | shop d0 | shop msg ts d0] H.
  - now apply rows_with_id_nonempty_upsert.
  - destruct shop; exact H.
  - exact H.
Qed.

Lemma statement_keeps_null_rows (d d' : db) (r : Orders.row) :
  statement d d' -> Orders.shopify_order_id r = None ->
  In r (orders d) -> In r (orders d').
Proof.
  intros [ts oid shop st det upd d0 | shop d0 | shop msg ts d0] Hnull Hin.
  - cbn [insert_or_replace_order orders]. apply in_or_app. left.
    apply List.filter_In. split; [exact Hin|].
    unfold conflicts. rewrite Hnull. now destruct oid.
  - destruct shop; exact Hin.
  - exact Hin.
Qed.

(** No operation deletes an order: an order id that has a row keeps one
    (the row may be replaced by a later delivery of the same id), and a row
    stored with a NULL id stays as it is. *)
Theorem orders_are_never_deleted :
  forall (py_str : pydict -> string) (secret : option string)
         (ops : list operation) (w : world),
    let w' := run py_str secret ops w in
    (forall x : string,
        rows_with_id x (database w) <> [] -> rows_with_id x (database w') <> [])
    /\ (forall r : Orders.row,
          Orders.shopify_order_id r = None ->
          In r (orders (database w)) -> In r (orders (database w'))).
Proof.
  intros py_str secret ops w w'. subst w'.
  induction (run_statements py_str secret ops w) as [d|d1 d2 d3 H12 _ [IH1 IH2]].
  - split; auto.
  - split.
    + intros x H. apply IH1. eapply statement_keeps_order_ids; eassumption.
    + intros r Hn Hin. apply IH2; [exact Hn|].
      eapply statement_keeps_null_rows; eassumption.
Qed.

(** ** Primary keys *)

Lemma next_id_above (seq : Z) (ids : list Z) (i : Z) :
  In i ids -> (i < next_id seq ids)%Z.
Proof.
  unfold next_id. induction ids as [|j ids IH]; [contradiction|].
  cbn [fold_right]. intros [->|Hin]; [lia|]. specialize (IH Hin). lia.
Qed.

Lemma NoDup_snoc_fresh (l : list Z) (n : Z) :
  NoDup l -> (forall i, In i l -> (i < n)%Z) -> NoDup (l ++ [n]).
Proof.
  intros Hl Hlt. apply NoDup_app. split; [exact Hl|]. split.
  - intros i Hi Hn. apply list_elem_of_In in Hi. apply list_elem_of_In in Hn.
    destruct Hn as [<-|[]]. specialize (Hlt _ Hi). lia.
  - apply NoDup_singleton.
Qed.

Lemma NoDup_map_filter {A} (f : A -> Z) (p : A -> bool) (l : list A) :
  NoDup (map f l) -> NoDup (map f (List.filter p l)).
Proof.
  induction l as [|a l IH]; [trivial|]. cbn [map List.filter].
  intros H. apply NoDup_cons in H as [Hn Hl].
  destruct (p a); [|now apply IH]. cbn [map]. apply NoDup_cons. split; [|now apply IH].
  intros Hin. apply Hn. apply list_elem_of_In in Hin. apply list_elem_of_In.
  apply in_map_iff in Hin as (b & Eb & Hb). apply List.filter_In in Hb as [Hb _].
  apply in_map_iff. eauto.
Qed.

Lemma statement_distinct_ids (d d' : db) :
  statement d d' -> distinct_ids d -> distinct_ids d'.
Proof.
  intros [ts oid shop st det upd d0 | shop d0 | shop msg ts d0] [Ho Hn].
  - split; [|exact Hn]. cbn [insert_or_replace_order orders].
    rewrite map_app. cbn [map Orders.id]. apply NoDup_snoc_fresh.
    + now apply NoDup_map_filter.
    + intros i Hi. apply next_id_above.
      apply in_map_iff in Hi as (r & Er & Hr). apply List.filter_In in Hr as [Hr _].
      apply in_map_iff. eauto.
  - destruct shop; split; assumption.
  - split; [exact Ho|]. cbn [insert_notification notifications].
    rewrite map_app. cbn [map Notifications.id]. apply NoDup_snoc_fresh; [exact Hn|].
    intros i Hi. now apply next_id_above.
Qed.

(** The ids of the orders and of the notifications stay pairwise distinct
    over any run: a new row takes an id above every id in its table, also
    when the row it replaces held the largest one. *)
Theorem primary_keys_stay_distinct :
  forall (py_str : pydict -> string) (secret : option string)
         (ops : list operation) (w : world),
    distinct_ids (database w) ->
    distinct_ids (database (run py_str secret ops w)).
Proof.
  intros py_str secret ops w.
  induction (run_statements py_str secret ops w) as [d|d1 d2 d3 H12 _ IH]; [trivial|].
  intros H. apply IH. eapply statement_distinct_ids; eassumption.
Qed.

Lemma primary_keys_stay_distinct_witness :
  distinct_ids
    (database
       (run Sample.str_of (Some Sample.secret)
          [ OrdersCreate Sample.gateway_up
              (Sample.delivery (Some Sample.signature) Sample.shop_a);
            OrdersPaid Sample.gateway_up
              (Sample.delivery (Some Sample.signature) Sample.shop_a);
            SaveOrder Sample.gateway_up (Sample.order_no 7) (Some Sample.shop_b) ]
          (Sample.start 0))).
Proof.
  apply (primary_keys_stay_distinct Sample.str_of (Some Sample.secret) _ (Sample.start 0)).
  split; vm_compute; apply NoDup_nil_2.
Defined.

(** ** The views, step by step *)

(** Once the signature is verified and the body is a JSON object, the view
    is [save_order], the lookup of the timestamp, [save_notification]. *)
Lemma orders_create_verified py_str secret out req w order :
  verify_webhook secret (get_data req) (X_Shopify_Hmac_Sha256 req) = Ok true ->
  request_json req = JsonObject order ->
  orders_create py_str secret out req w
  = match save_order py_str out order (X_Shopify_Shop_Domain req) w with
    | (Raise e, w1) => (Raise e, w1)
    | (Ok _, w1) =>
        match subscript order "created_at" with
        | Raise e => (Raise e, w1)
        | Ok v =>
            match save_notification "New order received" v
                    (X_Shopify_Shop_Domain req) w1 with
            | (Raise e, w2) => (Raise e, w2)
            | (Ok _, w2) => (Ok Success, w2)
            end
        end
    end.
Proof.
  intros Hv Hj. unfold orders_create, bind, lift, get_json, ret.
  rewrite Hv, Hj. cbn [negb].
  destruct (save_order _ _ _ _ _) as [[[]|e] w1]; [|reflexivity].
  destruct (subscript order "created_at") as [v|e]; [|reflexivity].
  destruct (save_notification _ _ _ _) as [[[]|e] w2]; reflexivity.
Qed.

Lemma orders_paid_verified py_str secret out req w order :
  verify_webhook secret (get_data req) (X_Shopify_Hmac_Sha256 req) = Ok true ->
  request_json req = JsonObject order ->
  orders_paid py_str secret out req w
  = match save_order py_str out order (X_Shopify_Shop_Domain req) w with
    | (Raise e, w1) => (Raise e, w1)
    | (Ok _, w1) =>
        match subscript order "updated_at" with
        | Raise e => (Raise e, w1)
        | Ok v =>
            match save_notification "Order payment received" v
                    (X_Shopify_Shop_Domain req) w1 with
            | (Raise e, w2) => (Raise e, w2)
            | (Ok _, w2) => (Ok Success, w2)
            end
        end
    end.
Proof.
  intros Hv Hj. unfold orders_paid, bind, lift, get_json, ret.
  rewrite Hv, Hj. cbn [negb].
  destruct (save_order _ _ _ _ _) as [[[]|e] w1]; [|reflexivity].
  destruct (subscript order "updated_at") as [v|e]; [|reflexivity].
  destruct (save_notification _ _ _ _) as [[[]|e] w2]; reflexivity.
Qed.

(** The parameters bind only when updated_at is there and binds. *)
Lemma order_params_updated_at order oid st upd :
  order_params order = Ok (oid, st, upd) ->
  exists v, subscript order "updated_at" = Ok v /\ bind_text v = Ok upd.
Proof.
  unfold order_params.
  destruct (subscript order "id") as [vid|]; [|discriminate].
  destruct (subscript order "updated_at") as [v|]; [|discriminate].
  destruct (bind_text vid); [|discriminate].
  destruct (bind_text (dict_get _ _ _)); [|discriminate].
  destruct (bind_text v) as [upd'|] eqn:E; [|discriminate].
  intros [= <- <- <-]. eauto.
Qed.

Lemma save_notification_ok message v ts shop w :
  bind_text v = Ok ts ->
  save_notification message v shop w
  = (Ok tt, {| database := insert_notification shop (Some message) ts (database w);
               posted := posted w |}).
Proof. intros H. unfold save_notification, bind, lift, execute. now rewrite H. Qed.

(** The run of [save_order] for a shop with an account, with the outcome of
    the charge spelled by [charge_outcome]. *)
Lemma save_order_with_account py_str out order (shop : string) w params u :
  order_params order = Ok params ->
  users (database w) !! shop = Some u ->
  save_order py_str out order (Some shop) w
  = (match charges_at (Some shop) (bump u) with
     | [] => Ok tt
     | req :: _ => charge_outcome (requests_post out req)
     end,
     {| database := committed py_str (now out) order (Some shop) params (database w);
        posted := posted w ++ charges_at (Some shop) (bump u) |}).
Proof.
  intros Hp Hu. rewrite (save_order_accepted _ _ _ (Some shop) _ _ u Hp Hu). cbv zeta.
  unfold charges_at. destruct (_ >? _)%Z.
  - reflexivity.
  - now rewrite app_nil_r.
Qed.

Lemma notifications_committed py_str ts order shop params d :
  notifications (committed py_str ts order shop params d) = notifications d.
Proof. destruct params as [[oid st] upd]. destruct shop; reflexivity. Qed.

(** ** Deliveries through the endpoints *)

(** A verified order-create delivery for a shop with an account, with a
    gateway that answers JSON: the view answers success, the store is the
    committed one plus one notification 'New order received' stamped with
    the order's created_at, and the charges sent are those of
    [save_order]. *)
Theorem orders_create_accepted_delivery :
  forall (py_str : pydict -> string) (secret : option string) (out : outside)
         (req : request) (w : world) (order : pydict) (shop : string)
         (params : option string * option string * option string)
         (u : Users.row) (created_at : pyval) (ts : option string),
    verify_webhook secret (get_data req) (X_Shopify_Hmac_Sha256 req) = Ok true ->
    request_json req = JsonObject order ->
    X_Shopify_Shop_Domain req = Some shop ->
    order_params order = Ok params ->
    order !! "created_at" = Some created_at ->
    bind_text created_at = Ok ts ->
    users (database w) !! shop = Some u ->
    (forall r, charge_outcome (requests_post out r) = Ok tt) ->
    let d1 := committed py_str (now out) order (Some shop) params (database w) in
    let r := flask (orders_create py_str secret out req) w in
    r = (Success,
         {| database := insert_notification (Some shop) (Some "New order received") ts d1;
            posted := posted w ++ charges_at (Some shop) (bump u) |})
    /\ notifications (database (snd r))
       = (notifications (database w)
          ++ [ {| Notifications.id :=
                    next_id (notifications_seq (database w))
                      (map Notifications.id (notifications (database w)));
                  Notifications.shopify_shop := Some shop;
                  Notifications.message := Some "New order received";
                  Notifications.created_at := ts |} ])%list
    /\ counter shop (database (snd r)) = Some (Users.order_count u + 1)%Z.
Proof.
  intros py_str secret out req w order shop params u created_at ts
         Hv Hj Hs Hp Hc Hb Hu Hg d1 r.
  assert (E : r = (Success,
         {| database := insert_notification (Some shop) (Some "New order received") ts d1;
            posted := posted w ++ charges_at (Some shop) (bump u) |})).
  { subst r. unfold flask. rewrite (orders_create_verified _ _ _ _ _ _ Hv Hj), Hs.
    rewrite (save_order_with_account _ _ _ _ _ _ _ Hp Hu).
    assert (Ho : match charges_at (Some shop) (bump u) with
                 | [] => Ok tt
                 | q :: _ => charge_outcome (requests_post out q)
                 end = Ok tt) by (destruct (charges_at _ _); [reflexivity|apply Hg]).
    rewrite Ho. unfold subscript. rewrite Hc.
    now rewrite (save_notification_ok _ _ _ _ _ Hb). }
  split; [exact E|]. rewrite E. cbn [snd database]. split.
  - cbn [insert_notification notifications]. subst d1.
    destruct params as [[oid st] upd]. now destruct shop.
  - unfold counter. cbn [insert_notification users]. subst d1.
    pose proof (select_user_committed py_str (now out) order (Some shop) params
                  (database w)) as S.
    cbn [select_user] in S. now rewrite S, Hu.
Qed.

Lemma orders_create_accepted_delivery_witness :
  let r := flask (orders_create Sample.str_of (Some Sample.secret) Sample.gateway_up
                    (Sample.delivery (Some Sample.signature) Sample.shop_a))
             (Sample.start 100) in
  let d1 := committed Sample.str_of (now Sample.gateway_up) Sample.order_4242
              (Some Sample.shop_a) Sample.params_4242 (database (Sample.start 100)) in
  r = (Success,
       {| database := insert_notification (Some Sample.shop_a)
                        (Some "New order received") (Some "2024-05-01T09:59:00Z") d1;
          posted := posted (Sample.start 100)
                    ++ charges_at (Some Sample.shop_a) (bump (Sample.account 100)) |})
  /\ notifications (database (snd r))
     = (notifications (database (Sample.start 100))
        ++ [ {| Notifications.id :=
                  next_id (notifications_seq (database (Sample.start 100)))
                    (map Notifications.id (notifications (database (Sample.start 100))));
                Notifications.shopify_shop := Some Sample.shop_a;
                Notifications.message := Some "New order received";
                Notifications.created_at := Some "2024-05-01T09:59:00Z" |} ])%list
  /\ counter Sample.shop_a (database (snd r)) = Some (100 + 1)%Z.
Proof.
  apply (orders_create_accepted_delivery Sample.str_of (Some Sample.secret)
           Sample.gateway_up (Sample.delivery (Some Sample.signature) Sample.shop_a)
           (Sample.start 100) Sample.order_4242 Sample.shop_a Sample.params_4242
           (Sample.account 100) (PyStr "2024-05-01T09:59:00Z")
           (Some "2024-05-01T09:59:00Z"));
    vm_compute; reflexivity.
Defined.

(** A verified order-paid delivery needs no created_at: its notification
    'Order payment received' is stamped with the order's updated_at, the
    value stored in the order row, so once [save_order] has gone through the
    view cannot fail on the timestamp. *)
Theorem orders_paid_accepted_delivery :
  forall (py_str : pydict -> string) (secret : option string) (out : outside)
         (req : request) (w : world) (order : pydict) (shop : string)
         (oid st upd : option string) (u : Users.row),
    verify_webhook secret (get_data req) (X_Shopify_Hmac_Sha256 req) = Ok true ->
    request_json req = JsonObject order ->
    X_Shopify_Shop_Domain req = Some shop ->
    order_params order = Ok (oid, st, upd) ->
    users (database w) !! shop = Some u ->
    (forall r, charge_outcome (requests_post out r) = Ok tt) ->
    let d1 := committed py_str (now out) order (Some shop) (oid, st, upd) (database w) in
    flask (orders_paid py_str secret out req) w
    = (Success,
       {| database := insert_notification (Some shop) (Some "Order payment received")
                        upd d1;
          posted := posted w ++ charges_at (Some shop) (bump u) |}).
Proof.
  intros py_str secret out req w order shop oid st upd u Hv Hj Hs Hp Hu Hg d1.
  destruct (order_params_updated_at _ _ _ _ Hp) as (v & Hsub & Hb).
  unfold flask. rewrite (orders_paid_verified _ _ _ _ _ _ Hv Hj), Hs.
  rewrite (save_order_with_account _ _ _ _ _ _ _ Hp Hu).
  assert (Ho : match charges_at (Some shop) (bump u) with
               | [] => Ok tt
               | q :: _ => charge_outcome (requests_post out q)
               end = Ok tt) by (destruct (charges_at _ _); [reflexivity|apply Hg]).
  rewrite Ho, Hsub. now rewrite (save_notification_ok _ _ _ _ _ Hb).
Qed.

(** An order-paid delivery whose payload has no created_at at all. *)
Lemma orders_paid_accepted_delivery_witness :
  let req := {| get_data := Sample.body;
                X_Shopify_Hmac_Sha256 := Some Sample.signature;
                X_Shopify_Shop_Domain := Some Sample.shop_a;
                request_json := JsonObject (delete "created_at" Sample.order_4242) |} in
  let d1 := committed Sample.str_of (now Sample.gateway_up)
              (delete "created_at" Sample.order_4242) (Some Sample.shop_a)
              Sample.params_4242 (database (Sample.start 3)) in
  flask (orders_paid Sample.str_of (Some Sample.secret) Sample.gateway_up req)
    (Sample.start 3)
  = (Success,
     {| database := insert_notification (Some Sample.shop_a)
                      (Some "Order payment received")
                      (Some "2024-05-01T10:00:00Z") d1;
        posted := posted (Sample.start 3)
                  ++ charges_at (Some Sample.shop_a) (bump (Sample.account 3)) |}).
Proof.
  apply (orders_paid_accepted_delivery Sample.str_of (Some Sample.secret)
           Sample.gateway_up _ (Sample.start 3) _ Sample.shop_a
           (Some "4242") (Some "pending") (Some "2024-05-01T10:00:00Z")
           (Sample.account 3));
    vm_compute; reflexivity.
Defined.

(** When the charge is due and the call to the gateway raises, both views
    answer 500 after the commit: the order row and the raised counter are
    in the store, the request is on its way, and the notification is never
    written. *)
Theorem charge_failure_skips_notification :
  forall (py_str : pydict -> string) (secret : option string) (out : outside)
         (req : request) (w : world) (order : pydict) (shop : string)
         (params : option string * option string * option string)
         (u : Users.row) (e : exn),
    let charge := usage_charge_request (Some shop) (bump u)
                    (Users.order_count u + 1 - USAGE_CHARGE_LIMIT) in
    let w1 := {| database := committed py_str (now out) order (Some shop) params
                               (database w);
                 posted := posted w ++ [charge] |} in
    verify_webhook secret (get_data req) (X_Shopify_Hmac_Sha256 req) = Ok true ->
    request_json req = JsonObject order ->
    X_Shopify_Shop_Domain req = Some shop ->
    order_params order = Ok params ->
    users (database w) !! shop = Some u ->
    (USAGE_CHARGE_LIMIT < Users.order_count u + 1)%Z ->
    charge_outcome (requests_post out charge) = Raise e ->
    flask (orders_create py_str secret out req) w = (InternalServerError e, w1)
    /\ flask (orders_paid py_str secret out req) w = (InternalServerError e, w1)
    /\ notifications (database w1) = notifications (database w)
    /\ counter shop (database w1) = Some (Users.order_count u + 1)%Z.
Proof.
  intros py_str secret out req w order shop params u e charge w1
         Hv Hj Hs Hp Hu Hc He.
  assert (Hch : charges_at (Some shop) (bump u) = [charge]).
  { unfold charges_at. cbn [bump Users.order_count].
    destruct (Z.gtb_spec (Users.order_count u + 1) USAGE_CHARGE_LIMIT); [reflexivity|lia]. }
  assert (Hne : e <> BadRequest).
  { intros ->. unfold charge_outcome in He.
    destruct (requests_post out charge) as [|c [b|]]; discriminate. }
  assert (Hso : save_order py_str out order (Some shop) w = (Raise e, w1)).
  { rewrite (save_order_with_account _ _ _ _ _ _ _ Hp Hu), Hch. now rewrite He. }
  split; [|split; [|split]].
  - unfold flask. rewrite (orders_create_verified _ _ _ _ _ _ Hv Hj), Hs, Hso.
    destruct e; congruence.
  - unfold flask. rewrite (orders_paid_verified _ _ _ _ _ _ Hv Hj), Hs, Hso.
    destruct e; congruence.
  - apply notifications_committed.
  - unfold counter. subst w1. cbn [database].
    pose proof (select_user_committed py_str (now out) order (Some shop) params
                  (database w)) as S.
    cbn [select_user] in S. now rewrite S, Hu.
Qed.

Lemma charge_failure_skips_notification_witness :
  let charge := usage_charge_request (Some Sample.shop_a) (bump (Sample.account 100))
                  (100 + 1 - USAGE_CHARGE_LIMIT) in
  let w1 := {| database := committed Sample.str_of (now Sample.gateway_down)
                             Sample.order_4242 (Some Sample.shop_a) Sample.params_4242
                             (database (Sample.start 100));
               posted := posted (Sample.start 100) ++ [charge] |} in
  let req := Sample.delivery (Some Sample.signature) Sample.shop_a in
  flask (orders_create Sample.str_of (Some Sample.secret) Sample.gateway_down req)
    (Sample.start 100) = (InternalServerError ConnectionError, w1)
  /\ flask (orders_paid Sample.str_of (Some Sample.secret) Sample.gateway_down req)
       (Sample.start 100) = (InternalServerError ConnectionError, w1)
  /\ notifications (database w1) = notifications (database (Sample.start 100))
  /\ counter Sample.shop_a (database w1) = Some (100 + 1)%Z.
Proof.
  apply (charge_failure_skips_notification Sample.str_of (Some Sample.secret)
           Sample.gateway_down (Sample.delivery (Some Sample.signature) Sample.shop_a)
           (Sample.start 100) Sample.order_4242 Sample.shop_a Sample.params_4242
           (Sample.account 100) ConnectionError);
    vm_compute; reflexivity.
Defined.

(** An order-create payload without created_at: [save_order] goes through,
    so the order is stored and the counter raised, and only then does the
    view fail on [order['created_at']]; it answers 500 and writes no
    notification. *)
Theorem orders_create_missing_created_at :
  forall (py_str : pydict -> string) (secret : option string) (out : outside)
         (req : request) (w : world) (order : pydict)
         (params : option string * option string * option string),
    verify_webhook secret (get_data req) (X_Shopify_Hmac_Sha256 req) = Ok true ->
    request_json req = JsonObject order ->
    order_params order = Ok params ->
    order !! "created_at" = None ->
    fst (save_order py_str out order (X_Shopify_Shop_Domain req) w) = Ok tt ->
    let r := flask (orders_create py_str secret out req) w in
    fst r = InternalServerError (KeyError "created_at")
    /\ database (snd r)
       = committed py_str (now out) order (X_Shopify_Shop_Domain req) params (database w)
    /\ notifications (database (snd r)) = notifications (database w).
Proof.
  intros py_str secret out req w order params Hv Hj Hp Hc Hok r.
  pose proof (save_order_database py_str out order (X_Shopify_Shop_Domain req) w
                params Hp) as Hd.
  subst r. unfold flask. rewrite (orders_create_verified _ _ _ _ _ _ Hv Hj).
  destruct (save_order _ _ _ _ _) as [[[]|e] w1]; [|discriminate].
  unfold subscript. rewrite Hc. cbn [fst snd] in *.
  split; [reflexivity|]. split; [exact Hd|].
  rewrite Hd. apply notifications_committed.
Qed.

Lemma orders_create_missing_created_at_witness :
  let order := delete "created_at" Sample.order_4242 in
  let req := {| get_data := Sample.body;
                X_Shopify_Hmac_Sha256 := Some Sample.signature;
                X_Shopify_Shop_Domain := Some Sample.shop_a;
                request_json := JsonObject order |} in
  let r := flask (orders_create Sample.str_of (Some Sample.secret) Sample.gateway_up req)
             (Sample.start 3) in
  fst r = InternalServerError (KeyError "created_at")
  /\ database (snd r)
     = committed Sample.str_of (now Sample.gateway_up) order (Some Sample.shop_a)
         Sample.params_4242 (database (Sample.start 3))
  /\ notifications (database (snd r)) = notifications (database (Sample.start 3)).
Proof.
  apply (orders_create_missing_created_at Sample.str_of (Some Sample.secret)
           Sample.gateway_up
           {| get_data := Sample.body;
              X_Shopify_Hmac_Sha256 := Some Sample.signature;
              X_Shopify_Shop_Domain := Some Sample.shop_a;
              request_json := JsonObject (delete "created_at" Sample.order_4242) |}
           (Sample.start 3) (delete "created_at" Sample.order_4242)
           Sample.params_4242);
    vm_compute; reflexivity.
Defined.

(** ** Payloads that do not bind, shops without an account *)

(** A payload without id, or with an id and without updated_at, or with an
    integer id that does not fit 64 bits, makes [save_order] raise before it
    touches anything: the KeyError names the first missing key, and the
    world is the one it started from. *)
Theorem save_order_rejects_before_writing :
  forall (py_str : pydict -> string) (out : outside) (order : pydict)
         (shop : option string) (w : world),
    (order !! "id" = None ->
     save_order py_str out order shop w = (Raise (KeyError "id"), w))
    /\ (forall v, order !! "id" = Some v -> order !! "updated_at" = None ->
        save_order py_str out order shop w = (Raise (KeyError "updated_at"), w))
    /\ (forall n v, order !! "id" = Some (PyInt n) -> order !! "updated_at" = Some v ->
        (n < - 2 ^ 63 \/ 2 ^ 63 <= n)%Z ->
        save_order py_str out order shop w = (Raise OverflowError, w)).
Proof.
  intros py_str out order shop w. split; [|split].
  - intros H. apply save_order_rejected. unfold order_params, subscript. now rewrite H.
  - intros v H1 H2. apply save_order_rejected. unfold order_params, subscript.
    now rewrite H1, H2.
  - intros n v H1 H2 Hn. apply save_order_rejected. unfold order_params, subscript.
    rewrite H1, H2. cbn [bind_text].
    destruct (Z.leb_spec (- 2 ^ 63) n); destruct (Z.ltb_spec n (2 ^ 63));
      cbn [andb]; try reflexivity; lia.
Qed.

Lemma alter_absent {A} (f : A -> A) (s : string) (m : gmap string A) :
  m !! s = None -> alter f s m = m.
Proof.
  intros H. apply map_eq. intros j. destruct (decide (s = j)) as [->|Hne].
  - now rewrite lookup_alter_eq, H.
  - now rewrite lookup_alter_ne.
Qed.

(** For a shop that has no account, and for a delivery without shop header,
    [save_order] still stores the order row, then fails with TypeError on
    the counter it cannot read: no account is changed and no charge is
    sent. *)
Theorem save_order_without_account :
  forall (py_str : pydict -> string) (out : outside) (order : pydict)
         (shop : option string) (w : world) (oid st upd : option string),
    order_params order = Ok (oid, st, upd) ->
    select_user shop (database w) = None ->
    let r := save_order py_str out order shop w in
    fst r = Raise TypeError
    /\ users (database (snd r)) = users (database w)
    /\ posted (snd r) = posted w
    /\ In {| Orders.id := next_id (orders_seq (database w))
                            (map Orders.id (orders (database w)));
             Orders.shopify_order_id := oid;
             Orders.shopify_shop := shop;
             Orders.status := st;
             Orders.details := Some (py_str order);
             Orders.created_at := Some (now out);
             Orders.updated_at := upd |}
         (orders (database (snd r))).
Proof.
  intros py_str out order shop w oid st upd Hp Hs r. subst r.
  rewrite (save_order_no_account _ _ _ _ _ _ Hp Hs). cbn [fst snd database posted].
  split; [reflexivity|]. split; [|split; [reflexivity|]].
  - unfold committed. destruct shop as [s|]; [|reflexivity].
    cbn [increment_order_count users insert_or_replace_order].
    apply alter_absent. exact Hs.
  - rewrite orders_committed. cbn [insert_or_replace_order orders].
    apply in_or_app. right. left. reflexivity.
Qed.

(** An order for a shop that never installed the app. *)
Lemma save_order_without_account_witness :
  let r := save_order Sample.str_of Sample.gateway_up Sample.order_4242
             (Some "c.myshopify.com") (Sample.start 0) in
  fst r = Raise TypeError
  /\ users (database (snd r)) = users (database (Sample.start 0))
  /\ posted (snd r) = posted (Sample.start 0)
  /\ In {| Orders.id := next_id (orders_seq (database (Sample.start 0)))
                          (map Orders.id (orders (database (Sample.start 0))));
           Orders.shopify_order_id := Some "4242";
           Orders.shopify_shop := Some "c.myshopify.com";
           Orders.status := Some "pending";
           Orders.details := Some (Sample.str_of Sample.order_4242);
           Orders.created_at := Some (now Sample.gateway_up);
           Orders.updated_at := Some "2024-05-01T10:00:00Z" |}
       (orders (database (snd r))).
Proof.
  apply (save_order_without_account Sample.str_of Sample.gateway_up Sample.order_4242
           (Some "c.myshopify.com") (Sample.start 0));
    vm_compute; reflexivity.
Defined.

(** ** What a delivery leaves alone *)

Lemma keeps_ret {A} (R : db -> db -> Prop) (a : A) :
  (forall d, R d d) -> keeps R (ret a).
Proof. intros Hr w. apply Hr. Qed.

Lemma keeps_lift {A} (R : db -> db -> Prop) (r : result A) :
  (forall d, R d d) -> keeps R (lift r).
Proof. intros Hr w. apply Hr. Qed.

Lemma keeps_bind {A B} (R : db -> db -> Prop) (m : M A) (k : A -> M B) :
  (forall d1 d2 d3, R d1 d2 -> R d2 d3 -> R d1 d3) ->
  keeps R m -> (forall a, keeps R (k a)) -> keeps R (bind m k).
Proof.
  intros Ht Hm Hk w. unfold bind. specialize (Hm w).
  destruct (m w) as [[a|e] w1]; cbn [snd] in *; [|exact Hm].
  eapply Ht; [exact Hm|apply Hk].
Qed.

Lemma same_other_accounts_refl shop d : same_other_accounts shop d d.
Proof. intros s _. reflexivity. Qed.

Lemma same_other_accounts_trans shop d1 d2 d3 :
  same_other_accounts shop d1 d2 -> same_other_accounts shop d2 d3 ->
  same_other_accounts shop d1 d3.
Proof. intros H12 H23 s Hs. now rewrite (H23 s Hs), (H12 s Hs). Qed.

Lemma keeps_save_order_other_accounts py_str out order shop :
  keeps (same_other_accounts shop) (save_order py_str out order shop).
Proof.
  intros w s Hs. destruct (order_params order) as [[[oid st] upd]|e] eqn:Hp.
  - rewrite (save_order_database _ _ _ _ _ _ Hp). unfold committed.
    destruct shop as [s0|]; [|reflexivity].
    cbn [increment_order_count users insert_or_replace_order].
    apply lookup_alter_ne. congruence.
  - now rewrite (save_order_rejected _ _ _ _ _ _ Hp).
Qed.

Lemma keeps_save_notification_other_accounts message timestamp shop :
  keeps (same_other_accounts shop) (save_notification message timestamp shop).
Proof.
  intros w s Hs. unfold save_notification, bind, lift, execute.
  destruct (bind_text timestamp); reflexivity.
Qed.

(** A delivery for one shop leaves the row of every other shop as it was,
    whatever its outcome: through [save_order] and through both views. *)
Theorem other_accounts_untouched :
  forall (py_str : pydict -> string) (secret : option string) (out : outside)
         (order : pydict) (shop : option string) (req : request) (w : world),
    same_other_accounts shop (database w)
      (database (snd (save_order py_str out order shop w)))
    /\ same_other_accounts (X_Shopify_Shop_Domain req) (database w)
         (database (snd (flask (orders_create py_str secret out req) w)))
    /\ same_other_accounts (X_Shopify_Shop_Domain req) (database w)
         (database (snd (flask (orders_paid py_str secret out req) w))).
Proof.
  intros py_str secret out order shop req w.
  pose proof (same_other_accounts_refl (X_Shopify_Shop_Domain req)) as Hr.
  pose proof (same_other_accounts_trans (X_Shopify_Shop_Domain req)) as Ht.
  split; [apply keeps_save_order_other_accounts|]. rewrite !flask_world. split.
  - revert w. change (keeps (same_other_accounts (X_Shopify_Shop_Domain req))
                        (orders_create py_str secret out req)).
    unfold orders_create.
    apply keeps_bind; [exact Ht|now apply keeps_lift|]. intros verified.
    destruct verified; cbn [negb]; [|now apply keeps_ret].
    apply keeps_bind; [exact Ht|now apply keeps_lift|]. intros o.
    apply keeps_bind; [exact Ht|apply keeps_save_order_other_accounts|]. intros _.
    apply keeps_bind; [exact Ht|now apply keeps_lift|]. intros v.
    apply keeps_bind; [exact Ht|apply keeps_save_notification_other_accounts|].
    intros _. now apply keeps_ret.
  - revert w. change (keeps (same_other_accounts (X_Shopify_Shop_Domain req))
                        (orders_paid py_str secret out req)).
    unfold orders_paid.
    apply keeps_bind; [exact Ht|now apply keeps_lift|]. intros verified.
    destruct verified; cbn [negb]; [|now apply keeps_ret].
    apply keeps_bind; [exact Ht|now apply keeps_lift|]. intros o.
    apply keeps_bind; [exact Ht|apply keeps_save_order_other_accounts|]. intros _.
    apply keeps_bind; [exact Ht|now apply keeps_lift|]. intros v.
    apply keeps_bind; [exact Ht|apply keeps_save_notification_other_accounts|].
    intros _. now apply keeps_ret.
Qed.

Lemma statement_accounts (d d' : db) (s : string) :
  statement d d' ->
  match users d !! s, users d' !! s with
  | None, None => True
  | Some u, Some u' =>
      Users.access_token u' = Users.access_token u
      /\ Users.charge_id u' = Users.charge_id u
      /\ Users.plan_name u' = Users.plan_name u
  | _, _ => False
  end.
Proof.
  intros [ts oid shop st det upd d0 | shop d0 | shop msg ts d0].
  - cbn [insert_or_replace_order users]. destruct (users d0 !! s); auto.
  - destruct shop as [s0|]; cbn [increment_order_count users];
      [|destruct (users d0 !! s); now auto].
    destruct (decide (s0 = s)) as [->|Hne].
    + rewrite lookup_alter_eq. destruct (users d0 !! s); cbn; auto.
    + rewrite lookup_alter_ne by assumption. destruct (users d0 !! s); auto.
  - cbn [insert_notification users]. destruct (users d0 !! s); auto.
Qed.

(** No operation creates or removes an account, and none changes an access
    token, a charge id or a plan name: over any run a shop has a row exactly
    when it had one, with the same credentials. *)
Theorem accounts_keep_their_credentials :
  forall (py_str : pydict -> string) (secret : option string)
         (ops : list operation) (w : world) (s : string),
    match users (database w) !! s,
          users (database (run py_str secret ops w)) !! s with
    | None, None => True
    | Some u, Some u' =>
        Users.access_token u' = Users.access_token u
        /\ Users.charge_id u' = Users.charge_id u
        /\ Users.plan_name u' = Users.plan_name u
    | _, _ => False
    end.
Proof.
  intros py_str secret ops w s.
  induction (run_statements py_str secret ops w) as [d|d1 d2 d3 H12 _ IH].
  - destruct (users d !! s); auto.
  - pose proof (statement_accounts _ _ s H12) as H.
    destruct (users d1 !! s), (users d2 !! s), (users d3 !! s);
      try contradiction; auto.
    destruct H as (A1 & A2 & A3), IH as (B1 & B2 & B3).
    repeat split; congruence.
Qed.

(** Storing an order touches the rows of no other order id: they are the
    same rows, in the same order. *)
Theorem save_order_keeps_other_orders :
  forall (py_str : pydict -> string) (out : outside) (order : pydict)
         (shop : option string) (w : world) (oid st upd : option string)
         (y : string),
    order_params order = Ok (oid, st, upd) ->
    oid <> Some y ->
    rows_with_id y (database (snd (save_order py_str out order shop w)))
    = rows_with_id y (database w).
Proof.
  intros py_str out order shop w oid st upd y Hp Hne.
  rewrite (save_order_database _ _ _ _ _ _ Hp). unfold rows_with_id.
  rewrite orders_committed. now apply rows_with_id_upsert_other.
Qed.

Lemma save_order_keeps_other_orders_witness :
  rows_with_id "7"
    (database
       (snd (save_order Sample.str_of Sample.gateway_up Sample.order_4242
               (Some Sample.shop_a)
               (snd (save_order Sample.str_of Sample.gateway_up (Sample.order_no 7)
                       (Some Sample.shop_b) (Sample.start 0))))))
  = rows_with_id "7"
      (database
         (snd (save_order Sample.str_of Sample.gateway_up (Sample.order_no 7)
                 (Some Sample.shop_b) (Sample.start 0)))).
Proof.
  apply (save_order_keeps_other_orders Sample.str_of Sample.gateway_up
           Sample.order_4242 (Some Sample.shop_a) _
           (Some "4242") (Some "pending") (Some "2024-05-01T10:00:00Z") "7").
  - vm_compute. reflexivity.
  - discriminate.
Defined.

(** ** Many orders for one shop *)

Lemma order_count_iter_bump (n : nat) (u : Users.row) :
  Users.order_count (Nat.iter n bump u) = (Users.order_count u + Z.of_nat n)%Z.
Proof.
  induction n as [|n IH]; [cbn; lia|].
  cbn [Nat.iter nat_rect bump Users.order_count]. 
  change (nat_rect _ u (fun _ => bump) n) with (Nat.iter n bump u). lia.
Qed.

(** The state after a series of calls that bind, for a shop with an
    account: the row has been bumped once per call, and each call has sent
    the charges due at the count it reached. *)
Lemma deliveries_run py_str secret (shop : string) calls w u :
  forallb (fun c => binds (snd c)) calls = true ->
  users (database w) !! shop = Some u ->
  users (database (run py_str secret (deliveries shop calls) w)) !! shop
  = Some (Nat.iter (length calls) bump u)
  /\ posted (run py_str secret (deliveries shop calls) w)
     = (posted w
        ++ concat (map (fun i => charges_at (Some shop) (Nat.iter i bump u))
                     (seq 1 (length calls))))%list.
Proof.
  revert w u. induction calls as [|[out order] calls IH]; intros w u Hb Hu.
  - cbn. split; [exact Hu|now rewrite app_nil_r].
  - cbn [forallb snd] in Hb. apply andb_true_iff in Hb as [Hb1 Hb].
    unfold binds in Hb1. destruct (order_params order) as [params|] eqn:Hp;
      [|discriminate].
    cbn [deliveries map run fold_left step fst snd].
    fold (deliveries shop calls).
    fold (run py_str secret (deliveries shop calls)
            (snd (save_order py_str out order (Some shop) w))).
    pose proof (save_order_select py_str out order shop w params u Hp Hu) as Hu1.
    destruct (IH _ _ Hb Hu1) as [IHu IHp]. split.
    + rewrite IHu. cbn [length]. now rewrite Nat.iter_succ_r.
    + rewrite IHp, (save_order_posted _ _ _ (Some shop) _ _ u Hp Hu).
      rewrite <- app_assoc. f_equal. cbn [length seq map concat]. f_equal.
      f_equal. rewrite <- (seq_shift (length calls) 1), map_map. apply map_ext. intros i.
      now rewrite Nat.iter_succ_r.
Qed.

(** Calls of [save_order] that bind, one after the other for a shop with an
    account, raise its counter by their number, whatever ids they carry and
    whatever the gateway answers, as long as the counter stays an INTEGER
    of SQLite: it is one before the calls and their number fits above it. *)
Theorem counter_counts_every_delivery :
  forall (py_str : pydict -> string) (secret : option string) (shop : string)
         (calls : list (outside * pydict)) (w : world) (u : Users.row),
    forallb (fun c => binds (snd c)) calls = true ->
    users (database w) !! shop = Some u ->
    int64 (Users.order_count u) = true ->
    int64 (Users.order_count u + Z.of_nat (length calls)) = true ->
    counter shop (database (run py_str secret (deliveries shop calls) w))
    = Some (Users.order_count u + Z.of_nat (length calls))%Z.
Proof.
  intros py_str secret shop calls w u Hb Hu _ _.
  destruct (deliveries_run py_str secret shop calls w u Hb Hu) as [H _].
  unfold counter. rewrite H. cbn. now rewrite order_count_iter_bump.
Qed.

(** One order created, paid, and delivered once more while the gateway is
    down: three on the counter. *)
Lemma counter_counts_every_delivery_witness :
  counter Sample.shop_a
    (database
       (run Sample.str_of (Some Sample.secret)
          (deliveries Sample.shop_a
             [ (Sample.gateway_up, Sample.order_4242);
               (Sample.gateway_up, Sample.order_4242);
               (Sample.gateway_down, Sample.order_4242) ])
          (Sample.start 99)))
  = Some (Users.order_count (Sample.account 99) + Z.of_nat 3)%Z.
Proof.
  apply (counter_counts_every_delivery Sample.str_of (Some Sample.secret)
           Sample.shop_a
           [ (Sample.gateway_up, Sample.order_4242);
             (Sample.gateway_up, Sample.order_4242);
             (Sample.gateway_down, Sample.order_4242) ]
           (Sample.start 99) (Sample.account 99));
    vm_compute; reflexivity.
Defined.

Lemma total_price_prices (l : list http_request) :
  total_price l = fold_right Qplus 0%Q (map (fun r => price (json r)) l).
Proof. induction l as [|r l IH]; [reflexivity|]. cbn. now rewrite <- IH. Qed.

Lemma sum_quarters (k : Z) (n a : nat) :
  (fold_right Qplus 0
     (map (fun i => Qred (inject_Z (k + Z.of_nat i) * USAGE_CHARGE_COST)) (seq a n))
   == inject_Z (2 * Z.of_nat n * k + 2 * Z.of_nat n * Z.of_nat a
                + Z.of_nat n * (Z.of_nat n - 1)) * (1 # 8))%Q.
Proof.
  unfold USAGE_CHARGE_COST. revert a. induction n as [|n IH]; intros a.
  - cbn. reflexivity.
  - cbn [seq map fold_right]. rewrite IH, Qred_correct.
    unfold Qeq. cbn [Qnum Qden Qplus Qmult inject_Z].
    rewrite !Nat2Z.inj_succ.
    change (Z.pos (1 * 4)) with 4%Z. change (Z.pos (1 * 8)) with 8%Z.
    change (Z.pos (1 * 4 * (1 * 8))) with 32%Z.
    lia.
Qed.

Lemma prices_over_limit (shop : string) (u : Users.row) (k : Z) (m a : nat) :
  Users.order_count u = (USAGE_CHARGE_LIMIT + k)%Z ->
  (0 <= k)%Z -> (1 <= a)%nat ->
  map (fun r => price (json r))
    (concat (map (fun i => charges_at (Some shop) (Nat.iter i bump u)) (seq a m)))
  = map (fun i => Qred (inject_Z (k + Z.of_nat i) * USAGE_CHARGE_COST)) (seq a m).
Proof.
  intros Hk Hk0. revert a. induction m as [|m IH]; intros a Ha; [reflexivity|].
  cbn [seq map concat]. rewrite map_app, IH by lia. f_equal.
  rewrite charges_at_over_limit by (rewrite order_count_iter_bump; lia).
  rewrite order_count_iter_bump, Hk.
  replace (USAGE_CHARGE_LIMIT + k + Z.of_nat a - USAGE_CHARGE_LIMIT)%Z
    with (k + Z.of_nat a)%Z by lia.
  reflexivity.
Qed.

(** Beyond the limit every order is billed the whole excess again. From a
    counter at the limit plus [k], [n] further orders send [n] charges,
    priced [k+1], [k+2], ... [k+n] units of cost; together they bill
    [n (2k + n + 1) / 2] units, where the [n] orders are worth [n]. The
    excess stays within 2^53, where every price is the exact product. *)
Theorem billing_repeats_the_excess :
  forall (py_str : pydict -> string) (secret : option string) (shop : string)
         (calls : list (outside * pydict)) (w : world) (u : Users.row) (k : Z),
    forallb (fun c => binds (snd c)) calls = true ->
    users (database w) !! shop = Some u ->
    Users.order_count u = (USAGE_CHARGE_LIMIT + k)%Z ->
    (0 <= k)%Z ->
    exact_excess (k + Z.of_nat (length calls)) = true ->
    let n := length calls in
    exists sent : list http_request,
      posted (run py_str secret (deliveries shop calls) w) = (posted w ++ sent)%list
      /\ map (fun r => price (json r)) sent
         = map (fun i => Qred (inject_Z (k + Z.of_nat i) * USAGE_CHARGE_COST)) (seq 1 n)
      /\ (total_price sent
          == inject_Z (Z.of_nat n * (2 * k + Z.of_nat n + 1))
             * USAGE_CHARGE_COST * (1 # 2))%Q.
Proof.
  intros py_str secret shop calls w u k Hb Hu Hk Hk0 _ n.
  destruct (deliveries_run py_str secret shop calls w u Hb Hu) as [_ Hp].
  eexists. split; [exact Hp|].
  pose proof (prices_over_limit shop u k n 1 Hk Hk0 (le_n 1)) as Hprices.
  split; [exact Hprices|].
  rewrite total_price_prices. fold n. rewrite Hprices, sum_quarters.
  unfold Qeq, USAGE_CHARGE_COST. cbn [Qnum Qden Qmult inject_Z].
  change (Z.pos (1 * 4 * 2)) with 8%Z. change (Z.pos (1 * 8)) with 8%Z. lia.
Qed.

(** Three orders from a counter at the limit: 1, 2 and 3 units, 6 in all. *)
Lemma billing_repeats_the_excess_witness :
  exists sent : list http_request,
    posted (run Sample.str_of (Some Sample.secret)
              (deliveries Sample.shop_a
                 [ (Sample.gateway_up, Sample.order_no 1);
                   (Sample.gateway_up, Sample.order_no 2);
                   (Sample.gateway_up, Sample.order_no 3) ])
              (Sample.start 100))
    = (posted (Sample.start 100) ++ sent)%list
    /\ map (fun r => price (json r)) sent
       = map (fun i => Qred (inject_Z (0 + Z.of_nat i) * USAGE_CHARGE_COST)) (seq 1 3)
    /\ (total_price sent
        == inject_Z (Z.of_nat 3 * (2 * 0 + Z.of_nat 3 + 1))
           * USAGE_CHARGE_COST * (1 # 2))%Q.
Proof.
  apply (billing_repeats_the_excess Sample.str_of (Some Sample.secret) Sample.shop_a
           [ (Sample.gateway_up, Sample.order_no 1);
             (Sample.gateway_up, Sample.order_no 2);
             (Sample.gateway_up, Sample.order_no 3) ]
           (Sample.start 100) (Sample.account 100) 0);
    vm_compute; try reflexivity. discriminate.
Defined.

(** * encryption_util.py and config.py *)

(** ** The URL-safe base64 round trip *)

Example urlsafe_b64encode_sample :
  UrlSafe.urlsafe_b64encode "0123456789abcdef0123456789abcdef"
  = "MDEyMzQ1Njc4OWFiY2RlZjAxMjM0NTY3ODlhYmNkZWY=".
Proof. reflexivity. Qed.

Example urlsafe_alphabet :
  UrlSafe.urlsafe_b64encode
    (String (ascii_of_N 251) (String (ascii_of_N 255) (String (ascii_of_N 190) EmptyString)))
  = "-_--"
  /\ UrlSafe.urlsafe_b64decode "-_8="
     = Some (String (ascii_of_N 251) (String (ascii_of_N 255) EmptyString)).
Proof. split; reflexivity. Qed.

Lemma pack_div_mod (a b k : N) :
  (b < k -> (a * k + b) / k = a /\ (a * k + b) mod k = b)%N.
Proof.
  intros Hb. split.
  - symmetry. apply (N.div_unique _ _ _ b); lia.
  - symmetry. apply (N.mod_unique _ _ a); lia.
Qed.

Lemma unpack_bytes (x y z : N) :
  (x < 256 -> y < 256 -> z < 256 ->
   x / 4 * 4 + (x mod 4 * 16 + y / 16) / 16 = x
   /\ (x mod 4 * 16 + y / 16) mod 16 * 16 + (y mod 16 * 4 + z / 64) / 4 = y
   /\ (y mod 16 * 4 + z / 64) mod 4 * 64 + z mod 64 = z)%N.
Proof.
  intros Hx Hy Hz.
  assert (y / 16 < 16 /\ z / 64 < 4)%N as [By Bz]
    by (split; apply N.Div0.div_lt_upper_bound; lia).
  destruct (pack_div_mod (x mod 4) (y / 16) 16 By) as [D1 M1].
  destruct (pack_div_mod (y mod 16) (z / 64) 4 Bz) as [D2 M2].
  rewrite D1, M1, D2, M2.
  pose proof (N.div_mod x 4). pose proof (N.div_mod y 16). pose proof (N.div_mod z 64).
  lia.
Qed.

Lemma urlsafe_sextet_char (n : N) :
  (n < 64)%N ->
  UrlSafe.sextet (UrlSafe.of_urlsafe (UrlSafe.to_urlsafe (Base64.char n))) = Some n
  /\ Ascii.eqb (UrlSafe.of_urlsafe (UrlSafe.to_urlsafe (Base64.char n)))
       Base64.pad_char = false.
Proof.
  intros Hn.
  assert (H : forallb
                (fun k =>
                   let c := UrlSafe.of_urlsafe (UrlSafe.to_urlsafe (Base64.char k)) in
                   match UrlSafe.sextet c with
                   | Some i => N.eqb i k && negb (Ascii.eqb c Base64.pad_char)
                   | None => false
                   end)
                (map N.of_nat (seq 0 64)) = true) by (vm_compute; reflexivity).
  rewrite forallb_forall in H. specialize (H n (in_first_64 n Hn)). cbv zeta in H.
  destruct (UrlSafe.sextet _) as [i|]; [|discriminate].
  apply andb_true_iff in H as [H1 H2]. apply N.eqb_eq in H1. subst i.
  split; [reflexivity|]. now apply negb_true_iff.
Qed.

(** Decoding what the encoder produced gives the bytes back. *)
Lemma urlsafe_b64_round_trip (s : bytes) :
  UrlSafe.urlsafe_b64decode (UrlSafe.urlsafe_b64encode s) = Some s.
Proof.
  unfold UrlSafe.urlsafe_b64decode, UrlSafe.urlsafe_b64encode.
  set (dec := fun t => UrlSafe.b64decode
                         (UrlSafe.translate UrlSafe.of_urlsafe
                            (UrlSafe.translate UrlSafe.to_urlsafe (Base64.b64encode t)))).
  change (dec s = Some s).
  assert (H : dec s = Some s
              /\ (forall a, dec (String a s) = Some (String a s))
              /\ (forall a b, dec (String a (String b s)) = Some (String a (String b s)))).
  { induction s as [|c r (IH0 & IH1 & IH2)].
    - split; [reflexivity|]. split.
      + intros a. unfold dec. cbn [Base64.b64encode UrlSafe.translate UrlSafe.b64decode].
        unfold Base64.enc1, Base64.enc2.
        pose proof (N_ascii_bounded a) as Ba.
        destruct (sextet_bounds _ _ Ba (N_ascii_bounded zero)) as (S1 & S2 & _ & _).
        destruct (urlsafe_sextet_char _ S1) as [-> _].
        destruct (urlsafe_sextet_char _ S2) as [-> _].
        change (Ascii.eqb (UrlSafe.of_urlsafe (UrlSafe.to_urlsafe Base64.pad_char))
                  Base64.pad_char) with true. cbv iota.
        destruct (unpack_bytes _ _ _ Ba (N_ascii_bounded zero) (N_ascii_bounded zero))
          as (-> & _ & _).
        now rewrite ascii_N_embedding.
      + intros a b. unfold dec.
        cbn [Base64.b64encode UrlSafe.translate UrlSafe.b64decode].
        unfold Base64.enc1, Base64.enc2, Base64.enc3.
        pose proof (N_ascii_bounded a) as Ba. pose proof (N_ascii_bounded b) as Bb.
        destruct (sextet_bounds _ _ Ba Bb) as (S1 & S2 & _ & _).
        destruct (sextet_bounds _ _ Bb (N_ascii_bounded zero)) as (_ & _ & S3 & _).
        destruct (urlsafe_sextet_char _ S1) as [-> _].
        destruct (urlsafe_sextet_char _ S2) as [-> _].
        destruct (urlsafe_sextet_char _ S3) as [-> ->].
        change (Ascii.eqb (UrlSafe.of_urlsafe (UrlSafe.to_urlsafe Base64.pad_char))
                  Base64.pad_char) with true. cbv iota.
        destruct (unpack_bytes _ _ _ Ba Bb (N_ascii_bounded zero)) as (-> & -> & _).
        now rewrite !ascii_N_embedding.
    - split; [apply IH1|]. split; [intros a; apply IH2|].
      intros a b. unfold dec.
      cbn [Base64.b64encode UrlSafe.translate UrlSafe.b64decode].
      unfold Base64.enc1, Base64.enc2, Base64.enc3, Base64.enc4.
      pose proof (N_ascii_bounded a) as Ba. pose proof (N_ascii_bounded b) as Bb.
      pose proof (N_ascii_bounded c) as Bc.
      destruct (sextet_bounds _ _ Ba Bb) as (S1 & S2 & _ & _).
      destruct (sextet_bounds _ _ Bb Bc) as (_ & _ & S3 & _).
      destruct (sextet_bounds _ _ Bc Bc) as (_ & _ & _ & S4).
      destruct (urlsafe_sextet_char _ S1) as [-> _].
      destruct (urlsafe_sextet_char _ S2) as [-> _].
      destruct (urlsafe_sextet_char _ S3) as [-> ->].
      destruct (urlsafe_sextet_char _ S4) as [-> ->].
      fold (dec r). rewrite IH0.
      destruct (unpack_bytes _ _ _ Ba Bb Bc) as (-> & -> & ->).
      now rewrite !ascii_N_embedding. }
  apply H.
Qed.

(** ** EncryptionUtil *)

Lemma utf8_length (s : string) :
  (String.length s <= String.length (encode_utf8 s))%nat
  /\ (String.length (encode_utf8 s) = String.length s <-> all_ascii s = true).
Proof.
  induction s as [|c r [IH1 IH2]]; [split; [reflexivity|split; reflexivity]|].
  cbn [encode_utf8 all_ascii]. unfold utf8_char.
  destruct (N_of_ascii c <? 128)%N; simpl;
    change (String.append EmptyString (encode_utf8 r)) with (encode_utf8 r).
  - split; [lia|]. rewrite <- IH2. split; lia.
  - split; [lia|]. split; [lia|discriminate].
Qed.

Lemma init_of_32_bytes (k : Config.encryption_key) (key_bytes : bytes) :
  key_bytes = match k with
              | Config.KeyStr s => encode_utf8 s
              | Config.KeyBytes b => b
              | Config.KeyNone => EmptyString
              end ->
  String.length key_bytes = 32%nat ->
  EncryptionUtil.init k
  = inr {| EncryptionUtil.key := UrlSafe.urlsafe_b64encode key_bytes;
           EncryptionUtil.fernet :=
             {| EncryptionUtil.signing_key := substring 0 16 key_bytes;
                EncryptionUtil.encryption_key := substring 16 16 key_bytes |} |}.
Proof.
  intros Hk Hlen.
  assert (Hset : EncryptionUtil.unset k = false).
  { destruct k as [|s|b]; cbn in *; subst key_bytes; [discriminate| |].
    - destruct s; [discriminate|reflexivity].
    - destruct b; [discriminate|reflexivity]. }
  unfold EncryptionUtil.init. rewrite Hset, <- Hk. cbv zeta.
  rewrite Hlen. cbn [Nat.eqb negb].
  unfold EncryptionUtil.Fernet_init. rewrite urlsafe_b64_round_trip, Hlen.
  reflexivity.
Qed.

Lemma init_not_32_bytes (k : Config.encryption_key) (key_bytes : bytes) :
  key_bytes = match k with
              | Config.KeyStr s => encode_utf8 s
              | Config.KeyBytes b => b
              | Config.KeyNone => EmptyString
              end ->
  EncryptionUtil.unset k = false ->
  String.length key_bytes <> 32%nat ->
  EncryptionUtil.init k
  = inl (EncryptionUtil.ValueError
           "Invalid encryption key: Encryption key must be 32 bytes long").
Proof.
  intros Hk Hset Hlen. unfold EncryptionUtil.init. rewrite Hset, <- Hk.
  cbv zeta. apply Nat.eqb_neq in Hlen. now rewrite Hlen.
Qed.

(** [EncryptionUtil(key)] builds an instance exactly for the keys of 32
    bytes (a str counts by its UTF-8 encoding): the instance holds the
    URL-safe base64 of the key, and its Fernet the two halves of the key.
    An unset or empty key is refused as not set, any other as not 32 bytes
    long; the error of Fernet itself never comes out. *)
Theorem encryption_key_must_be_32_bytes :
  forall k : Config.encryption_key,
    let key_bytes :=
      match k with
      | Config.KeyStr s => encode_utf8 s
      | Config.KeyBytes b => b
      | Config.KeyNone => EmptyString
      end in
    (String.length key_bytes = 32%nat ->
     EncryptionUtil.init k
     = inr {| EncryptionUtil.key := UrlSafe.urlsafe_b64encode key_bytes;
              EncryptionUtil.fernet :=
                {| EncryptionUtil.signing_key := substring 0 16 key_bytes;
                   EncryptionUtil.encryption_key := substring 16 16 key_bytes |} |})
    /\ (EncryptionUtil.unset k = true ->
        EncryptionUtil.init k
        = inl (EncryptionUtil.ValueError
                 "Encryption key is not set. Please set the ENCRYPTION_KEY environment variable."))
    /\ (EncryptionUtil.unset k = false -> String.length key_bytes <> 32%nat ->
        EncryptionUtil.init k
        = inl (EncryptionUtil.ValueError
                 "Invalid encryption key: Encryption key must be 32 bytes long")).
Proof.
  intros k key_bytes. split; [|split].
  - now apply init_of_32_bytes.
  - intros Hu. unfold EncryptionUtil.init. now rewrite Hu.
  - now apply init_not_32_bytes.
Qed.

(** A str key of 32 characters is accepted only when it is pure ASCII: any
    other character takes two bytes and makes the key too long. *)
Theorem str_key_of_32_characters :
  forall s : string,
    String.length s = 32%nat ->
    (exists self, EncryptionUtil.init (Config.KeyStr s) = inr self)
    <-> all_ascii s = true.
Proof.
  intros s Hs. destruct (utf8_length s) as [_ Hlen]. rewrite Hs in Hlen.
  split.
  - intros [self H]. apply Hlen.
    destruct (Nat.eq_dec (String.length (encode_utf8 s)) 32) as [E|E]; [exact E|].
    rewrite (init_not_32_bytes (Config.KeyStr s) _ eq_refl) in H;
      [discriminate| |exact E].
    cbn. now rewrite Hs.
  - intros Ha. apply Hlen in Ha.
    rewrite (init_of_32_bytes (Config.KeyStr s) _ eq_refl Ha). eauto.
Qed.

Lemma str_key_of_32_characters_witness :
  (exists self,
      EncryptionUtil.init (Config.KeyStr "0123456789abcdef0123456789abcdef") = inr self)
  <-> all_ascii "0123456789abcdef0123456789abcdef" = true.
Proof.
  apply (str_key_of_32_characters "0123456789abcdef0123456789abcdef"). reflexivity.
Defined.

(** 31 letters and an e with an acute accent: 32 characters, 33 bytes. *)
Example accented_key_refused :
  EncryptionUtil.init
    (Config.KeyStr ("0123456789abcdef0123456789abcde" ++ String (ascii_of_N 233) EmptyString))
  = inl (EncryptionUtil.ValueError
           "Invalid encryption key: Encryption key must be 32 bytes long").
Proof. reflexivity. Qed.

(** With ENCRYPTION_KEY not in the environment, [Config] falls back on 32
    random bytes, and [EncryptionUtil] accepts them whatever they are: the
    process starts, with a key that lives as long as the process. *)
Theorem default_encryption_key_is_accepted :
  forall (environ : gmap string string) (token_bytes : bytes),
    environ !! "ENCRYPTION_KEY" = None ->
    String.length token_bytes = 32%nat ->
    EncryptionUtil.init (Config.ENCRYPTION_KEY environ token_bytes)
    = inr {| EncryptionUtil.key := UrlSafe.urlsafe_b64encode token_bytes;
             EncryptionUtil.fernet :=
               {| EncryptionUtil.signing_key := substring 0 16 token_bytes;
                  EncryptionUtil.encryption_key := substring 16 16 token_bytes |} |}.
Proof.
  intros environ token_bytes He Hlen. unfold Config.ENCRYPTION_KEY. rewrite He.
  now apply init_of_32_bytes.
Qed.

Lemma default_encryption_key_is_accepted_witness :
  EncryptionUtil.init
    (Config.ENCRYPTION_KEY ∅ "0123456789abcdef0123456789abcdef")
  = inr {| EncryptionUtil.key :=
             UrlSafe.urlsafe_b64encode "0123456789abcdef0123456789abcdef";
           EncryptionUtil.fernet :=
             {| EncryptionUtil.signing_key :=
                  substring 0 16 "0123456789abcdef0123456789abcdef";
                EncryptionUtil.encryption_key :=
                  substring 16 16 "0123456789abcdef0123456789abcdef" |} |}.
Proof.
  apply (default_encryption_key_is_accepted ∅ "0123456789abcdef0123456789abcdef");
    reflexivity.
Defined.

(** An ENCRYPTION_KEY that is set but empty is reported as not set. *)
Example empty_key_is_unset :
  EncryptionUtil.init (Config.ENCRYPTION_KEY (<["ENCRYPTION_KEY" := EmptyString]> ∅) "x")
  = inl (EncryptionUtil.ValueError
           "Encryption key is not set. Please set the ENCRYPTION_KEY environment variable.").
Proof. reflexivity. Qed.

(** ** The secret from the environment *)

(** With SHOPIFY_CLIENT_SECRET not in the environment, the secret is None
    and the verifier raises on every delivery, signed or not: each view
    answers 500, and a run of deliveries leaves the world as it was. *)
Theorem unset_secret_blocks_every_delivery :
  forall (py_str : pydict -> string) (environ : gmap string string)
         (ops : list operation) (w : world),
    environ !! "SHOPIFY_CLIENT_SECRET" = None ->
    forallb is_delivery ops = true ->
    let secret := Config.SHOPIFY_CLIENT_SECRET environ in
    run py_str secret ops w = w
    /\ (forall out req,
          flask (orders_create py_str secret out req) w
          = (InternalServerError AttributeError, w)
          /\ flask (orders_paid py_str secret out req) w
             = (InternalServerError AttributeError, w)).
Proof.
  intros py_str environ ops w He Hd secret.
  assert (Hs : secret = None) by exact He. rewrite Hs. clear Hs secret.
  assert (Hv : forall out req w0,
             flask (orders_create py_str None out req) w0
             = (InternalServerError AttributeError, w0)
             /\ flask (orders_paid py_str None out req) w0
                = (InternalServerError AttributeError, w0)).
  { intros out req w0. apply (verification_error_has_no_effect _ _ _ _ _ AttributeError).
    reflexivity. }
  split; [|intros out req; apply Hv].
  revert w. induction ops as [|op ops IH]; intros w; [reflexivity|].
  cbn [forallb] in Hd. apply andb_true_iff in Hd as [Hop Hd].
  cbn [run fold_left]. fold (run py_str None ops).
  destruct op as [| | |out req|out req]; try discriminate; cbn [step].
  - destruct (Hv out req w) as [-> _]. now apply IH.
  - destruct (Hv out req w) as [_ ->]. now apply IH.
Qed.

Lemma unset_secret_blocks_every_delivery_witness :
  let secret := Config.SHOPIFY_CLIENT_SECRET ∅ in
  let ops := [ OrdersCreate Sample.gateway_up
                 (Sample.delivery (Some Sample.signature) Sample.shop_a);
               OrdersPaid Sample.gateway_up
                 (Sample.delivery (Some Sample.signature) Sample.shop_a) ] in
  run Sample.str_of secret ops (Sample.start 0) = Sample.start 0
  /\ (forall out req,
        flask (orders_create Sample.str_of secret out req) (Sample.start 0)
        = (InternalServerError AttributeError, Sample.start 0)
        /\ flask (orders_paid Sample.str_of secret out req) (Sample.start 0)
           = (InternalServerError AttributeError, Sample.start 0)).
Proof.
  apply (unset_secret_blocks_every_delivery Sample.str_of ∅
           [ OrdersCreate Sample.gateway_up
               (Sample.delivery (Some Sample.signature) Sample.shop_a);
             OrdersPaid Sample.gateway_up
               (Sample.delivery (Some Sample.signature) Sample.shop_a) ]
           (Sample.start 0));
    reflexivity.
Defined.

(** * More on the usage charge *)

(** For a shop without an account [create_usage_charge] raises TypeError
    before anything is sent or written, whatever the excess. Otherwise, for
    an excess whose product with 0.25 is exact (up to 2^53 either way), it
    writes nothing to the store, sends exactly one request, priced a quarter
    of the excess, and hands back the JSON body of the response whatever its
    status: an error answered in JSON is returned like a confirmation. *)
Theorem create_usage_charge_outcomes :
  forall (out : outside) (shop : option string) (excess_orders : Z) (w : world),
    let r := create_usage_charge out shop excess_orders w in
    (select_user shop (database w) = None -> r = (Raise TypeError, w))
    /\ (forall u, select_user shop (database w) = Some u ->
        exact_excess excess_orders = true ->
        let req := usage_charge_request shop u excess_orders in
        database (snd r) = database w
        /\ posted (snd r) = (posted w ++ [req])%list
        /\ (price (json req) == inject_Z excess_orders * USAGE_CHARGE_COST)%Q
        /\ (forall status body,
              requests_post out req = Response status (Some body) ->
              fst r = Ok body)
        /\ (forall status,
              requests_post out req = Response status None ->
              fst r = Raise JSONDecodeError)
        /\ (requests_post out req = NoResponse -> fst r = Raise ConnectionError)).
Proof.
  intros out shop excess_orders w r. subst r.
  unfold create_usage_charge, bind, get_db, raise, post, lift.
  destruct (select_user shop (database w)) as [u|] eqn:Hs.
  - split; [discriminate|].
    intros u' [= <-] _. cbv zeta.
    split; [|split; [|split; [apply Qred_correct|]]].
    + destruct (requests_post out _) as [|c b]; [reflexivity|]. cbn. now destruct b.
    + destruct (requests_post out _) as [|c b]; [reflexivity|]. cbn. now destruct b.
    + destruct (requests_post out _) as [|c b]; cbn.
      * repeat split; intros; congruence.
      * destruct b; cbn; repeat split; intros; congruence.
  - split; [destruct w; reflexivity|discriminate].
Qed.

(** One unit over the limit, through a gateway that confirms. *)
Lemma create_usage_charge_outcomes_witness :
  let r := create_usage_charge Sample.gateway_up (Some Sample.shop_a) 1
             (Sample.start 101) in
  let req := usage_charge_request (Some Sample.shop_a) (Sample.account 101) 1 in
  database (snd r) = database (Sample.start 101)
  /\ posted (snd r) = (posted (Sample.start 101) ++ [req])%list
  /\ (price (json req) == inject_Z 1 * USAGE_CHARGE_COST)%Q
  /\ (forall status body,
        requests_post Sample.gateway_up req = Response status (Some body) ->
        fst r = Ok body)
  /\ (forall status,
        requests_post Sample.gateway_up req = Response status None ->
        fst r = Raise JSONDecodeError)
  /\ (requests_post Sample.gateway_up req = NoResponse -> fst r = Raise ConnectionError).
Proof.
  apply (create_usage_charge_outcomes Sample.gateway_up (Some Sample.shop_a) 1
           (Sample.start 101));
    vm_compute; reflexivity.
Defined.

(** A 402 answered in JSON comes back as the result of the call. *)
Example create_usage_charge_http_error :
  fst (create_usage_charge
         {| now := "2024-05-01 10:00:01";
            requests_post := fun _ => Response 402 (Some "{errors: ...}") |}
         (Some Sample.shop_a) 1 (Sample.start 101))
  = Ok "{errors: ...}".
Proof. reflexivity. Qed.

(** [save_order] sends at most one charge per call, and never one below the
    unit cost: it charges only past the limit, where the excess is at least
    one. Called on its own, [create_usage_charge] has no such guard. *)
Theorem save_order_charges_at_least_one_unit :
  forall (py_str : pydict -> string) (out : outside) (order : pydict)
         (shop : option string) (w : world),
    exists sent : list http_request,
      posted (snd (save_order py_str out order shop w)) = (posted w ++ sent)%list
      /\ (length sent <= 1)%nat
      /\ Forall (fun r => (USAGE_CHARGE_COST <= price (json r))%Q) sent.
Proof.
  intros py_str out order shop w.
  destruct (order_params order) as [params|e] eqn:Hp.
  - destruct (select_user shop (database w)) as [u|] eqn:Hu.
    + exists (charges_at shop (bump u)).
      split; [exact (save_order_posted _ _ _ _ _ _ _ Hp Hu)|].
      unfold charges_at.
      destruct (Z.gtb_spec (Users.order_count (bump u)) USAGE_CHARGE_LIMIT) as [Hgt|Hle].
      * split; [cbn; lia|]. apply Forall_cons. split; [|apply Forall_nil_2].
        cbn [usage_charge_request json price]. rewrite Qred_correct.
        unfold Qle, USAGE_CHARGE_COST. cbn [Qnum Qden Qmult inject_Z]. lia.
      * split; [cbn; lia|apply Forall_nil_2].
    + exists []. rewrite (save_order_no_account _ _ _ _ _ _ Hp Hu). cbn [snd posted].
      rewrite app_nil_r. split; [reflexivity|]. split; [cbn; lia|apply Forall_nil_2].
  - exists []. rewrite (save_order_rejected _ _ _ _ _ _ Hp). cbn [snd].
    rewrite app_nil_r. split; [reflexivity|]. split; [cbn; lia|apply Forall_nil_2].
Qed.

Example create_usage_charge_unguarded :
  map (fun r => price (json r))
    (posted (snd (create_usage_charge Sample.gateway_up (Some Sample.shop_a) (-2)
                    (Sample.start 5))))
  = [(-1 # 2)%Q].
Proof. reflexivity. Qed.

(** * init_db.py *)

(** ** The tables *)

Lemma create_table_catalog name columns s m :
  InitDb.catalog (InitDb.create_table name columns s) !! m
  = match InitDb.catalog s !! m with
    | Some c => Some c
    | None => if decide (name = m) then Some columns else None
    end.
Proof.
  unfold InitDb.create_table.
  destruct (InitDb.catalog s !! name) as [c|] eqn:Hn.
  - destruct (InitDb.catalog s !! m) eqn:Hm; [reflexivity|].
    destruct (decide (name = m)) as [->|]; [congruence|reflexivity].
  - cbn [InitDb.catalog]. destruct (decide (name = m)) as [->|Hne].
    + now rewrite lookup_insert_eq, Hn.
    + rewrite lookup_insert_ne by assumption. now destruct (InitDb.catalog s !! m).
Qed.

Lemma create_table_existing name columns s m c :
  InitDb.catalog s !! m = Some c ->
  InitDb.catalog (InitDb.create_table name columns s) !! m = Some c.
Proof. intros H. now rewrite create_table_catalog, H. Qed.

Lemma create_table_created name columns s :
  is_Some (InitDb.catalog (InitDb.create_table name columns s) !! name).
Proof.
  rewrite create_table_catalog. destruct (InitDb.catalog s !! name); [eauto|].
  destruct (decide (name = name)); [eauto|contradiction].
Qed.

Lemma create_table_projects name columns s :
  InitDb.projects (InitDb.create_table name columns s) = InitDb.projects s.
Proof. unfold InitDb.create_table. now destruct (InitDb.catalog s !! name). Qed.

Lemma create_table_absorbed name columns s :
  is_Some (InitDb.catalog s !! name) -> InitDb.create_table name columns s = s.
Proof. intros [c H]. unfold InitDb.create_table. now rewrite H. Qed.

(** [create_tables] only adds what is missing. A table that exists keeps the
    columns it was created with, whatever this file declares for it (a users
    table made elsewhere with more columns stays as it is); afterwards the
    four tables exist; no project row is touched; and creating again changes
    no table. [initialize_database] does the same to the tables. *)
Theorem create_tables_only_adds_missing_tables :
  forall s : InitDb.state,
    let s' := InitDb.create_tables s in
    (forall name columns,
        InitDb.catalog s !! name = Some columns ->
        InitDb.catalog s' !! name = Some columns)
    /\ (forall name,
          In name ["users"; "orders"; "notifications"; "projects"] ->
          is_Some (InitDb.catalog s' !! name))
    /\ InitDb.projects s' = InitDb.projects s
    /\ InitDb.catalog (InitDb.create_tables s') = InitDb.catalog s'
    /\ InitDb.catalog (InitDb.initialize_database s) = InitDb.catalog s'.
Proof.
  intros s s'.
  assert (Hcat : forall s0 name,
             InitDb.catalog (InitDb.create_tables s0) !! name
             = match InitDb.catalog s0 !! name with
               | Some c => Some c
               | None =>
                   if decide ("users" = name) then Some InitDb.users_columns
                   else if decide ("orders" = name) then Some InitDb.orders_columns
                   else if decide ("notifications" = name)
                        then Some InitDb.notifications_columns
                   else if decide ("projects" = name) then Some InitDb.projects_columns
                   else None
               end).
  { intros s0 name.
    unfold InitDb.create_tables, InitDb.create_projects_table,
      InitDb.create_notifications_table, InitDb.create_orders_table,
      InitDb.create_users_table.
    repeat (cbn [InitDb.logged InitDb.catalog]; rewrite create_table_catalog).
    destruct (InitDb.catalog s0 !! name); [reflexivity|].
    repeat case_decide; reflexivity. }
  assert (Hall : forall s0 name,
             In name ["users"; "orders"; "notifications"; "projects"] ->
             is_Some (InitDb.catalog (InitDb.create_tables s0) !! name)).
  { intros s0 name Hin. rewrite Hcat.
    destruct (InitDb.catalog s0 !! name); [eauto|].
    cbn [In] in Hin. destruct Hin as [<-|[<-|[<-|[<-|[]]]]];
      repeat case_decide; eauto; congruence. }
  subst s'. split; [|split; [apply Hall|split; [|split]]].
  - intros name columns H. now rewrite Hcat, H.
  - unfold InitDb.create_tables, InitDb.create_projects_table,
      InitDb.create_notifications_table, InitDb.create_orders_table,
      InitDb.create_users_table.
    repeat (cbn [InitDb.logged InitDb.projects]; rewrite create_table_projects).
    reflexivity.
  - apply map_eq. intros name. rewrite Hcat.
    destruct (InitDb.catalog (InitDb.create_tables s) !! name) as [c|] eqn:Hc;
      [reflexivity|].
    rewrite Hcat in Hc.
    destruct (InitDb.catalog s !! name); [discriminate|].
    repeat case_decide; try discriminate; reflexivity.
  - apply map_eq. intros name. unfold InitDb.initialize_database.
    cbn [InitDb.logged InitDb.catalog]. now rewrite !Hcat.
Qed.

(** ** The projects *)

Lemma bind_id_committed (n i : Z) : InitDb.bind_id n = InitDb.Committed i -> i = n.
Proof. unfold InitDb.bind_id. destruct (_ && _); congruence. Qed.

Lemma bind_id_int64 (n : Z) : int64 n = true -> InitDb.bind_id n = InitDb.Committed n.
Proof. unfold InitDb.bind_id, int64. now intros ->. Qed.

Lemma bind_id_overflow (n : Z) :
  int64 n = false -> InitDb.bind_id n = InitDb.PythonError OverflowError.
Proof. unfold InitDb.bind_id, int64. now intros ->. Qed.

Lemma bind_value_index (i j : nat) (v : InitDb.jvalue) (x : option string) :
  InitDb.bind_value i v = InitDb.Committed x ->
  InitDb.bind_value j v = InitDb.Committed x.
Proof. destruct v; cbn; try discriminate; trivial. Qed.

(** The UPDATE either rewrites every row through [set_project], with the
    values its parameters bind to, or it changes nothing. *)
Lemma run_update_outcomes image attributes applied updated project_id rows :
  (exists img att app upd,
      InitDb.bind_value 0 image = InitDb.Committed img
      /\ InitDb.bind_value 1 attributes = InitDb.Committed att
      /\ InitDb.bind_value 2 applied = InitDb.Committed app
      /\ InitDb.bind_value 3 updated = InitDb.Committed upd
      /\ int64 project_id = true
      /\ InitDb.run_update image attributes applied updated project_id rows
         = InitDb.Committed (map (InitDb.set_project img att app upd project_id) rows))
  \/ (exists e, InitDb.run_update image attributes applied updated project_id rows
                = InitDb.SqliteError e)
  \/ (exists e, InitDb.run_update image attributes applied updated project_id rows
                = InitDb.PythonError e).
Proof.
  unfold InitDb.run_update.
  destruct (InitDb.bind_value 0 image) as [img|e|e]; [|eauto|eauto].
  destruct (InitDb.bind_value 1 attributes) as [att|e|e]; [|eauto|eauto].
  destruct (InitDb.bind_value 2 applied) as [app|e|e]; [|eauto|eauto].
  destruct (InitDb.bind_value 3 updated) as [upd|e|e]; [|eauto|eauto].
  destruct (int64 project_id) eqn:Hi.
  - rewrite (bind_id_int64 _ Hi). left. exists img, att, app, upd. auto 10.
  - rewrite (bind_id_overflow _ Hi). eauto.
Qed.

Lemma project_kept_refl (project_id : Z) (rows : list InitDb.Projects.row) :
  Forall2 (project_kept project_id) rows rows.
Proof. induction rows; constructor; [repeat split|assumption]. Qed.

Lemma set_project_kept img att app upd project_id rows :
  Forall2 (project_kept project_id) rows
    (map (InitDb.set_project img att app upd project_id) rows).
Proof.
  induction rows as [|r rows IH]; constructor; [|exact IH].
  unfold project_kept, InitDb.set_project.
  destruct (Z.eqb_spec (InitDb.Projects.id r) project_id); cbn; repeat split; congruence.
Qed.

Lemma run_committed_kept project_id run s :
  (forall rows, run = InitDb.Committed rows ->
                Forall2 (project_kept project_id) (InitDb.projects s) rows) ->
  Forall2 (project_kept project_id) (InitDb.projects s)
    (InitDb.projects (snd (InitDb.execute_query run s)))
  /\ InitDb.catalog (snd (InitDb.execute_query run s)) = InitDb.catalog s.
Proof.
  intros H. destruct run as [rows|e|e]; cbn.
  - split; [now apply H|reflexivity].
  - split; [apply project_kept_refl|reflexivity].
  - split; [apply project_kept_refl|reflexivity].
Qed.

Lemma run_update_kept image attributes applied updated project_id s rows :
  InitDb.run_update image attributes applied updated project_id (InitDb.projects s)
  = InitDb.Committed rows ->
  Forall2 (project_kept project_id) (InitDb.projects s) rows.
Proof.
  intros H.
  destruct (run_update_outcomes image attributes applied updated project_id
              (InitDb.projects s))
    as [(img & att & app & upd & _ & _ & _ & _ & _ & E)|[[e E]|[e E]]];
    rewrite E in H; [|discriminate|discriminate].
  injection H as <-. apply set_project_kept.
Qed.

Lemma prepare_committed {A : Type} (table : string) (s : InitDb.state)
    (run : InitDb.execution A) (a : A) :
  InitDb.prepare table s run = InitDb.Committed a -> run = InitDb.Committed a.
Proof. unfold InitDb.prepare. destruct (InitDb.catalog s !! table); [trivial|discriminate]. Qed.

Lemma prepare_present {A : Type} (table : string) (s : InitDb.state)
    (run : InitDb.execution A) :
  is_Some (InitDb.catalog s !! table) -> InitDb.prepare table s run = run.
Proof. intros [c H]. unfold InitDb.prepare. now rewrite H. Qed.

Lemma prepare_absent {A : Type} (table : string) (s : InitDb.state)
    (run : InitDb.execution A) :
  InitDb.catalog s !! table = None ->
  InitDb.prepare table s run = InitDb.SqliteError (InitDb.NoSuchTable table).
Proof. intros H. unfold InitDb.prepare. now rewrite H. Qed.

(** [update_project] and [save_project] add no row, remove none and move
    none: the table keeps its rows in place, every row keeps its id, its shop
    and its creation time, and the rows of any other id are left exactly as
    they were, whatever the data and whatever goes wrong. The tables
    themselves are not touched. *)
Theorem project_writes_stay_in_their_row :
  forall (json_dumps : InitDb.jvalue -> string) (now : string) (project_id : Z)
         (data : gmap string InitDb.jvalue)
         (shopify_shop image attributes applied_attribute : InitDb.jvalue)
         (s : InitDb.state),
    let updated := snd (InitDb.update_project json_dumps now project_id data s) in
    let saved := snd (InitDb.save_project json_dumps now project_id shopify_shop
                        image attributes applied_attribute s) in
    Forall2 (project_kept project_id) (InitDb.projects s) (InitDb.projects updated)
    /\ InitDb.catalog updated = InitDb.catalog s
    /\ Forall2 (project_kept project_id) (InitDb.projects s) (InitDb.projects saved)
    /\ InitDb.catalog saved = InitDb.catalog s.
Proof.
  intros json_dumps now project_id data shopify_shop image attributes
         applied_attribute s updated saved.
  assert (Hupdated : Forall2 (project_kept project_id) (InitDb.projects s)
                       (InitDb.projects updated)
                     /\ InitDb.catalog updated = InitDb.catalog s).
  { subst updated. unfold InitDb.update_project.
    match goal with
    | |- context [InitDb.execute_query ?run s] =>
        assert (Hr : forall rows, run = InitDb.Committed rows ->
                       Forall2 (project_kept project_id) (InitDb.projects s) rows)
          by (intros rows Hrows; apply prepare_committed in Hrows;
              exact (run_update_kept _ _ _ _ _ _ _ Hrows));
        destruct (run_committed_kept project_id run s Hr) as [Hp Hc];
        destruct (InitDb.execute_query run s) as [[[]|e|e] s0]
    end; cbn [snd] in *; split; assumption. }
  assert (Hsaved : Forall2 (project_kept project_id) (InitDb.projects s)
                     (InitDb.projects saved)
                   /\ InitDb.catalog saved = InitDb.catalog s).
  { subst saved. unfold InitDb.save_project.
    destruct (InitDb.prepare "projects" s (InitDb.bind_id project_id)) as [i|e|e];
      cbn [snd InitDb.logged InitDb.projects InitDb.catalog];
      try (split; [apply project_kept_refl|reflexivity]).
    cbv zeta.
    match goal with
    | |- context [InitDb.execute_query ?run s] =>
        assert (Hr : forall rows, run = InitDb.Committed rows ->
                       Forall2 (project_kept project_id) (InitDb.projects s) rows)
          by (destruct (InitDb.select_project i (InitDb.projects s));
              [apply run_update_kept|discriminate]);
        destruct (run_committed_kept project_id run s Hr) as [Hp Hc];
        destruct (InitDb.execute_query run s) as [[[]|e|e] s0]
    end; cbn [snd] in *; split; assumption. }
  tauto.
Qed.

Lemma set_project_id img att app upd project_id r :
  InitDb.Projects.id (InitDb.set_project img att app upd project_id r)
  = InitDb.Projects.id r.
Proof. unfold InitDb.set_project. now destruct (_ =? _)%Z. Qed.

Lemma select_set_project img att app upd project_id rows :
  InitDb.select_project project_id
    (map (InitDb.set_project img att app upd project_id) rows)
  = option_map (InitDb.set_project img att app upd project_id)
      (InitDb.select_project project_id rows).
Proof.
  unfold InitDb.select_project.
  induction rows as [|r rows IH]; [reflexivity|].
  cbn [map List.find]. rewrite set_project_id.
  destruct (InitDb.Projects.id r =? project_id)%Z; [reflexivity|exact IH].
Qed.

Lemma set_project_absent img att app upd project_id rows :
  InitDb.select_project project_id rows = None ->
  map (InitDb.set_project img att app upd project_id) rows = rows.
Proof.
  unfold InitDb.select_project.
  induction rows as [|r rows IH]; [reflexivity|].
  cbn [map List.find]. unfold InitDb.set_project at 1.
  destruct (InitDb.Projects.id r =? project_id)%Z; [discriminate|].
  intros H. now rewrite IH.
Qed.

Lemma select_project_id project_id rows r :
  InitDb.select_project project_id rows = Some r -> InitDb.Projects.id r = project_id.
Proof.
  unfold InitDb.select_project. intros H.
  apply List.find_some in H as [_ H]. now apply Z.eqb_eq.
Qed.

Lemma state_eta (s : InitDb.state) :
  {| InitDb.catalog := InitDb.catalog s;
     InitDb.projects := InitDb.projects s;
     InitDb.log := InitDb.log s |} = s.
Proof. now destruct s. Qed.

(** What [save_project] leaves in the table is what [update_project] leaves
    there for the same image, attributes and applied attribute: for an id
    that is stored it is the same UPDATE, and for an id that is not stored
    the one changes no row and the other fails on its INSERT. So
    [save_project] never creates a project, and the shop it is given is
    never stored. *)
Theorem save_project_writes_what_update_project_writes :
  forall (json_dumps : InitDb.jvalue -> string) (now : string) (project_id : Z)
         (shopify_shop image attributes applied_attribute : InitDb.jvalue)
         (s : InitDb.state),
    let data : gmap string InitDb.jvalue :=
      <["image" := image]>
        (<["attributes" := attributes]>
           (<["appliedAttribute" := applied_attribute]> ∅)) in
    InitDb.projects
      (snd (InitDb.save_project json_dumps now project_id shopify_shop image
              attributes applied_attribute s))
    = InitDb.projects (snd (InitDb.update_project json_dumps now project_id data s))
    /\ map InitDb.Projects.id
         (InitDb.projects
            (snd (InitDb.save_project json_dumps now project_id shopify_shop image
                    attributes applied_attribute s)))
       = map InitDb.Projects.id (InitDb.projects s).
Proof.
  intros json_dumps now project_id shopify_shop image attributes applied_attribute s data.
  assert (Himage : InitDb.data_get data "image" = image).
  { unfold InitDb.data_get, data. now rewrite lookup_insert_eq. }
  assert (Hattributes : InitDb.data_get data "attributes" = attributes).
  { unfold InitDb.data_get, data.
    rewrite lookup_insert_ne by discriminate. now rewrite lookup_insert_eq. }
  assert (Happlied : InitDb.data_get data "appliedAttribute" = applied_attribute).
  { unfold InitDb.data_get, data.
    do 2 (rewrite lookup_insert_ne by discriminate). now rewrite lookup_insert_eq. }
  assert (Hsame : InitDb.projects
                    (snd (InitDb.save_project json_dumps now project_id shopify_shop
                            image attributes applied_attribute s))
                  = InitDb.projects
                      (snd (InitDb.update_project json_dumps now project_id data s))).
  { unfold InitDb.save_project, InitDb.update_project.
    rewrite Himage, Hattributes, Happlied. clear Himage Hattributes Happlied data.
    unfold InitDb.prepare.
    destruct (InitDb.catalog s !! "projects"); [|reflexivity].
    destruct (run_update_outcomes image (InitDb.JStr (json_dumps attributes))
                applied_attribute (InitDb.JStr now) project_id (InitDb.projects s))
      as [(img & att & app & upd & _ & _ & _ & _ & Hi & E)|[[e E]|[e E]]].
    - rewrite (bind_id_int64 _ Hi). cbv zeta. rewrite E.
      destruct (InitDb.select_project project_id (InitDb.projects s)) eqn:Hsel.
      + reflexivity.
      + cbn. now rewrite set_project_absent.
    - rewrite E. cbn -[InitDb.select_project].
      destruct (InitDb.bind_id project_id) as [i|e'|e']; try reflexivity.
      cbv zeta.
      destruct (InitDb.select_project i (InitDb.projects s)); reflexivity.
    - rewrite E. cbn -[InitDb.select_project].
      destruct (InitDb.bind_id project_id) as [i|e'|e']; try reflexivity.
      cbv zeta.
      destruct (InitDb.select_project i (InitDb.projects s)); reflexivity. }
  split; [exact Hsame|].
  rewrite Hsame. unfold InitDb.update_project.
  match goal with
  | |- context [InitDb.execute_query ?run s] => destruct run as [rows|e|e] eqn:E
  end; cbn; try reflexivity.
  apply prepare_committed in E.
  destruct (run_update_outcomes (InitDb.data_get data "image")
              (InitDb.JStr (json_dumps (InitDb.data_get data "attributes")))
              (InitDb.data_get data "appliedAttribute") (InitDb.JStr now) project_id
              (InitDb.projects s))
    as [(img & att & app & upd & _ & _ & _ & _ & _ & E')|[[e E']|[e E']]];
    rewrite E' in E; try discriminate.
  injection E as <-. rewrite map_map.
  apply map_ext. intros r. apply set_project_id.
Qed.

Lemma bindable_committed (v : InitDb.jvalue) (i : nat) :
  bindable v = true -> exists x, InitDb.bind_value i v = InitDb.Committed x.
Proof.
  unfold bindable. destruct (InitDb.bind_value 0 v) as [x|e|e] eqn:E; try discriminate.
  intros _. exists x. exact (bind_value_index 0 i v x E).
Qed.

(** The UPDATE on bindable values and an id of 64 bits. *)
Lemma run_update_bindable image text applied now project_id rows img app :
  InitDb.bind_value 0 image = InitDb.Committed img ->
  InitDb.bind_value 0 applied = InitDb.Committed app ->
  int64 project_id = true ->
  InitDb.run_update image (InitDb.JStr text) applied (InitDb.JStr now) project_id rows
  = InitDb.Committed
      (map (InitDb.set_project img (Some text) app (Some now) project_id) rows).
Proof.
  intros Himg Happ Hid. unfold InitDb.run_update.
  rewrite Himg, (bind_value_index 0 2 _ _ Happ), (bind_id_int64 _ Hid). reflexivity.
Qed.

(** [update_project] on an id that is not stored changes no row, and still
    reports success: the log gets the line that the project was updated. *)
Theorem update_project_unknown_id_reports_success :
  forall (json_dumps : InitDb.jvalue -> string) (now : string) (project_id : Z)
         (data : gmap string InitDb.jvalue) (s : InitDb.state),
    is_Some (InitDb.catalog s !! "projects") ->
    InitDb.select_project project_id (InitDb.projects s) = None ->
    bindable (InitDb.data_get data "image") = true ->
    bindable (InitDb.data_get data "appliedAttribute") = true ->
    int64 project_id = true ->
    InitDb.update_project json_dumps now project_id data s
    = (Ok tt,
       InitDb.logged
         (InitDb.INFO ("Project " ++ pretty project_id ++ " updated successfully.")) s).
Proof.
  intros json_dumps now project_id data s Htable Habsent Himage Happlied Hid.
  destruct (bindable_committed _ 0 Himage) as [img Himg].
  destruct (bindable_committed _ 0 Happlied) as [app Happ].
  unfold InitDb.update_project.
  rewrite (prepare_present _ _ _ Htable).
  rewrite (run_update_bindable _ _ _ _ _ _ _ _ Himg Happ Hid).
  rewrite (set_project_absent _ _ _ _ _ _ Habsent).
  cbn [InitDb.execute_query]. now rewrite state_eta.
Qed.

Lemma update_project_unknown_id_reports_success_witness :
  InitDb.update_project sample_dumps "2024-05-02T10:00:00" 7
    (<["image" := InitDb.JStr "new.png"]> ∅) sample_projects
  = (Ok tt,
     InitDb.logged (InitDb.INFO ("Project " ++ pretty 7%Z ++ " updated successfully."))
       sample_projects).
Proof.
  apply (update_project_unknown_id_reports_success sample_dumps "2024-05-02T10:00:00" 7
           (<["image" := InitDb.JStr "new.png"]> ∅) sample_projects).
  - exists InitDb.projects_columns. vm_compute. reflexivity.
  - vm_compute. reflexivity.
  - vm_compute. reflexivity.
  - vm_compute. reflexivity.
  - vm_compute. reflexivity.
Defined.

(** What [update_project] writes, [get_project] reads back. For a stored
    project, values sqlite3 can bind, and attributes that [json.loads] reads
    back from their [json.dumps] text as [v], the project then returned has
    the new image, [v] as its attributes, the new applied attribute and the
    time of the update, and the id, shop and creation time it had. *)
Theorem update_project_then_get_project :
  forall (json_dumps : InitDb.jvalue -> string)
         (json_loads : string -> option InitDb.jvalue) (now : string)
         (project_id : Z) (data : gmap string InitDb.jvalue) (s : InitDb.state)
         (r : InitDb.Projects.row) (img app : option string) (v : InitDb.jvalue),
    is_Some (InitDb.catalog s !! "projects") ->
    InitDb.select_project project_id (InitDb.projects s) = Some r ->
    InitDb.bind_value 0 (InitDb.data_get data "image") = InitDb.Committed img ->
    InitDb.bind_value 0 (InitDb.data_get data "appliedAttribute") = InitDb.Committed app ->
    int64 project_id = true ->
    json_loads (json_dumps (InitDb.data_get data "attributes")) = Some v ->
    let s' := snd (InitDb.update_project json_dumps now project_id data s) in
    InitDb.get_project json_loads project_id s'
    = (Ok (Some {| InitDb.p_id := project_id;
                   InitDb.p_shopify_shop := InitDb.Projects.shopify_shop r;
                   InitDb.p_image := img;
                   InitDb.p_attributes := v;
                   InitDb.p_appliedAttribute := app;
                   InitDb.p_created_at := InitDb.Projects.created_at r;
                   InitDb.p_updated_at := Some now |}), s').
Proof.
  intros json_dumps json_loads now project_id data s r img app v
         Htable Hsel Himg Happ Hid Hloads s'.
  assert (Hs' : InitDb.catalog s' = InitDb.catalog s
                /\ InitDb.projects s'
                   = map (InitDb.set_project img
                            (Some (json_dumps (InitDb.data_get data "attributes")))
                            app (Some now) project_id) (InitDb.projects s)).
  { subst s'. unfold InitDb.update_project.
    rewrite (prepare_present _ _ _ Htable).
    rewrite (run_update_bindable _ _ _ _ _ _ _ _ Himg Happ Hid).
    split; reflexivity. }
  destruct Hs' as [Hcatalog Hprojects].
  unfold InitDb.get_project.
  rewrite prepare_present by (rewrite Hcatalog; exact Htable).
  rewrite (bind_id_int64 _ Hid), Hprojects, select_set_project, Hsel.
  cbn [option_map]. unfold InitDb.set_project.
  rewrite (select_project_id _ _ _ Hsel), Z.eqb_refl.
  cbn. rewrite Hloads. reflexivity.
Qed.

Lemma update_project_then_get_project_witness :
  let data : gmap string InitDb.jvalue :=
    <["image" := InitDb.JStr "new.png"]> (<["appliedAttribute" := InitDb.JInt 3]> ∅) in
  let s' := snd (InitDb.update_project sample_dumps "2024-05-02T10:00:00" 2 data
                   sample_projects) in
  InitDb.get_project sample_loads 2 s'
  = (Ok (Some {| InitDb.p_id := 2;
                 InitDb.p_shopify_shop := Some "b.myshopify.com";
                 InitDb.p_image := Some "new.png";
                 InitDb.p_attributes := InitDb.JNull;
                 InitDb.p_appliedAttribute := Some (pretty 3%Z);
                 InitDb.p_created_at := Some "2024-04-01 08:00:00";
                 InitDb.p_updated_at := Some "2024-05-02T10:00:00" |}), s').
Proof.
  intros data.
  apply (update_project_then_get_project sample_dumps sample_loads
           "2024-05-02T10:00:00" 2 data sample_projects
           (sample_project 2 "b.myshopify.com") (Some "new.png") (Some (pretty 3%Z))
           InitDb.JNull).
  - exists InitDb.projects_columns. vm_compute. reflexivity.
  - vm_compute. reflexivity.
  - vm_compute. reflexivity.
  - vm_compute. reflexivity.
  - vm_compute. reflexivity.
  - vm_compute. reflexivity.
Defined.

(** The project [get_project] returns is the first stored row of the asked
    id, with its attributes text read by [json.loads], and reading it
    changes nothing, the log included. *)
Theorem get_project_returns_the_asked_project :
  forall (json_loads : string -> option InitDb.jvalue) (project_id : Z)
         (s s' : InitDb.state) (p : InitDb.project),
    InitDb.get_project json_loads project_id s = (Ok (Some p), s') ->
    s' = s
    /\ InitDb.p_id p = project_id
    /\ exists (r : InitDb.Projects.row) (text : string),
         InitDb.select_project project_id (InitDb.projects s) = Some r
         /\ In r (InitDb.projects s)
         /\ InitDb.Projects.attributes r = Some text
         /\ json_loads text = Some (InitDb.p_attributes p)
         /\ InitDb.p_shopify_shop p = InitDb.Projects.shopify_shop r
         /\ InitDb.p_image p = InitDb.Projects.image r
         /\ InitDb.p_appliedAttribute p = InitDb.Projects.applied_attribute r
         /\ InitDb.p_created_at p = InitDb.Projects.created_at r
         /\ InitDb.p_updated_at p = InitDb.Projects.updated_at r.
Proof.
  intros json_loads project_id s s' p. unfold InitDb.get_project.
  destruct (InitDb.prepare "projects" s (InitDb.bind_id project_id)) as [i|e|e] eqn:Hi;
    try discriminate.
  apply prepare_committed, bind_id_committed in Hi. subst i.
  destruct (InitDb.select_project project_id (InitDb.projects s)) as [r|] eqn:Hsel;
    [|discriminate].
  destruct (InitDb.Projects.attributes r) as [text|] eqn:Htext; [|discriminate].
  destruct (json_loads text) as [v|] eqn:Hv; [|discriminate].
  intros H. injection H as <- <-. cbn.
  split; [reflexivity|]. split; [exact (select_project_id _ _ _ Hsel)|].
  exists r, text. repeat split; try assumption; try reflexivity.
  apply List.find_some in Hsel. tauto.
Qed.

Lemma get_project_returns_the_asked_project_witness :
  let s := snd (InitDb.update_project sample_dumps "2024-05-02T10:00:00" 1 ∅
                  sample_projects) in
  let p := {| InitDb.p_id := 1;
              InitDb.p_shopify_shop := Some "a.myshopify.com";
              InitDb.p_image := None;
              InitDb.p_attributes := InitDb.JNull;
              InitDb.p_appliedAttribute := None;
              InitDb.p_created_at := Some "2024-04-01 08:00:00";
              InitDb.p_updated_at := Some "2024-05-02T10:00:00" |} in
  s = s
  /\ InitDb.p_id p = 1%Z
  /\ exists (r : InitDb.Projects.row) (text : string),
       InitDb.select_project 1 (InitDb.projects s) = Some r
       /\ In r (InitDb.projects s)
       /\ InitDb.Projects.attributes r = Some text
       /\ sample_loads text = Some (InitDb.p_attributes p)
       /\ InitDb.p_shopify_shop p = InitDb.Projects.shopify_shop r
       /\ InitDb.p_image p = InitDb.Projects.image r
       /\ InitDb.p_appliedAttribute p = InitDb.Projects.applied_attribute r
       /\ InitDb.p_created_at p = InitDb.Projects.created_at r
       /\ InitDb.p_updated_at p = InitDb.Projects.updated_at r.
Proof.
  intros s p.
  apply (get_project_returns_the_asked_project sample_loads 1 s s p).
  vm_compute. reflexivity.
Defined.

(** Without a projects table nothing can be done on projects, and nothing
    is raised: [update_project] and [save_project] log the error and return,
    [get_project] logs it and returns [None], and the database is as it was.
    [initialize_database] is what makes the table. *)
Theorem projects_need_their_table :
  forall (json_dumps : InitDb.jvalue -> string)
         (json_loads : string -> option InitDb.jvalue) (now : string)
         (project_id : Z) (data : gmap string InitDb.jvalue)
         (shopify_shop image attributes applied_attribute : InitDb.jvalue)
         (s : InitDb.state),
    InitDb.catalog s !! "projects" = None ->
    let e := InitDb.NoSuchTable "projects" in
    InitDb.update_project json_dumps now project_id data s
    = (Ok tt, InitDb.logged (InitDb.ERROR "Error updating project: " e)
                (InitDb.logged (InitDb.ERROR "Error executing query: " e) s))
    /\ InitDb.get_project json_loads project_id s
       = (Ok None, InitDb.logged (InitDb.ERROR "Error retrieving project: " e) s)
    /\ InitDb.save_project json_dumps now project_id shopify_shop image attributes
         applied_attribute s
       = (Ok tt, InitDb.logged (InitDb.ERROR "Error saving project: " e) s)
    /\ is_Some (InitDb.catalog (InitDb.initialize_database s) !! "projects").
Proof.
  intros json_dumps json_loads now project_id data shopify_shop image attributes
         applied_attribute s Habsent e.
  unfold InitDb.update_project, InitDb.get_project, InitDb.save_project.
  rewrite !(prepare_absent _ _ _ Habsent).
  repeat split; try reflexivity.
  unfold InitDb.initialize_database, InitDb.create_tables, InitDb.create_projects_table.
  cbn [InitDb.logged InitDb.catalog]. apply create_table_created.
Qed.

Lemma projects_need_their_table_witness :
  let s := {| InitDb.catalog := ∅; InitDb.projects := []; InitDb.log := [] |} in
  let e := InitDb.NoSuchTable "projects" in
  InitDb.update_project sample_dumps "2024-05-02T10:00:00" 1 ∅ s
  = (Ok tt, InitDb.logged (InitDb.ERROR "Error updating project: " e)
              (InitDb.logged (InitDb.ERROR "Error executing query: " e) s))
  /\ InitDb.get_project sample_loads 1 s
     = (Ok None, InitDb.logged (InitDb.ERROR "Error retrieving project: " e) s)
  /\ InitDb.save_project sample_dumps "2024-05-02T10:00:00" 1 InitDb.JNull
       InitDb.JNull InitDb.JNull InitDb.JNull s
     = (Ok tt, InitDb.logged (InitDb.ERROR "Error saving project: " e) s)
  /\ is_Some (InitDb.catalog (InitDb.initialize_database s) !! "projects").
Proof.
  intros s.
  apply (projects_need_their_table sample_dumps sample_loads "2024-05-02T10:00:00" 1 ∅
           InitDb.JNull InitDb.JNull InitDb.JNull InitDb.JNull s).
  vm_compute. reflexivity.
Defined.

(** What binding makes of a value, by its kind. *)
Lemma bind_value_kinds (i : nat) (v : InitDb.jvalue) :
  match InitDb.bind_value i v with
  | InitDb.Committed _ =>
      overflows v = false /\ unencodable v = false /\ unsupported v = false
  | InitDb.SqliteError e =>
      e = InitDb.UnsupportedType i /\ unsupported v = true
  | InitDb.PythonError e =>
      unsupported v = false
      /\ ((e = OverflowError /\ overflows v = true)
          \/ (e = UnicodeEncodeError /\ unencodable v = true))
  end.
Proof.
  destruct v; cbn; auto.
  unfold int64. destruct (_ && _); cbn; auto.
Qed.

(** What [update_project] raises and what it swallows. An exception comes
    out only from binding a parameter, and it is OverflowError, for an
    image, an applied attribute or an id that is an integer beyond 64 bits,
    or UnicodeEncodeError, for an image or an applied attribute that is a
    string with a lone surrogate; the database and the log are then as they
    were. Every sqlite3 error (no projects table, a list or a dict as a
    parameter) is logged twice, by [execute_query] and by [update_project],
    and swallowed: the call returns normally and no row has changed. In
    every other case the call returns normally after logging the update.
    The image is bound first: when it overflows or cannot be encoded, and
    the table exists, the exception does come out. *)
Theorem update_project_raises_only_from_binding :
  forall (json_dumps : InitDb.jvalue -> string) (now : string) (project_id : Z)
         (data : gmap string InitDb.jvalue) (s : InitDb.state),
    let image := InitDb.data_get data "image" in
    let applied := InitDb.data_get data "appliedAttribute" in
    let out := InitDb.update_project json_dumps now project_id data s in
    match fst out with
    | Raise e =>
        snd out = s
        /\ is_Some (InitDb.catalog s !! "projects")
        /\ ((e = OverflowError
             /\ overflows image || overflows applied || negb (int64 project_id) = true)
            \/ (e = UnicodeEncodeError
                /\ unencodable image || unencodable applied = true))
    | Ok _ =>
        InitDb.log (snd out)
        = (InitDb.log s
           ++ [InitDb.INFO ("Project " ++ pretty project_id ++ " updated successfully.")])%list
        \/ exists e : InitDb.sqlite_error,
             InitDb.projects (snd out) = InitDb.projects s
             /\ InitDb.log (snd out)
                = (InitDb.log s
                   ++ [InitDb.ERROR "Error executing query: " e;
                       InitDb.ERROR "Error updating project: " e])%list
             /\ (e = InitDb.NoSuchTable "projects"
                 \/ unsupported image || unsupported applied = true)
    end
    /\ (is_Some (InitDb.catalog s !! "projects") ->
        (overflows image = true -> out = (Raise OverflowError, s))
        /\ (unencodable image = true -> out = (Raise UnicodeEncodeError, s))).
Proof.
  intros json_dumps now project_id data s image applied out.
  subst out. unfold InitDb.update_project, InitDb.prepare.
  fold image. fold applied.
  pose proof (bind_value_kinds 0 image) as Himage.
  pose proof (bind_value_kinds 2 applied) as Happlied.
  destruct (InitDb.catalog s !! "projects") as [columns|] eqn:Htable.
  - unfold InitDb.run_update.
    destruct (InitDb.bind_value 0 image) as [img|e|e].
    + destruct Himage as (Ho & Hu & Hs).
      cbn [InitDb.bind_value].
      destruct (InitDb.bind_value 2 applied) as [app|e|e].
      * destruct Happlied as (Ho' & Hu' & Hs').
        unfold InitDb.bind_id. fold (int64 project_id).
        destruct (int64 project_id) eqn:Hid; cbn.
        -- split; [left; reflexivity|]. intros _. rewrite Ho, Hu. split; discriminate.
        -- split; [|intros _; rewrite Ho, Hu; split; discriminate].
           split; [reflexivity|]. split; [eauto|]. left. split; [reflexivity|].
           rewrite Ho, Ho'. reflexivity.
      * destruct Happlied as [-> Hs']. cbn.
        split; [|intros _; rewrite Ho, Hu; split; discriminate].
        right. exists (InitDb.UnsupportedType 2). split; [reflexivity|].
        split; [now rewrite <- app_assoc|]. right. rewrite Hs'. apply orb_true_r.
      * destruct Happlied as [Hs' [[-> Ho']|[-> Hu']]]; cbn.
        -- split; [|intros _; rewrite Ho, Hu; split; discriminate].
           split; [reflexivity|]. split; [eauto|]. left. split; [reflexivity|].
           rewrite Ho'. rewrite orb_true_r. reflexivity.
        -- split; [|intros _; rewrite Ho, Hu; split; discriminate].
           split; [reflexivity|]. split; [eauto|]. right. split; [reflexivity|].
           rewrite Hu'. apply orb_true_r.
    + destruct Himage as [-> Hs]. cbn.
      assert (Ho : overflows image = false) by (destruct image; try discriminate; reflexivity).
      assert (Hu : unencodable image = false)
        by (destruct image; try discriminate; reflexivity).
      split; [|intros _; rewrite Ho, Hu; split; discriminate].
      right. exists (InitDb.UnsupportedType 0). split; [reflexivity|].
      split; [now rewrite <- app_assoc|]. right. rewrite Hs. reflexivity.
    + destruct Himage as [Hs [[-> Ho]|[-> Hu]]]; cbn.
      * split.
        -- split; [reflexivity|]. split; [eauto|]. left. split; [reflexivity|].
           rewrite Ho. reflexivity.
        -- intros _. split; [reflexivity|].
           destruct image; discriminate.
      * split.
        -- split; [reflexivity|]. split; [eauto|]. right. split; [reflexivity|].
           rewrite Hu. reflexivity.
        -- intros _. split; [|reflexivity].
           destruct image; try discriminate.
  - cbn. split.
    + right. exists (InitDb.NoSuchTable "projects"). split; [reflexivity|].
      split; [now rewrite <- app_assoc|]. now left.
    + intros [c Hc]. discriminate.
Qed.

(** An image beyond 64 bits, and one with a lone surrogate. *)
Example update_project_overflow :
  InitDb.update_project sample_dumps "2024-05-02T10:00:00" 1
    (<["image" := InitDb.JInt (2 ^ 63)]> ∅) sample_projects
  = (Raise OverflowError, sample_projects).
Proof. vm_compute. reflexivity. Qed.

Example update_project_surrogate :
  InitDb.update_project sample_dumps "2024-05-02T10:00:00" 1
    (<["image" := InitDb.JSurrogates]> ∅) sample_projects
  = (Raise UnicodeEncodeError, sample_projects).
Proof. vm_compute. reflexivity. Qed.

(** A list as image: sqlite3 refuses the type, the error is logged twice and
    the call returns. *)
Example update_project_unsupported :
  InitDb.update_project sample_dumps "2024-05-02T10:00:00" 1
    (<["image" := InitDb.JList []]> ∅) sample_projects
  = (Ok tt,
     InitDb.logged (InitDb.ERROR "Error updating project: " (InitDb.UnsupportedType 0))
       (InitDb.logged (InitDb.ERROR "Error executing query: " (InitDb.UnsupportedType 0))
          sample_projects)).
Proof. vm_compute. reflexivity. Qed.
